(** * LumaScreen: the ring-light overlay of [ringlight.py] and
      [ringlight_original.py]

    The overlay widget keeps three parameters (thickness, brightness,
    colour), mutated through three setters, and a [paintEvent] that turns
    them and the widget size into paint commands.  Two variants of the
    class exist: the revised rounded frame ([ringlight.py]) and the
    original four-edge bloom ([ringlight_original.py]).

    Python values are embedded as follows: [int] is [Z]; [float] is an
    IEEE-754 binary64 number, given by the standard library's executable
    specification [spec_float] at precision 53 and maximal exponent 1024;
    exceptions are an explicit outcome; the widget is a record threaded
    through a state-and-exception monad. *)

From Stdlib Require Import ZArith Bool List Lia.
From Stdlib Require Import Floats.SpecFloat.
From Stdlib Require Strings.String Numbers.DecimalString.
Import ListNotations.
Local Open Scope Z_scope.

(** ** Python numbers *)

Module Py.

Definition prec : Z := 53.
Definition emax : Z := 1024.

(** A Python [float]. *)
Definition float : Type := spec_float.

(** Well-formed binary64 values: every Python float is one. *)
Definition float_valid (f : float) : bool := valid_binary prec emax f.

Definition fmul : float -> float -> float := SFmul prec emax.
Definition fdiv : float -> float -> float := SFdiv prec emax.
Definition flt : float -> float -> bool := SFltb.
Definition fle : float -> float -> bool := SFleb.
Definition feq : float -> float -> bool := SFeqb.

Definition is_nan (f : float) : bool :=
  match f with S754_nan => true | _ => false end.

Definition is_finite (f : float) : bool :=
  match f with
  | S754_zero _ | S754_finite _ _ _ => true
  | _ => false
  end.

Inductive exn : Set :=
| ValueError
| TypeError
| OverflowError
| AttributeError.

Inductive result (A : Type) : Type :=
| Done (a : A)
| Raise (e : exn).
Arguments Done {A} a.
Arguments Raise {A} e.

(** The nearest binary64 number to an integer (ties to even); overflows
    to an infinity. *)
Definition round_int (z : Z) : float := binary_normalize prec emax z 0 false.

(** Conversion of an [int] operand in mixed arithmetic ([int / float],
    [int * float]): correctly rounded, [OverflowError] when the integer
    is too large for a float. *)
Definition float_of_int (z : Z) : result float :=
  match round_int z with
  | S754_infinity _ => Raise OverflowError
  | f => Done f
  end.

(** The quotient of two small integer literals; this is how the decimal
    literals of the sources ([0.70], [0.45], ...) are obtained: a literal
    is the double nearest to the decimal, and so is the IEEE quotient of
    two exactly representable integers. *)
Definition decimal (n d : Z) : float := fdiv (round_int n) (round_int d).

(** [int(x)] on a float: truncation towards zero. *)
Definition int_of_float (f : float) : result Z :=
  match f with
  | S754_nan => Raise ValueError
  | S754_infinity _ => Raise OverflowError
  | S754_zero _ => Done 0
  | S754_finite s m e =>
      let a := match e with
               | Z0 => Zpos m
               | Zpos p => Zpos m * 2 ^ Zpos p
               | Zneg p => Zpos m / 2 ^ Zpos p
               end in
      Done (if s then - a else a)
  end.

(** The built-ins [max(a, b)] and [min(a, b)] return their first argument
    unless the second is strictly greater (smaller). *)
Definition fmax (a b : float) : float := if flt a b then b else a.
Definition fmin (a b : float) : float := if flt b a then b else a.
Definition imax (a b : Z) : Z := if a <? b then b else a.
Definition imin (a b : Z) : Z := if b <? a then b else a.

(** [round(x)] on a float: nearest integer, ties to even. *)
Definition round_half_even (f : float) : result Z :=
  match f with
  | S754_nan => Raise ValueError
  | S754_infinity _ => Raise OverflowError
  | S754_zero _ => Done 0
  | S754_finite s m e =>
      let a := match e with
               | Z0 => Zpos m
               | Zpos p => Zpos m * 2 ^ Zpos p
               | Zneg p =>
                   let q := Zpos m / 2 ^ Zpos p in
                   let r := Zpos m mod 2 ^ Zpos p in
                   match 2 * r ?= 2 ^ Zpos p with
                   | Lt => q
                   | Gt => q + 1
                   | Eq => if Z.even q then q else q + 1
                   end
               end in
      Done (if s then - a else a)
  end.

(** [str(z)] of an [int], which an f-string field [{z}] calls: CPython
    (3.11, and 3.10 from 3.10.7 on) converts no integer of more than
    [sys.get_int_max_str_digits()] decimal digits, 4300 unless it is
    reconfigured, and raises [ValueError] instead. *)
Definition int_max_str_digits : Z := 4300.

(** [10 ** 4300], computed once. *)
Definition str_limit : Z := Eval vm_compute in 10 ^ int_max_str_digits.

Definition str_digits_ok (z : Z) : bool := Z.abs z <? str_limit.

End Py.

(** ** The Qt values the overlay uses *)

Module Qt.

(** A [QColor] in the RGB model: the validity flag and four 8-bit
    channels. *)
Record QColor : Set := mkQColor {
  isValid : bool;
  red : Z;
  green : Z;
  blue : Z;
  alpha : Z
}.

Definition channel_ok (c : Z) : bool := (0 <=? c) && (c <=? 255).

(** The default-constructed colour: invalid, black. *)
Definition invalid_color : QColor := mkQColor false 0 0 0 255.

(** [QColor(r, g, b)]: opaque; invalid when a component is out of
    range. *)
Definition rgb (r g b : Z) : QColor :=
  if channel_ok r && channel_ok g && channel_ok b
  then mkQColor true r g b 255
  else invalid_color.

(** [c.setAlpha(a)]; Qt ignores an out-of-range argument. *)
Definition setAlpha (c : QColor) (a : Z) : QColor :=
  if channel_ok a
  then mkQColor (isValid c) (red c) (green c) (blue c) a
  else c.

(** What Qt guarantees of every [QColor] object: [red()], [green()],
    [blue()] and [alpha()] are 8-bit values. *)
Definition wf_color (c : QColor) : Prop :=
  channel_ok (red c) = true /\ channel_ok (green c) = true /\
  channel_ok (blue c) = true /\ channel_ok (alpha c) = true.

(** [QRect(x, y, w, h)] and [QRectF(x, y, w, h)] on integer arguments. *)
Record QRect : Set := mkQRect { rx : Z; ry : Z; rw : Z; rh : Z }.

(** [QLinearGradient(x1, y1, x2, y2)] with the colours set at positions
    0 and 1. *)
Record QLinearGradient : Set := mkGradient {
  gx1 : Z; gy1 : Z; gx2 : Z; gy2 : Z;
  at0 : QColor;
  at1 : QColor
}.

Inductive composition_mode : Set := SourceOver | Screen.

(** What a painter has been asked to fill. *)
Inductive fill : Set :=
| FillFrame (outer : QRect) (outer_radius : Z)
            (inner : QRect) (inner_radius : Z) (c : QColor)
    (** [fillPath(outer_path.subtracted(inner_path), c)] of two rounded
        rectangles *)
| FillRect (r : QRect) (g : QLinearGradient).

Record QPainter : Set := mkPainter {
  active : bool;
  mode : composition_mode;
  antialiasing : bool;
  fills : list fill
}.

Definition new_painter : QPainter := mkPainter true SourceOver false [].

End Qt.

(** ** The widget and the monad its methods run in *)

(** The Python objects the setters are handed: [None], an [int] (a [bool]
    is the [int] 0 or 1), a [float], a [QColor], and a tuple of ints for an
    object that is neither a number nor a colour and has none of their
    methods. *)
Inductive pyobj : Type :=
| PyNone
| PyInt (z : Z)
| PyFloat (f : Py.float)
| PyTuple (items : list Z)
| PyQColor (c : Qt.QColor).

(** [isinstance(x, (int, float))] *)
Definition is_numeric (x : pyobj) : bool :=
  match x with PyInt _ | PyFloat _ => true | _ => false end.

(** Arguments as Python and Qt can build them: floats are binary64 values
    and colours have 8-bit channels. *)
Definition wf_pyobj (x : pyobj) : Prop :=
  match x with
  | PyFloat f => Py.float_valid f = true
  | PyQColor c => Qt.wf_color c
  | _ => True
  end.

Inductive log_level : Set := DEBUG | INFO | WARNING | ERROR.

Inductive log_event : Set :=
| BrightnessOutOfRange
| BrightnessSet
| ThicknessBelowMinimum
| ThicknessSet
| NoneColorIgnored
| InvalidColorIgnored
| ColorSet
| InvalidDimensions
| ErrorInPaintEvent (e : Py.exn).

(** The attributes of [RingLightOverlay] that its methods read and write,
    the records sent to the logger, the number of [update()] requests and
    the painter of the last [paintEvent]. *)
Record overlay : Type := mkOverlay {
  thickness : Z;
  brightness : Py.float;
  color : Qt.QColor;
  width : Z;
  height : Z;
  logged : list (log_level * log_event);
  updates : nat;
  painter : Qt.QPainter
}.

Module M.
Import Py.

Definition t (A : Type) : Type := overlay -> result A * overlay.

Definition ret {A} (a : A) : t A := fun s => (Done a, s).

Definition bind {A B} (c : t A) (k : A -> t B) : t B :=
  fun s =>
    match c s with
    | (Done a, s') => k a s'
    | (Raise e, s') => (Raise e, s')
    end.

Definition raise {A} (e : exn) : t A := fun s => (Raise e, s).

Definition lift {A} (r : result A) : t A := fun s => (r, s).

Definition get {A} (f : overlay -> A) : t A := fun s => (Done (f s), s).

Definition modify (f : overlay -> overlay) : t unit :=
  fun s => (Done tt, f s).

(** [try: body  except Exception as e: handler(e)] *)
Definition try_except {A} (body : t A) (handler : exn -> t A) : t A :=
  fun s =>
    match body s with
    | (Done a, s') => (Done a, s')
    | (Raise e, s') => handler e s'
    end.

(** [try: body  finally: cleanup] *)
Definition try_finally {A} (body : t A) (cleanup : t unit) : t A :=
  fun s =>
    match body s with
    | (r, s') =>
        match cleanup s' with
        | (Done _, s'') => (r, s'')
        | (Raise e, s'') => (Raise e, s'')
        end
    end.

Definition when (b : bool) (c : t unit) : t unit :=
  if b then c else ret tt.

End M.

Declare Scope py_scope.
Delimit Scope py_scope with py.
Notation "x <- c ;; k" := (M.bind c (fun x => k))
  (at level 61, c at next level, right associativity) : py_scope.
Notation "c ;; k" := (M.bind c (fun _ => k))
  (at level 61, right associativity) : py_scope.
Open Scope py_scope.

Definition log (l : log_level) (e : log_event) : M.t unit :=
  M.modify (fun s =>
    mkOverlay (thickness s) (brightness s) (color s) (width s) (height s)
              (logged s ++ [(l, e)]) (updates s) (painter s)).

(** [self.update()]: one more repaint request. *)
Definition update : M.t unit :=
  M.modify (fun s =>
    mkOverlay (thickness s) (brightness s) (color s) (width s) (height s)
              (logged s) (S (updates s)) (painter s)).

Definition set_thickness_attr (v : Z) : M.t unit :=
  M.modify (fun s =>
    mkOverlay v (brightness s) (color s) (width s) (height s)
              (logged s) (updates s) (painter s)).

Definition set_brightness_attr (v : Py.float) : M.t unit :=
  M.modify (fun s =>
    mkOverlay (thickness s) v (color s) (width s) (height s)
              (logged s) (updates s) (painter s)).

Definition set_color_attr (v : Qt.QColor) : M.t unit :=
  M.modify (fun s =>
    mkOverlay (thickness s) (brightness s) v (width s) (height s)
              (logged s) (updates s) (painter s)).

Definition with_painter (f : Qt.QPainter -> Qt.QPainter) : M.t unit :=
  M.modify (fun s =>
    mkOverlay (thickness s) (brightness s) (color s) (width s) (height s)
              (logged s) (updates s) (f (painter s))).

(** [QPainter(self)] *)
Definition begin_painter : M.t unit := with_painter (fun _ => Qt.new_painter).

Definition setCompositionMode (m : Qt.composition_mode) : M.t unit :=
  with_painter (fun p =>
    Qt.mkPainter (Qt.active p) m (Qt.antialiasing p) (Qt.fills p)).

Definition setAntialiasing : M.t unit :=
  with_painter (fun p =>
    Qt.mkPainter (Qt.active p) (Qt.mode p) true (Qt.fills p)).

Definition paint (f : Qt.fill) : M.t unit :=
  with_painter (fun p =>
    Qt.mkPainter (Qt.active p) (Qt.mode p) (Qt.antialiasing p)
                 (Qt.fills p ++ [f])).

(** [painter.end()] *)
Definition end_painter : M.t unit :=
  with_painter (fun p =>
    Qt.mkPainter false (Qt.mode p) (Qt.antialiasing p) (Qt.fills p)).

(** *** Mixed [int]/[float] arithmetic and comparison *)

(** The exact order between an integer and a float, as Python's comparison
    of an [int] with a [float] decides it; [None] when the float is a
    NaN. *)
Definition compare_int_float (c : Z) (f : Py.float) : option comparison :=
  match f with
  | S754_nan => None
  | S754_infinity s => Some (if s then Gt else Lt)
  | S754_zero _ => Some (c ?= 0)
  | S754_finite s m e =>
      let v := if s then Zneg m else Zpos m in
      Some match e with
           | Z0 => c ?= v
           | Zpos p => c ?= v * 2 ^ Zpos p
           | Zneg p => c * 2 ^ Zpos p ?= v
           end
  end.

(** [c <= x] and [x <= c], [x < c] for an integer literal [c] and a
    numeric [x]. *)
Definition int_le_num (c : Z) (x : pyobj) : bool :=
  match x with
  | PyInt z => c <=? z
  | PyFloat f =>
      match compare_int_float c f with
      | Some (Lt | Eq) => true
      | _ => false
      end
  | _ => false
  end.

Definition num_le_int (x : pyobj) (c : Z) : bool :=
  match x with
  | PyInt z => z <=? c
  | PyFloat f =>
      match compare_int_float c f with
      | Some (Gt | Eq) => true
      | _ => false
      end
  | _ => false
  end.

Definition num_lt_int (x : pyobj) (c : Z) : bool :=
  match x with
  | PyInt z => z <? c
  | PyFloat f =>
      match compare_int_float c f with
      | Some Gt => true
      | _ => false
      end
  | _ => false
  end.

(** [x / d] for a float [d]; [TypeError] on a non-number. *)
Definition truediv_float (x : pyobj) (d : Py.float) : Py.result Py.float :=
  match x with
  | PyInt z =>
      match Py.float_of_int z with
      | Py.Done f => Py.Done (Py.fdiv f d)
      | Py.Raise e => Py.Raise e
      end
  | PyFloat f => Py.Done (Py.fdiv f d)
  | _ => Py.Raise Py.TypeError
  end.

(** [i * x] for an [int] [i] and a [float] [x]. *)
Definition int_mul_float (i : Z) (x : Py.float) : Py.result Py.float :=
  match Py.float_of_int i with
  | Py.Done f => Py.Done (Py.fmul f x)
  | Py.Raise e => Py.Raise e
  end.

(** [int(x)] *)
Definition py_int (x : pyobj) : Py.result Z :=
  match x with
  | PyInt z => Py.Done z
  | PyFloat f => Py.int_of_float f
  | _ => Py.Raise Py.TypeError
  end.

(** An f-string field [{x}] on a number: a [float] always formats, an
    [int] unless it has too many digits. *)
Definition printable (x : pyobj) : bool :=
  match x with
  | PyInt z => Py.str_digits_ok z
  | _ => true
  end.

(** The evaluation of such a field, before the record is handed to the
    logger. *)
Definition format_field (x : pyobj) : M.t unit :=
  M.when (negb (printable x)) (M.raise Py.ValueError).


(** ** [ringlight.py]: the revised overlay (rounded frame) *)

Module Ringlight.

(** [RingLightConfig] *)
Definition DEFAULT_THICKNESS : Z := 220.
Definition DEFAULT_BRIGHTNESS : Py.float := Py.decimal 1 1.
Definition DEFAULT_COLOR : Qt.QColor := Qt.rgb 255 255 255.
Definition MIN_THICKNESS : Z := 1.
Definition MAX_THICKNESS : Z := 900.
Definition MIN_BRIGHTNESS_PERCENT : Z := 0.
Definition MAX_BRIGHTNESS_PERCENT : Z := 200.
Definition MIN_BRIGHTNESS : Py.float := S754_zero false.
Definition MAX_BRIGHTNESS : Py.float := Py.decimal 2 1.
Definition MAX_ALPHA : Z := 220.
Definition SCREEN_MARGIN : Z := 10.
Definition OUTER_CORNER_RADIUS : Z := 20.

(** The attributes after [__init__], on a widget of the given size. *)
Definition init (w h : Z) : overlay :=
  mkOverlay DEFAULT_THICKNESS DEFAULT_BRIGHTNESS DEFAULT_COLOR w h [] 0
            (Qt.mkPainter false Qt.SourceOver false []).

Definition set_brightness_percent (value_0_200 : pyobj) : M.t unit :=
  M.when (negb (is_numeric value_0_200)) (M.raise Py.ValueError) ;;
  M.when (negb (int_le_num MIN_BRIGHTNESS_PERCENT value_0_200 &&
                num_le_int value_0_200 MAX_BRIGHTNESS_PERCENT))
         (format_field value_0_200 ;; log WARNING BrightnessOutOfRange) ;;
  q <- M.lift (truediv_float value_0_200 (Py.decimal 100 1)) ;;
  set_brightness_attr (Py.fmax MIN_BRIGHTNESS (Py.fmin MAX_BRIGHTNESS q)) ;;
  update ;;
  format_field value_0_200 ;;
  log DEBUG BrightnessSet.

Definition set_thickness (pixels : pyobj) : M.t unit :=
  M.when (negb (is_numeric pixels)) (M.raise Py.ValueError) ;;
  M.when (num_lt_int pixels MIN_THICKNESS)
         (format_field pixels ;; log WARNING ThicknessBelowMinimum) ;;
  n <- M.lift (py_int pixels) ;;
  set_thickness_attr (Py.imax MIN_THICKNESS n) ;;
  update ;;
  thickness <- M.get thickness ;;
  format_field (PyInt thickness) ;;
  log DEBUG ThicknessSet.

(** The debug record of [set_color] formats [red()], [green()] and
    [blue()], 8-bit values, which always format. *)
Definition set_color (new_color : pyobj) : M.t unit :=
  match new_color with
  | PyNone => log WARNING NoneColorIgnored
  | PyQColor c =>
      if negb (Qt.isValid c) then log WARNING InvalidColorIgnored
      else set_color_attr c ;; update ;; log DEBUG ColorSet
  | _ => M.raise Py.ValueError
  end.

(** The geometry of the frame, as [paintEvent] computes it from the widget
    size and the stored thickness. *)
Definition max_thickness (width height : Z) : Z :=
  let min_dimension := Py.imin width height in
  Py.imax MIN_THICKNESS (min_dimension / 2 - SCREEN_MARGIN).

Definition effective_thickness (thickness width height : Z) : Z :=
  Py.imin thickness (max_thickness width height).

Definition outer_rect (width height : Z) : Qt.QRect :=
  let margin := SCREEN_MARGIN in
  Qt.mkQRect margin margin (width - 2 * margin) (height - 2 * margin).

Definition inner_rect (thickness width height : Z) : Qt.QRect :=
  let margin := SCREEN_MARGIN in
  let effective_thickness := effective_thickness thickness width height in
  Qt.mkQRect (margin + effective_thickness) (margin + effective_thickness)
             (width - 2 * (margin + effective_thickness))
             (height - 2 * (margin + effective_thickness)).

Definition inner_radius (thickness width height : Z) : Z :=
  Py.imax 0 (OUTER_CORNER_RADIUS - effective_thickness thickness width height).

(** [alpha = int(255 * self.brightness); alpha = max(0, min(255, alpha))] *)
Definition fill_alpha (brightness : Py.float) : Py.result Z :=
  match int_mul_float 255 brightness with
  | Py.Done x =>
      match Py.int_of_float x with
      | Py.Done alpha => Py.Done (Py.imax 0 (Py.imin 255 alpha))
      | Py.Raise e => Py.Raise e
      end
  | Py.Raise e => Py.Raise e
  end.

Definition paint_body : M.t unit :=
  setCompositionMode Qt.Screen ;;
  setAntialiasing ;;
  width <- M.get width ;;
  height <- M.get height ;;
  if (width <=? 0) || (height <=? 0) then log WARNING InvalidDimensions
  else
    thickness <- M.get thickness ;;
    brightness <- M.get brightness ;;
    color <- M.get color ;;
    alpha <- M.lift (fill_alpha brightness) ;;
    let solid_color := Qt.setAlpha color alpha in
    paint (Qt.FillFrame (outer_rect width height) OUTER_CORNER_RADIUS
                        (inner_rect thickness width height)
                        (inner_radius thickness width height)
                        solid_color).

Definition paintEvent : M.t unit :=
  begin_painter ;;
  M.try_finally
    (M.try_except paint_body (fun e => log ERROR (ErrorInPaintEvent e)))
    end_painter.

End Ringlight.

(** ** [ringlight_original.py]: the original overlay (layered bloom) *)

Module RinglightOriginal.

Definition DEFAULT_THICKNESS : Z := 220.
Definition DEFAULT_BRIGHTNESS : Py.float := Py.decimal 80 100.
Definition DEFAULT_COLOR : Qt.QColor := Qt.rgb 255 255 255.
Definition MIN_THICKNESS : Z := 1.
Definition MAX_THICKNESS : Z := 900.
Definition MIN_BRIGHTNESS : Py.float := S754_zero false.
Definition MAX_BRIGHTNESS : Py.float := Py.decimal 2 1.

Definition init (w h : Z) : overlay :=
  mkOverlay DEFAULT_THICKNESS DEFAULT_BRIGHTNESS DEFAULT_COLOR w h [] 0
            (Qt.mkPainter false Qt.SourceOver false []).

Definition set_brightness_percent (value_0_200 : pyobj) : M.t unit :=
  q <- M.lift (truediv_float value_0_200 (Py.decimal 100 1)) ;;
  set_brightness_attr (Py.fmax MIN_BRIGHTNESS (Py.fmin MAX_BRIGHTNESS q)) ;;
  update ;;
  format_field value_0_200 ;;
  log DEBUG BrightnessSet.

Definition set_thickness (pixels : pyobj) : M.t unit :=
  n <- M.lift (py_int pixels) ;;
  set_thickness_attr (Py.imax MIN_THICKNESS n) ;;
  update ;;
  thickness <- M.get thickness ;;
  format_field (PyInt thickness) ;;
  log DEBUG ThicknessSet.

(** Truth value of an object, for [if new_color and ...]. *)
Definition truthy (x : pyobj) : bool :=
  match x with
  | PyNone => false
  | PyInt z => negb (z =? 0)
  | PyFloat (S754_zero _) => false
  | PyFloat _ => true
  | PyTuple [] => false
  | PyTuple _ => true
  | PyQColor _ => true
  end.

(** [new_color.isValid()] raises [AttributeError] on every object of
    [pyobj] that is not a colour: none of them has the method. *)
Definition set_color (new_color : pyobj) : M.t unit :=
  if truthy new_color then
    match new_color with
    | PyQColor c =>
        if Qt.isValid c then set_color_attr c ;; update ;; log DEBUG ColorSet
        else M.ret tt
    | _ => M.raise Py.AttributeError
    end
  else M.ret tt.

(** The layer table of [paintEvent]: (intensity, size multiplier). *)
Definition layers : list (Py.float * Py.float) :=
  [ (Py.decimal 100 100, Py.decimal 100 100);
    (Py.decimal 70 100, Py.decimal 75 100);
    (Py.decimal 45 100, Py.decimal 55 100);
    (Py.decimal 25 100, Py.decimal 40 100) ].

(** [t = min(self.thickness, max(1, min(w, h)))] *)
Definition capped_thickness (thickness w h : Z) : Z :=
  Py.imin thickness (Py.imax 1 (Py.imin w h)).

(** [size = max(1, int(t * mul))] *)
Definition layer_size (t : Z) (mul : Py.float) : Py.result Z :=
  match int_mul_float t mul with
  | Py.Done x =>
      match Py.int_of_float x with
      | Py.Done n => Py.Done (Py.imax 1 n)
      | Py.Raise e => Py.Raise e
      end
  | Py.Raise e => Py.Raise e
  end.

(** [alpha = int(255 * self.brightness * intensity);
     alpha = max(0, min(220, alpha))] *)
Definition layer_alpha (brightness intensity : Py.float) : Py.result Z :=
  match int_mul_float 255 brightness with
  | Py.Done x =>
      match Py.int_of_float (Py.fmul x intensity) with
      | Py.Done alpha => Py.Done (Py.imax 0 (Py.imin 220 alpha))
      | Py.Raise e => Py.Raise e
      end
  | Py.Raise e => Py.Raise e
  end.

(** The four gradient bands of one layer: top, bottom, left, right. *)
Definition edge_bands (w h size : Z) (c transparent : Qt.QColor) : list Qt.fill :=
  [ Qt.FillRect (Qt.mkQRect 0 0 w size)
                (Qt.mkGradient 0 0 0 size c transparent);
    Qt.FillRect (Qt.mkQRect 0 (h - size) w size)
                (Qt.mkGradient 0 h 0 (h - size) c transparent);
    Qt.FillRect (Qt.mkQRect 0 0 size h)
                (Qt.mkGradient 0 0 size 0 c transparent);
    Qt.FillRect (Qt.mkQRect (w - size) 0 size h)
                (Qt.mkGradient w 0 (w - size) 0 c transparent) ].

Definition paint_layer (w h t : Z) (base : Qt.QColor)
    (layer : Py.float * Py.float) : M.t unit :=
  let (intensity, mul) := layer in
  size <- M.lift (layer_size t mul) ;;
  brightness <- M.get brightness ;;
  alpha <- M.lift (layer_alpha brightness intensity) ;;
  let c := Qt.setAlpha base alpha in
  let transparent := Qt.setAlpha base 0 in
  fold_right (fun f k => paint f ;; k) (M.ret tt)
             (edge_bands w h size c transparent).

Fixpoint for_each {A} (body : A -> M.t unit) (l : list A) : M.t unit :=
  match l with
  | [] => M.ret tt
  | x :: l' => body x ;; for_each body l'
  end.

Definition paintEvent : M.t unit :=
  begin_painter ;;
  setCompositionMode Qt.Screen ;;
  w <- M.get width ;;
  h <- M.get height ;;
  thickness <- M.get thickness ;;
  let t := capped_thickness thickness w h in
  base <- M.get color ;;
  for_each (paint_layer w h t base) layers ;;
  end_painter.

End RinglightOriginal.

(** ** Runs of setter calls, and the properties the spec states *)

Inductive setter_call : Type :=
| SetThickness (x : pyobj)
| SetBrightnessPercent (x : pyobj)
| SetColor (x : pyobj).

Definition wf_call (c : setter_call) : Prop :=
  match c with
  | SetThickness x | SetBrightnessPercent x | SetColor x => wf_pyobj x
  end.

Definition call_revised (c : setter_call) : M.t unit :=
  match c with
  | SetThickness x => Ringlight.set_thickness x
  | SetBrightnessPercent x => Ringlight.set_brightness_percent x
  | SetColor x => Ringlight.set_color x
  end.

Definition call_original (c : setter_call) : M.t unit :=
  match c with
  | SetThickness x => RinglightOriginal.set_thickness x
  | SetBrightnessPercent x => RinglightOriginal.set_brightness_percent x
  | SetColor x => RinglightOriginal.set_color x
  end.


(** The stored brightness is a binary64 number between [0.0] and [2.0]. *)
Definition brightness_ok (s : overlay) : Prop :=
  Py.float_valid (brightness s) = true /\
  Py.fle (S754_zero false) (brightness s) = true /\
  Py.fle (brightness s) (Py.decimal 2 1) = true.

(** What the setters maintain. *)
Definition parameters_ok (s : overlay) : Prop :=
  1 <= thickness s /\ brightness_ok s /\ Qt.wf_color (color s).

(** The widget with another stored thickness. *)
Definition with_thickness (t : Z) (s : overlay) : overlay :=
  mkOverlay t (brightness s) (color s) (width s) (height s)
            (logged s) (updates s) (painter s).

(** A numeric argument that is an [int] or a finite [float]. *)
Definition finite_number (x : pyobj) : bool :=
  match x with
  | PyInt _ => true
  | PyFloat f => Py.is_finite f
  | _ => false
  end.

(** A numeric argument that [x / 100.0] accepts: a [float], or an [int]
    that rounds to a float, which those below [2 ** 1024 - 2 ** 970] in
    absolute value do. *)
Definition float_convertible (x : pyobj) : Prop :=
  match x with
  | PyInt z => Z.abs z < 2 ^ 1024 - 2 ^ 970
  | PyFloat _ => True
  | _ => False
  end.

Definition not_nan (x : pyobj) : bool :=
  match x with
  | PyFloat f => negb (Py.is_nan f)
  | _ => true
  end.

(** [0 <= v <= 200] *)
Definition percent_in_range (v : pyobj) : bool :=
  int_le_num 0 v && num_le_int v 200.

(** The alpha of the spec's words, [clamp(round(255 * b), 0, cap)], with
    Python's [round]. *)
Definition spec_alpha (cap : Z) (x : Py.float) : Py.result Z :=
  match Py.round_half_even x with
  | Py.Done n => Py.Done (Z.max 0 (Z.min cap n))
  | Py.Raise e => Py.Raise e
  end.

Definition spec_fill_alpha (brightness : Py.float) : Py.result Z :=
  match int_mul_float 255 brightness with
  | Py.Done x => spec_alpha 255 x
  | Py.Raise e => Py.Raise e
  end.

Definition spec_layer_alpha (brightness intensity : Py.float) : Py.result Z :=
  match int_mul_float 255 brightness with
  | Py.Done x => spec_alpha 220 (Py.fmul x intensity)
  | Py.Raise e => Py.Raise e
  end.

(** What the last [paintEvent] asked the painter to fill. *)
Definition frame (s : overlay) : list Qt.fill := Qt.fills (painter s).

(** The inner rectangle, inner radius and fill alpha of a painted rounded
    frame. *)
Definition frame_inner_radius (s : overlay) : option Z :=
  match frame s with
  | [Qt.FillFrame _ _ _ r _] => Some r
  | _ => None
  end.

Definition frame_alpha (s : overlay) : option Z :=
  match frame s with
  | [Qt.FillFrame _ _ _ _ c] => Some (Qt.alpha c)
  | _ => None
  end.

(** The alpha at the edge of a gradient band. *)
Definition band_alpha (f : Qt.fill) : option Z :=
  match f with
  | Qt.FillRect _ g => Some (Qt.alpha (Qt.at0 g))
  | _ => None
  end.

Definition band_rect (f : Qt.fill) : option Qt.QRect :=
  match f with
  | Qt.FillRect r _ => Some r
  | _ => None
  end.

(** A size as Qt hands it to the widget: a C [int]. *)
Definition qt_int (z : Z) : Prop := - 2 ^ 31 <= z < 2 ^ 31.

(** The four bands the original [paintEvent] paints for one layer of its
    table, when the layer's size and alpha are computed without an
    exception. *)
Definition layer_bands (w h t : Z) (brightness : Py.float) (base : Qt.QColor)
    (layer : Py.float * Py.float) : list Qt.fill :=
  match RinglightOriginal.layer_size t (snd layer),
        RinglightOriginal.layer_alpha brightness (fst layer) with
  | Py.Done size, Py.Done alpha =>
      RinglightOriginal.edge_bands w h size (Qt.setAlpha base alpha)
                                   (Qt.setAlpha base 0)
  | _, _ => []
  end.

(** The size multipliers of the layer table, in percent. *)
Definition size_percent : list Z := [100; 75; 55; 40].

(** The rectangles of the four bands of a layer of size [z]: top, bottom,
    left, right. *)
Definition band_rects (w h z : Z) : list (option Qt.QRect) :=
  [ Some (Qt.mkQRect 0 0 w z);
    Some (Qt.mkQRect 0 (h - z) w z);
    Some (Qt.mkQRect 0 0 z h);
    Some (Qt.mkQRect (w - z) 0 z h) ].


(** ** The literals of the sources as binary64 numbers *)

Module Literals.

Definition zero : Py.float := S754_zero false.
Definition one : Py.float := S754_finite false 4503599627370496 (-52).
Definition two : Py.float := S754_finite false 4503599627370496 (-51).
Definition hundred : Py.float := S754_finite false 7036874417766400 (-46).
Definition f255 : Py.float := S754_finite false 8972014882652160 (-45).

End Literals.

(** A layer of the table: two positive finite literals, neither above
    [1.0]. *)
Definition table_layer (l : Py.float * Py.float) : Prop :=
  exists mi ei mm em,
    l = (S754_finite false mi ei, S754_finite false mm em) /\
    Zpos mi < 2 ^ 53 /\ ei <= 0 /\ Zpos mm < 2 ^ 53 /\ em <= 0.


(** ** Binary64 rounding, in arithmetic terms *)

Module Binary64.

Definition fexp (e : Z) : Z := SpecFloat.fexp Py.prec Py.emax e.

(** The second normalisation and the final classification of
    [binary_round_aux], as a function of the rounded mantissa [m1] at
    exponent [e1]. *)
Definition finish (s : bool) (m1 e1 : Z) : spec_float :=
  let e2 := Z.max e1 (fexp (Zdigits2 m1 + e1)) in
  match m1 / 2 ^ (e2 - e1) with
  | Z0 => S754_zero s
  | Zpos m => if e2 <=? 971 then S754_finite s m e2 else S754_infinity s
  | Zneg _ => S754_nan
  end.

End Binary64.

(** ** What is stated of the setters and the painters *)

(** A fill that is a rectangle of positive size inside a [w] by [h]
    surface. *)
Definition inside_surface (w h : Z) (f : Qt.fill) : Prop :=
  match f with
  | Qt.FillRect r _ =>
      0 <= Qt.rx r /\ 0 <= Qt.ry r /\ 1 <= Qt.rw r /\ 1 <= Qt.rh r /\
      Qt.rx r + Qt.rw r <= w /\ Qt.ry r + Qt.rh r <= h
  | Qt.FillFrame _ _ _ _ _ => False
  end.

(** The three parameters of the overlay are the same in both states. *)
Definition same_parameters (s s' : overlay) : Prop :=
  thickness s' = thickness s /\ brightness s' = brightness s /\ color s' = color s.

(** What a setter call may do to the widget: nothing to the parameters
    and no repaint request when it raises; one repaint request, or no
    change of a parameter at all, when it returns; nothing to the size and
    the painter. *)
Definition exception_safe (call : setter_call -> M.t unit) (c : setter_call)
    (s : overlay) : Prop :=
  let s' := snd (call c s) in
  (forall e, fst (call c s) = Py.Raise e ->
     same_parameters s s' /\ updates s' = updates s) /\
  (fst (call c s) = Py.Done tt ->
     updates s' = S (updates s) \/
     (same_parameters s s' /\ updates s' = updates s)) /\
  width s' = width s /\ height s' = height s /\ painter s' = painter s.

(** Two calls end alike: both return or both raise the same exception,
    and they leave the same parameters and the same number of repaint
    requests. *)
Definition same_outcome (a b : Py.result unit * overlay) : Prop :=
  fst a = fst b /\ same_parameters (snd a) (snd b) /\
  updates (snd a) = updates (snd b).

(** A [set_thickness] call on an [int] of at least 1 that [str] does not
    convert. *)
Definition overlong (c : setter_call) : bool :=
  match c with
  | SetThickness (PyInt z) => (1 <=? z) && negb (Py.str_digits_ok z)
  | _ => false
  end.

(** The call raises [ValueError] having stored its argument as the
    thickness and requested a repaint; nothing else is changed and
    nothing is logged. *)
Definition stored_before_raising (call : setter_call -> M.t unit)
    (c : setter_call) (s : overlay) : Prop :=
  exists z,
    c = SetThickness (PyInt z) /\
    call c s
    = (Py.Raise Py.ValueError,
       mkOverlay z (brightness s) (color s) (width s) (height s)
                 (logged s) (S (updates s)) (painter s)).

(** The arguments the setters document: a number for [set_thickness] and
    [set_brightness_percent], [None] or a [QColor] for [set_color]. *)
Definition documented (c : setter_call) : Prop :=
  match c with
  | SetThickness x | SetBrightnessPercent x => is_numeric x = true
  | SetColor x => x = PyNone \/ exists col, x = PyQColor col
  end.

(** ** The application around the overlay ([ringlight.py]): the overlay
       as a window, the control panel, and [main] *)

Module Gui.
Import Stdlib.Strings.String.
Local Open Scope string_scope.
Local Open Scope list_scope.
Local Open Scope Z_scope.

(** *** What the program gets from outside *)

(** [sys.version_info] (major, minor), the geometry a fresh top-level
    widget is given by the platform, what [QApplication.primaryScreen()]
    returns at start-up (the geometry of the primary screen, or [None]),
    whether [PySide6.QtSvg] can be imported, and the exception, if any,
    that rendering the icon raises. *)
Record environment : Type := mkEnvironment {
  version_info : Z * Z;
  default_geometry : Qt.QRect;
  primaryScreen : option Qt.QRect;
  qtsvg_importable : bool;
  icon_rendering : option Py.exn
}.

(** *** Widgets *)

Inductive window_flag : Set :=
| FramelessWindowHint
| WindowStaysOnTopHint
| Tool
| WindowTransparentForInput.

Inductive widget_attribute : Set :=
| WA_TranslucentBackground
| WA_TransparentForMouseEvents.

(** The [RingLightOverlay] as a top-level window: the attributes and size
    the paint code reads ([self]), the origin of its geometry, whether it
    is shown, its window flags and attributes, and the interval of its
    running poll timer. *)
Record window : Type := mkWindow {
  self : overlay;
  origin : Z * Z;
  isVisible : bool;
  windowFlags : list window_flag;
  attributes : list widget_attribute;
  _poll_timer : option Z
}.

(** [self.geometry()] *)
Definition geometry (w : window) : Qt.QRect :=
  Qt.mkQRect (fst (origin w)) (snd (origin w)) (width (self w)) (height (self w)).

(** [QRect.__eq__] *)
Definition rect_eqb (a b : Qt.QRect) : bool :=
  (Qt.rx a =? Qt.rx b) && (Qt.ry a =? Qt.ry b) &&
  (Qt.rw a =? Qt.rw b) && (Qt.rh a =? Qt.rh b).

(** A [QSlider]: its range, its value, and whether [valueChanged] has been
    connected to the panel's handler. *)
Record QSlider : Set := mkSlider {
  minimum : Z;
  maximum : Z;
  value : Z;
  connected : bool
}.

(** [QSlider(Qt.Horizontal)]: range 0..99, value 0. *)
Definition new_slider : QSlider := mkSlider 0 99 0 false.

(** [qBound(minimum, v, maximum)] *)
Definition bound (s : QSlider) (v : Z) : Z :=
  Z.max (minimum s) (Z.min (maximum s) v).

(** The attributes of [ControlPanel] that its methods write after
    construction: the two sliders, the texts of the two value labels, the
    style sheet and tool tip of the colour preview, the text and style
    sheet of the toggle button, whether a window icon is set, whether the
    panel is shown, and whether it is being closed (the mark by which Qt
    does not close a widget again from within its own close event).
    Before [_setup_ui] assigns them they are held at Qt's
    default-constructed widgets. *)
Record panel : Set := mkPanel {
  brightness_slider : QSlider;
  brightness_value : string;
  thickness_slider : QSlider;
  thickness_value : string;
  color_preview : string * string;
  toggle_btn : string * string;
  windowIcon : bool;
  panel_shown : bool;
  is_closing : bool
}.

Definition new_panel : panel :=
  mkPanel new_slider "" new_slider "" ("", "") ("", "") false false false.

(** [QApplication]: its names and whether [quit()] has been called. *)
Record QApplication : Set := mkApplication {
  applicationName : string;
  organizationName : string;
  quit_called : bool
}.

(** What can be raised: the built-in exceptions of the setters and
    [ImportError], all subclasses of [Exception], and
    [KeyboardInterrupt], which is not. *)
Inductive raised : Set :=
| Exception (e : Py.exn)
| ImportError
| KeyboardInterrupt.

(** The records the window, the panel and [main] send to the logger (those
    of the setters and of [paintEvent] are in the overlay's [logged]). *)
Inductive app_event : Set :=
| OverlayInitialized
| NoPrimaryScreen
| ScreenGeometryUpdated (w h : Z)
| ControlPanelInitialized
| WindowIconSet
| WindowIconFailed (e : raised)
| PresetApplied (brightness thickness : Z)
| ScreenLightOff
| ScreenLightOn
| PanicPressed
| ClosingApplication
| PythonTooOld
| StartingApplication
| ApplicationExiting (exit_code : Z)
| FatalApplicationError
| InterruptedByUser.

(** The objects of the program: the overlay, the panel, the application
    instance if there is one, and the log. *)
Record gui : Type := mkGui {
  overlay_window : window;
  control_panel : panel;
  instance : option QApplication;
  journal : list (log_level * app_event)
}.

(** *** The monad of the window and panel methods *)

(** [isinstance(e, Exception)] *)
Definition is_Exception (e : raised) : bool :=
  match e with KeyboardInterrupt => false | _ => true end.

(** The outcome of a call: it returned, it raised, or it has not returned
    yet (the event loop is still waiting for events). *)
Inductive result (A : Type) : Type :=
| Done (a : A)
| Raise (e : raised)
| Pending.
Arguments Done {A} a.
Arguments Raise {A} e.
Arguments Pending {A}.

Definition t (A : Type) : Type := gui -> result A * gui.

Definition ret {A} (a : A) : t A := fun g => (Done a, g).

Definition bind {A B} (c : t A) (k : A -> t B) : t B :=
  fun g =>
    match c g with
    | (Done a, g') => k a g'
    | (Raise e, g') => (Raise e, g')
    | (Pending, g') => (Pending, g')
    end.

Definition raise {A} (e : raised) : t A := fun g => (Raise e, g).

Definition pending {A} : t A := fun g => (Pending, g).

Definition lift {A} (r : Py.result A) : t A :=
  fun g =>
    match r with
    | Py.Done a => (Done a, g)
    | Py.Raise e => (Raise (Exception e), g)
    end.

Definition get {A} (f : gui -> A) : t A := fun g => (Done (f g), g).

Definition modify (f : gui -> gui) : t unit := fun g => (Done tt, f g).

Definition when (b : bool) (c : t unit) : t unit := if b then c else ret tt.

(** [try: body  except ...: ...]; [clauses e] is the body of the first
    [except] clause that matches [e], if one does. *)
Definition try_except {A} (body : t A) (clauses : raised -> option (t A)) : t A :=
  fun g =>
    match body g with
    | (Raise e, g') =>
        match clauses e with
        | Some handler => handler g'
        | None => (Raise e, g')
        end
    | r => r
    end.

Declare Scope gui_scope.
Delimit Scope gui_scope with gui.
Notation "x <- c ;; k" := (bind c (fun x => k))
  (at level 61, c at next level, right associativity) : gui_scope.
Notation "c ;; k" := (bind c (fun _ => k))
  (at level 61, right associativity) : gui_scope.
Local Open Scope gui_scope.

Definition with_window (f : window -> window) : t unit :=
  modify (fun g =>
    mkGui (f (overlay_window g)) (control_panel g) (instance g) (journal g)).

Definition with_panel (f : panel -> panel) : t unit :=
  modify (fun g =>
    mkGui (overlay_window g) (f (control_panel g)) (instance g) (journal g)).

Definition with_instance (f : option QApplication -> option QApplication) : t unit :=
  modify (fun g =>
    mkGui (overlay_window g) (control_panel g) (f (instance g)) (journal g)).

(** [logger.debug(...)], [logger.info(...)], ... *)
Definition logger (l : log_level) (e : app_event) : t unit :=
  modify (fun g =>
    mkGui (overlay_window g) (control_panel g) (instance g)
          (journal g ++ [(l, e)])).

Definition with_self (o : overlay) (w : window) : window :=
  mkWindow o (origin w) (isVisible w) (windowFlags w) (attributes w)
           (_poll_timer w).

(** A method of the overlay run on [self.overlay]. *)
Definition on_overlay {A} (method : M.t A) : t A :=
  fun g =>
    match method (self (overlay_window g)) with
    | (r, o) =>
        (match r with
         | Py.Done a => Done a
         | Py.Raise e => Raise (Exception e)
         end,
         mkGui (with_self o (overlay_window g)) (control_panel g)
               (instance g) (journal g))
    end.

(** [self.overlay.<attribute>] *)
Definition overlay_attr {A} (f : overlay -> A) : t A :=
  get (fun g => f (self (overlay_window g))).

(** [str(n)] of an [int], as an f-string prints it. *)
Definition str (n : Z) : string :=
  Stdlib.Numbers.DecimalString.NilZero.string_of_int (Z.to_int n).

(** An [int] that fits Qt's C [int] parameters. *)
Definition fits_int (z : Z) : bool := (- 2 ^ 31 <=? z) && (z <? 2 ^ 31).

(** [x * i] for a [float] [x] and an [int] [i]. *)
Definition float_mul_int (x : Py.float) (i : Z) : Py.result Py.float :=
  match Py.float_of_int i with
  | Py.Done f => Py.Done (Py.fmul x f)
  | Py.Raise e => Py.Raise e
  end.

(** *** [RingLightOverlay]: the window *)

Module RingLightOverlay.

Definition GEOMETRY_POLL_INTERVAL_MS : Z := 1000.

(** [self.setGeometry(geom)] *)
Definition setGeometry (geom : Qt.QRect) : t unit :=
  with_window (fun w =>
    let s := self w in
    mkWindow (mkOverlay (thickness s) (brightness s) (color s)
                        (Qt.rw geom) (Qt.rh geom)
                        (logged s) (updates s) (painter s))
             (Qt.rx geom, Qt.ry geom) (isVisible w) (windowFlags w)
             (attributes w) (_poll_timer w)).

Definition setVisible (b : bool) : t unit :=
  with_window (fun w =>
    mkWindow (self w) (origin w) b (windowFlags w) (attributes w)
             (_poll_timer w)).

(** [self.show()], [self.hide()], and [self.close()] of a widget that
    accepts its close event. *)
Definition show : t unit := setVisible true.
Definition hide : t unit := setVisible false.
Definition close : t unit := setVisible false.

(** [screen] is what [QApplication.primaryScreen()] returns at the call:
    the geometry of the primary screen, or [None]. *)
Definition _apply_screen_geometry (screen : option Qt.QRect) : t unit :=
  match screen with
  | None => logger WARNING NoPrimaryScreen
  | Some geom =>
      current <- get (fun g => geometry (overlay_window g)) ;;
      if negb (rect_eqb current geom) then
        setGeometry geom ;;
        on_overlay update ;;
        logger DEBUG (ScreenGeometryUpdated (Qt.rw geom) (Qt.rh geom))
      else ret tt
  end.

(** [__init__], on the widget [super().__init__()] has made. *)
Definition __init__ (env : environment) : t unit :=
  with_window (fun _ =>
    mkWindow (Ringlight.init (Qt.rw (default_geometry env))
                             (Qt.rh (default_geometry env)))
             (Qt.rx (default_geometry env), Qt.ry (default_geometry env))
             false [] [] None) ;;
  with_window (fun w =>
    mkWindow (self w) (origin w) (isVisible w)
             [FramelessWindowHint; WindowStaysOnTopHint; Tool;
              WindowTransparentForInput]
             (attributes w) (_poll_timer w)) ;;
  with_window (fun w =>
    mkWindow (self w) (origin w) (isVisible w) (windowFlags w)
             (attributes w ++ [WA_TranslucentBackground]) (_poll_timer w)) ;;
  with_window (fun w =>
    mkWindow (self w) (origin w) (isVisible w) (windowFlags w)
             (attributes w ++ [WA_TransparentForMouseEvents]) (_poll_timer w)) ;;
  _apply_screen_geometry (primaryScreen env) ;;
  show ;;
  with_window (fun w =>
    mkWindow (self w) (origin w) (isVisible w) (windowFlags w) (attributes w)
             (Some GEOMETRY_POLL_INTERVAL_MS)) ;;
  logger INFO OverlayInitialized.

End RingLightOverlay.

(** *** [ControlPanel] *)

Module ControlPanel.

(** What [ControlPanel(...)] is handed: [None], an object that is not a
    [RingLightOverlay], or the overlay. *)
Inductive argument : Type :=
| PassNone
| PassObject (x : pyobj)
| PassOverlay.

Definition set_brightness_slider (s : QSlider) : t unit :=
  with_panel (fun p =>
    mkPanel s (brightness_value p) (thickness_slider p) (thickness_value p)
            (color_preview p) (toggle_btn p) (windowIcon p) (panel_shown p) (is_closing p)).

Definition set_brightness_value (text : string) : t unit :=
  with_panel (fun p =>
    mkPanel (brightness_slider p) text (thickness_slider p) (thickness_value p)
            (color_preview p) (toggle_btn p) (windowIcon p) (panel_shown p) (is_closing p)).

Definition set_thickness_slider (s : QSlider) : t unit :=
  with_panel (fun p =>
    mkPanel (brightness_slider p) (brightness_value p) s (thickness_value p)
            (color_preview p) (toggle_btn p) (windowIcon p) (panel_shown p) (is_closing p)).

Definition set_thickness_value (text : string) : t unit :=
  with_panel (fun p =>
    mkPanel (brightness_slider p) (brightness_value p) (thickness_slider p) text
            (color_preview p) (toggle_btn p) (windowIcon p) (panel_shown p) (is_closing p)).

Definition set_color_preview (style tip : string) : t unit :=
  with_panel (fun p =>
    mkPanel (brightness_slider p) (brightness_value p) (thickness_slider p)
            (thickness_value p) (style, tip) (toggle_btn p) (windowIcon p)
            (panel_shown p) (is_closing p)).

Definition set_toggle_btn (b : string * string) : t unit :=
  with_panel (fun p =>
    mkPanel (brightness_slider p) (brightness_value p) (thickness_slider p)
            (thickness_value p) (color_preview p) b (windowIcon p)
            (panel_shown p) (is_closing p)).

(** [self.toggle_btn.setText(...)] and [self.toggle_btn.setStyleSheet(...)] *)
Definition setText (text : string) : t unit :=
  b <- get (fun g => toggle_btn (control_panel g)) ;;
  set_toggle_btn (text, snd b).

Definition setStyleSheet (style : string) : t unit :=
  b <- get (fun g => toggle_btn (control_panel g)) ;;
  set_toggle_btn (fst b, style).

Definition setWindowIcon : t unit :=
  with_panel (fun p =>
    mkPanel (brightness_slider p) (brightness_value p) (thickness_slider p)
            (thickness_value p) (color_preview p) (toggle_btn p) true
            (panel_shown p) (is_closing p)).

Definition set_panel_shown (b : bool) : t unit :=
  with_panel (fun p =>
    mkPanel (brightness_slider p) (brightness_value p) (thickness_slider p)
            (thickness_value p) (color_preview p) (toggle_btn p) (windowIcon p)
            b (is_closing p)).

Definition set_is_closing (b : bool) : t unit :=
  with_panel (fun p =>
    mkPanel (brightness_slider p) (brightness_value p) (thickness_slider p)
            (thickness_value p) (color_preview p) (toggle_btn p) (windowIcon p)
            (panel_shown p) b).

(** [slider.setValue(v)]: the argument must fit a C [int]; the value is
    bounded to the range, and [valueChanged] is emitted, calling the
    connected handler, only when the value changes. *)
Definition setValue (read : panel -> QSlider) (write : QSlider -> t unit)
    (handler : Z -> t unit) (v : Z) : t unit :=
  when (negb (fits_int v)) (raise (Exception Py.OverflowError)) ;;
  s <- get (fun g => read (control_panel g)) ;;
  let v := bound s v in
  if value s =? v then ret tt
  else
    write (mkSlider (minimum s) (maximum s) v (connected s)) ;;
    if connected s then handler v else ret tt.

(** [slider.setRange(lo, hi)]: the value is bounded again when the range
    changes. *)
Definition setRange (read : panel -> QSlider) (write : QSlider -> t unit)
    (handler : Z -> t unit) (lo hi : Z) : t unit :=
  s <- get (fun g => read (control_panel g)) ;;
  let hi := Z.max lo hi in
  if (minimum s =? lo) && (maximum s =? hi) then ret tt
  else
    write (mkSlider lo hi (value s) (connected s)) ;;
    setValue read write handler (value s).

(** [slider.valueChanged.connect(handler)] *)
Definition connect (read : panel -> QSlider) (write : QSlider -> t unit) : t unit :=
  s <- get (fun g => read (control_panel g)) ;;
  write (mkSlider (minimum s) (maximum s) (value s) true).

Definition _on_brightness_changed (value : Z) : t unit :=
  set_brightness_value (concat "" [str value; "%"]) ;;
  on_overlay (Ringlight.set_brightness_percent (PyInt value)).

Definition _on_thickness_changed (value : Z) : t unit :=
  set_thickness_value (concat "" [str value; "px"]) ;;
  on_overlay (Ringlight.set_thickness (PyInt value)).

Definition brightness_slider_setValue : Z -> t unit :=
  setValue brightness_slider set_brightness_slider _on_brightness_changed.

Definition thickness_slider_setValue : Z -> t unit :=
  setValue thickness_slider set_thickness_slider _on_thickness_changed.

(** The style sheet and the tool tip of the preview for a colour. *)
Definition preview_style (c : Qt.QColor) : string :=
  concat "" ["background-color: rgb("; str (Qt.red c); ", ";
             str (Qt.green c); ", "; str (Qt.blue c); "); ";
             "border: 2px solid #333; border-radius: 4px;"].

Definition preview_tip (c : Qt.QColor) : string :=
  concat "" ["RGB("; str (Qt.red c); ", "; str (Qt.green c); ", ";
             str (Qt.blue c); ")"].

Definition _update_color_preview : t unit :=
  current_color <- overlay_attr color ;;
  set_color_preview (preview_style current_color) (preview_tip current_color).

Definition _create_brightness_control : t unit :=
  set_brightness_value "100%" ;;
  set_brightness_slider new_slider ;;
  setRange brightness_slider set_brightness_slider _on_brightness_changed
           Ringlight.MIN_BRIGHTNESS_PERCENT Ringlight.MAX_BRIGHTNESS_PERCENT ;;
  brightness <- overlay_attr brightness ;;
  x <- lift (float_mul_int brightness 100) ;;
  position <- lift (Py.int_of_float x) ;;
  brightness_slider_setValue position ;;
  connect brightness_slider set_brightness_slider.

Definition _create_thickness_control : t unit :=
  set_thickness_value "220px" ;;
  set_thickness_slider new_slider ;;
  setRange thickness_slider set_thickness_slider _on_thickness_changed
           Ringlight.MIN_THICKNESS Ringlight.MAX_THICKNESS ;;
  thickness <- overlay_attr thickness ;;
  thickness_slider_setValue thickness ;;
  connect thickness_slider set_thickness_slider.

Definition _create_color_control : t unit :=
  set_color_preview "" "" ;;
  _update_color_preview.

Definition TURN_OFF_TEXT : string := "⏸️ Turn Off Screen Light".
Definition TURN_ON_TEXT : string := "▶️ Turn On Screen Light".

Definition GREEN_STYLE : string :=
  concat ""
    ["QPushButton { padding: 10px; font-weight: bold; background-color: #4CAF50; color: white; }";
     "QPushButton:hover { background-color: #45a049; }"].

Definition BLUE_STYLE : string :=
  concat ""
    ["QPushButton { padding: 10px; font-weight: bold; background-color: #2196F3; color: white; }";
     "QPushButton:hover { background-color: #0b7dda; }"].

Definition _create_action_buttons : t unit :=
  set_toggle_btn (TURN_OFF_TEXT, "") ;;
  setStyleSheet GREEN_STYLE.

Definition _apply_preset (brightness thickness : Z) (color : Qt.QColor) : t unit :=
  brightness_slider_setValue brightness ;;
  thickness_slider_setValue thickness ;;
  on_overlay (Ringlight.set_color (PyQColor color)) ;;
  _update_color_preview ;;
  logger INFO (PresetApplied brightness thickness).

(** The four preset buttons of [_create_presets] and the slot each is
    connected to. *)
Inductive preset : Set := Warm | Cool | Soft | Intense.

Definition _create_presets (button : preset) : t unit :=
  match button with
  | Warm => _apply_preset 100 250 (Qt.rgb 255 240 220)
  | Cool => _apply_preset 120 280 (Qt.rgb 255 255 255)
  | Soft => _apply_preset 80 300 (Qt.rgb 255 250 240)
  | Intense => _apply_preset 150 200 (Qt.rgb 255 255 255)
  end.

Definition _setup_ui : t unit :=
  _create_brightness_control ;;
  _create_thickness_control ;;
  _create_color_control ;;
  _create_action_buttons.

(** The imports are outside the [try]; what the rendering raises is
    caught. *)
Definition _set_window_icon (env : environment) : t unit :=
  when (negb (qtsvg_importable env)) (raise ImportError) ;;
  try_except
    (match icon_rendering env with
     | Some e => raise (Exception e)
     | None => ret tt
     end ;;
     setWindowIcon ;;
     logger DEBUG WindowIconSet)
    (fun e =>
       if is_Exception e then Some (logger WARNING (WindowIconFailed e))
       else None).

Definition __init__ (overlay : argument) (env : environment) : t unit :=
  match overlay with
  | PassNone => raise (Exception Py.ValueError)
  | PassObject _ => raise (Exception Py.ValueError)
  | PassOverlay =>
      with_panel (fun _ => new_panel) ;;
      _setup_ui ;;
      _set_window_icon env ;;
      logger INFO ControlPanelInitialized
  end.

(** [chosen_color] is what [QColorDialog.getColor(...)] returns: the
    colour the user chose, or an invalid colour when the dialog was
    cancelled. *)
Definition _pick_color (chosen_color : Qt.QColor) : t unit :=
  if Qt.isValid chosen_color then
    on_overlay (Ringlight.set_color (PyQColor chosen_color)) ;;
    _update_color_preview
  else ret tt.

Definition _toggle_overlay : t unit :=
  visible <- get (fun g => isVisible (overlay_window g)) ;;
  if visible then
    RingLightOverlay.hide ;;
    setText TURN_ON_TEXT ;;
    setStyleSheet BLUE_STYLE ;;
    logger INFO ScreenLightOff
  else
    RingLightOverlay.show ;;
    setText TURN_OFF_TEXT ;;
    setStyleSheet GREEN_STYLE ;;
    logger INFO ScreenLightOn.

Definition _panic_off : t unit :=
  RingLightOverlay.hide ;;
  setText TURN_ON_TEXT ;;
  setStyleSheet BLUE_STYLE ;;
  logger WARNING PanicPressed.

(** [self.close()] on the panel, as Qt runs it: nothing on a widget
    that is being closed already; otherwise the widget is marked, its
    [closeEvent] runs and, as it does not ignore the event, the panel is
    hidden. *)
Definition close (closeEvent : t unit) : t unit :=
  closing <- get (fun g => is_closing (control_panel g)) ;;
  if closing then ret tt
  else
    set_is_closing true ;;
    closeEvent ;;
    set_panel_shown false ;;
    set_is_closing false.

(** [app.quit()] (Qt 6): every visible top-level window is closed first,
    the overlay and the panel, whose [closeEvent] runs; then the event
    loop is told to exit. *)
Definition quit (closeEvent : t unit) : t unit :=
  visible <- get (fun g => isVisible (overlay_window g)) ;;
  when visible RingLightOverlay.close ;;
  shown <- get (fun g => panel_shown (control_panel g)) ;;
  when shown (close closeEvent) ;;
  with_instance (option_map (fun app =>
    mkApplication (applicationName app) (organizationName app) true)).

(** [app.quit()] closes the panel, whose [closeEvent] calls [_close_all]
    again: [depth] is how many such calls may nest within this one.  The
    panel being marked as closing by then, the nested call closes it no
    further, and a depth of 1 is never used up. *)
Fixpoint _close_all (depth : nat) : t unit :=
  logger INFO ClosingApplication ;;
  RingLightOverlay.close ;;
  app <- get instance ;;
  match app with
  | Some _ =>
      quit (match depth with
            | O => pending
            | S depth => _close_all depth
            end)
  | None => ret tt
  end.

Definition closeEvent : t unit := _close_all 1.

(** [panel.show()] *)
Definition show : t unit := set_panel_shown true.

End ControlPanel.

(** *** The event loop and [main] *)

(** What the event loop delivers: the user moves a slider to a position,
    clicks a button (the colour button with what the colour dialog then
    returns), closes the panel; the poll timer fires (with what
    [QApplication.primaryScreen()] returns then); Qt asks the overlay to
    paint itself; the user interrupts the program from the terminal. *)
Inductive event : Type :=
| BrightnessSliderMoved (position : Z)
| ThicknessSliderMoved (position : Z)
| PresetClicked (button : ControlPanel.preset)
| ColorClicked (chosen_color : Qt.QColor)
| ToggleClicked
| PanicClicked
| CloseClicked
| PanelClosed
| PollTimeout (screen : option Qt.QRect)
| PaintRequested
| Interrupted.

(** The slot or event handler each event runs.  Qt sends paint events to
    visible widgets only, a timer fires only once started, and closing
    the panel is [close()] on it.  A [KeyboardInterrupt] while
    [app.exec()] runs is raised inside the slot that Python enters next
    (the poll timer's at the latest), before the slot has done anything;
    PySide6 prints it there and the event loop goes on: [Interrupted] is
    that call of a slot. *)
Definition dispatch (e : event) : t unit :=
  match e with
  | BrightnessSliderMoved position =>
      ControlPanel.brightness_slider_setValue position
  | ThicknessSliderMoved position =>
      ControlPanel.thickness_slider_setValue position
  | PresetClicked button => ControlPanel._create_presets button
  | ColorClicked chosen_color => ControlPanel._pick_color chosen_color
  | ToggleClicked => ControlPanel._toggle_overlay
  | PanicClicked => ControlPanel._panic_off
  | CloseClicked => ControlPanel._close_all 1
  | PanelClosed => ControlPanel.close ControlPanel.closeEvent
  | PollTimeout screen =>
      timer <- get (fun g => _poll_timer (overlay_window g)) ;;
      match timer with
      | Some _ => RingLightOverlay._apply_screen_geometry screen
      | None => ret tt
      end
  | PaintRequested =>
      visible <- get (fun g => isVisible (overlay_window g)) ;;
      if visible then on_overlay Ringlight.paintEvent else ret tt
  | Interrupted => ret tt
  end.

Definition quitting (g : gui) : bool :=
  match instance g with
  | Some app => quit_called app
  | None => false
  end.

(** [app.exec()] on the events that arrive: it returns 0 once [quit()] has
    been called, and has not returned while events are still awaited. *)
Fixpoint exec (events : list event) : t Z :=
  match events with
  | [] => pending
  | e :: events =>
      dispatch e ;;
      quit <- get quitting ;;
      if quit then ret 0 else exec events
  end.

(** [sys.version_info < (major, minor)] *)
Definition version_lt (v : Z * Z) (major minor : Z) : bool :=
  (fst v <? major) || ((fst v =? major) && (snd v <? minor)).

(** [main()].  Its [except KeyboardInterrupt] clause serves the
    statements of [main] itself: an interrupt while [app.exec()] runs
    does not leave the slot it is raised in. *)
Definition main (env : environment) (events : list event) : t Z :=
  try_except
    (if version_lt (version_info env) 3 10 then
       logger ERROR PythonTooOld ;;
       ret 1
     else
       with_instance (fun _ => Some (mkApplication "" "" false)) ;;
       with_instance (option_map (fun app =>
         mkApplication "LumaScreen" (organizationName app) (quit_called app))) ;;
       with_instance (option_map (fun app =>
         mkApplication (applicationName app) "Open Source Community"
                       (quit_called app))) ;;
       logger INFO StartingApplication ;;
       RingLightOverlay.__init__ env ;;
       ControlPanel.__init__ ControlPanel.PassOverlay env ;;
       ControlPanel.show ;;
       exit_code <- exec events ;;
       logger INFO (ApplicationExiting exit_code) ;;
       ret exit_code)
    (fun e =>
       if is_Exception e then
         Some (logger ERROR FatalApplicationError ;; ret 1)
       else
         match e with
         | KeyboardInterrupt => Some (logger INFO InterruptedByUser ;; ret 0)
         | _ => None
         end).

(** The objects before [main] has made them. *)
Definition unallocated : gui :=
  mkGui (mkWindow (Ringlight.init 0 0) (0, 0) false [] [] None)
        new_panel None [].

(** *** What is stated of the application *)

(** The brightness a slider position stands for. *)
Definition percent_brightness (position : Z) : Py.float :=
  Py.fdiv (Py.round_int position) (Py.decimal 100 1).

(** Events as Qt can deliver them: slider positions are C [int]s and the
    colour dialog returns a [QColor]. *)
Definition wf_event (e : event) : Prop :=
  match e with
  | BrightnessSliderMoved position => fits_int position = true
  | ThicknessSliderMoved position => fits_int position = true
  | ColorClicked chosen_color => Qt.wf_color chosen_color
  | _ => True
  end.

(** The events that close the application. *)
Definition closes (e : event) : bool :=
  match e with
  | CloseClicked | PanelClosed => true
  | _ => false
  end.

(** What [app.exec()] does on the events that arrive: it returns 0 at
    the first event that closes the application, and is still waiting
    when there was none. *)
Fixpoint loop_outcome (events : list event) : result Z :=
  match events with
  | [] => Pending
  | e :: events => if closes e then Done 0 else loop_outcome events
  end.

(** The panel shows the parameters of the overlay: both sliders have the
    ranges [_setup_ui] gave them and are connected, the overlay's
    brightness and thickness are those of the slider positions, the value
    labels print the positions, and the preview shows the overlay's
    colour. *)
Definition parameters_shown (g : gui) : Prop :=
  let p := control_panel g in
  let o := self (overlay_window g) in
  brightness_slider p = mkSlider 0 200 (value (brightness_slider p)) true /\
  0 <= value (brightness_slider p) <= 200 /\
  brightness o = percent_brightness (value (brightness_slider p)) /\
  brightness_value p = concat "" [str (value (brightness_slider p)); "%"] /\
  thickness_slider p = mkSlider 1 900 (value (thickness_slider p)) true /\
  1 <= value (thickness_slider p) <= 900 /\
  thickness o = value (thickness_slider p) /\
  thickness_value p = concat "" [str (value (thickness_slider p)); "px"] /\
  Qt.isValid (color o) = true /\ Qt.wf_color (color o) /\
  color_preview p = (ControlPanel.preview_style (color o),
                     ControlPanel.preview_tip (color o)).

(** The toggle button offers to turn the light off exactly when the
    overlay is shown. *)
Definition toggle_shown (g : gui) : Prop :=
  toggle_btn (control_panel g)
  = if isVisible (overlay_window g)
    then (ControlPanel.TURN_OFF_TEXT, ControlPanel.GREEN_STYLE)
    else (ControlPanel.TURN_ON_TEXT, ControlPanel.BLUE_STYLE).

(** The overlay is a frameless, always-on-top, click-through tool window
    with a running poll timer. *)
Definition click_through (w : window) : Prop :=
  windowFlags w = [FramelessWindowHint; WindowStaysOnTopHint; Tool;
                   WindowTransparentForInput] /\
  attributes w = [WA_TranslucentBackground; WA_TransparentForMouseEvents] /\
  _poll_timer w = Some RingLightOverlay.GEOMETRY_POLL_INTERVAL_MS.

(** Records of the overlay's methods other than debug records and the
    warning of a paint event on an empty surface: the clamping and
    ignored-colour warnings of the setters, the error of [paintEvent]. *)
Definition alarming (r : log_level * log_event) : bool :=
  match r with
  | (DEBUG, _) => false
  | (WARNING, InvalidDimensions) => false
  | _ => true
  end.

(** The state the event loop runs in. *)
Definition running (g : gui) : Prop :=
  parameters_shown g /\ click_through (overlay_window g) /\
  forallb (fun r => negb (alarming r)) (logged (self (overlay_window g))) = true /\
  instance g <> None /\
  (quitting g = false -> toggle_shown g).

(** The geometry of the overlay once [_apply_screen_geometry] has run on
    a widget of the platform's default geometry. *)
Definition covered (env : environment) : Qt.QRect :=
  match primaryScreen env with
  | Some geom => geom
  | None => default_geometry env
  end.

End Gui.

(** * Facts about binary64 rounding *)

Module Rounding.
Import Binary64.

Lemma fexp_eq e : fexp e = Z.max (e - 53) (-1074).
Proof. reflexivity. Qed.

Lemma digits2_pos_bounds p :
  2 ^ (Zpos (digits2_pos p) - 1) <= Zpos p < 2 ^ Zpos (digits2_pos p).
Proof.
  induction p as [p IH|p IH|]; cbn [digits2_pos].
  - rewrite Pos2Z.inj_succ.
    replace (Z.succ (Z.pos (digits2_pos p)) - 1) with (Z.succ (Z.pos (digits2_pos p) - 1)) by lia.
    rewrite !Z.pow_succ_r by lia. lia.
  - rewrite Pos2Z.inj_succ.
    replace (Z.succ (Z.pos (digits2_pos p)) - 1) with (Z.succ (Z.pos (digits2_pos p) - 1)) by lia.
    rewrite !Z.pow_succ_r by lia. lia.
  - cbn. lia.
Qed.

Lemma Zdigits2_bounds m :
  0 < m -> 2 ^ (Zdigits2 m - 1) <= m < 2 ^ Zdigits2 m.
Proof.
  destruct m as [|p|p]; try lia. intros _. apply digits2_pos_bounds.
Qed.

Lemma Zdigits2_pos m : 0 < m -> 0 < Zdigits2 m.
Proof. destruct m; cbn; lia. Qed.

Lemma Zdigits2_nonneg m : 0 <= Zdigits2 m.
Proof. destruct m; cbn; lia. Qed.

(** The number of binary digits is determined by the enclosing powers of
    two. *)
Lemma Zdigits2_unique m k :
  2 ^ (k - 1) <= m < 2 ^ k -> 0 < m -> Zdigits2 m = k.
Proof.
  intros Hk Hm.
  pose proof (Zdigits2_bounds m Hm) as Hd.
  pose proof (Zdigits2_pos m Hm) as Hp.
  assert (0 < k).
  { destruct (Z_lt_le_dec 0 k) as [|Hle]; [assumption|].
    assert (2 ^ k <= 1).
    { destruct (Z.eq_dec k 0) as [->|]; [cbn; lia|].
      rewrite Z.pow_neg_r by lia. lia. }
    lia. }
  destruct (Z.lt_trichotomy (Zdigits2 m) k) as [Hlt|[Heq|Hgt]]; [|assumption|].
  - assert (2 ^ Zdigits2 m <= 2 ^ (k - 1)) by (apply Z.pow_le_mono_r; lia). lia.
  - assert (2 ^ k <= 2 ^ (Zdigits2 m - 1)) by (apply Z.pow_le_mono_r; lia). lia.
Qed.

Lemma Zdigits2_le_iff m k : 0 < m -> 0 <= k -> (Zdigits2 m <= k <-> m < 2 ^ k).
Proof.
  intros Hm Hk. pose proof (Zdigits2_bounds m Hm) as Hd.
  pose proof (Zdigits2_pos m Hm). split; intros H1.
  - assert (2 ^ Zdigits2 m <= 2 ^ k) by (apply Z.pow_le_mono_r; lia). lia.
  - destruct (Z_le_gt_dec (Zdigits2 m) k) as [|Hgt]; [assumption|].
    assert (2 ^ k <= 2 ^ (Zdigits2 m - 1)) by (apply Z.pow_le_mono_r; lia). lia.
Qed.

Lemma shr_1_m mrs : 0 <= shr_m mrs -> shr_m (shr_1 mrs) = shr_m mrs / 2.
Proof.
  destruct mrs as [m r s]. cbn [shr_m]. intros Hm.
  destruct m as [|[p|p|]|p]; cbn [shr_1 shr_m].
  - reflexivity.
  - rewrite Pos2Z.inj_xI. apply Z.div_unique with (r := 1); lia.
  - rewrite Pos2Z.inj_xO. apply Z.div_unique with (r := 0); lia.
  - reflexivity.
  - lia.
Qed.

Lemma pow2_xO p : 2 ^ Z.pos p~0 = 2 ^ Z.pos p * 2 ^ Z.pos p.
Proof. rewrite Pos2Z.inj_xO, <- Z.pow_add_r by lia. f_equal. lia. Qed.

Lemma pow2_xI p : 2 ^ Z.pos p~1 = 2 * (2 ^ Z.pos p * 2 ^ Z.pos p).
Proof.
  rewrite Pos2Z.inj_xI, <- Z.pow_add_r, <- Z.pow_succ_r by lia. f_equal. lia.
Qed.

Lemma pow2_pos k : 0 <= k -> 0 < 2 ^ k.
Proof. intros. apply Z.pow_pos_nonneg; lia. Qed.

Lemma iter_shr_1_m p : forall mrs,
  0 <= shr_m mrs ->
  shr_m (iter_pos shr_1 p mrs) = shr_m mrs / 2 ^ Zpos p.
Proof.
  induction p as [p IH|p IH|]; intros mrs Hm; cbn [iter_pos].
  - pose proof (pow2_pos (Z.pos p) ltac:(lia)) as Hp.
    assert (H1 : 0 <= shr_m (shr_1 mrs)).
    { rewrite shr_1_m by assumption. apply Z.div_pos; lia. }
    assert (H2 : 0 <= shr_m (iter_pos shr_1 p (shr_1 mrs))).
    { rewrite IH by assumption. apply Z.div_pos; lia. }
    rewrite IH, IH, shr_1_m by assumption.
    rewrite !Z.div_div by lia.
    rewrite pow2_xI. reflexivity.
  - pose proof (pow2_pos (Z.pos p) ltac:(lia)) as Hp.
    assert (H2 : 0 <= shr_m (iter_pos shr_1 p mrs)).
    { rewrite IH by assumption. apply Z.div_pos; lia. }
    rewrite IH, IH by assumption.
    rewrite !Z.div_div by lia.
    rewrite pow2_xO. reflexivity.
  - rewrite shr_1_m by assumption. reflexivity.
Qed.

Lemma shr_1_exact k :
  0 <= k ->
  shr_1 (Build_shr_record (2 * k) false false) = Build_shr_record k false false.
Proof.
  intros Hk. destruct k as [|q|q]; try lia; reflexivity.
Qed.

Lemma iter_shr_1_exact p : forall k,
  0 <= k ->
  iter_pos shr_1 p (Build_shr_record (k * 2 ^ Zpos p) false false)
  = Build_shr_record k false false.
Proof.
  induction p as [p IH|p IH|]; intros k Hk; cbn [iter_pos].
  - pose proof (pow2_pos (Z.pos p) ltac:(lia)) as Hp.
    replace (k * 2 ^ Z.pos p~1) with (2 * ((k * 2 ^ Z.pos p) * 2 ^ Z.pos p))
      by (rewrite pow2_xI; lia).
    rewrite shr_1_exact by nia. rewrite IH by nia. apply IH; assumption.
  - pose proof (pow2_pos (Z.pos p) ltac:(lia)) as Hp.
    replace (k * 2 ^ Z.pos p~0) with ((k * 2 ^ Z.pos p) * 2 ^ Z.pos p)
      by (rewrite pow2_xO; lia).
    rewrite IH by nia. apply IH; assumption.
  - replace (k * 2 ^ 1) with (2 * k) by lia. apply shr_1_exact; assumption.
Qed.

Lemma round_nearest_even_bounds m l :
  m <= round_nearest_even m l <= m + 1.
Proof.
  destruct l as [|[| |]]; cbn [round_nearest_even]; try lia.
  destruct (Z.even m); lia.
Qed.

(** [binary_round_aux] in arithmetic terms: the mantissa is cut at the
    exponent [e1] the format prescribes, moved up by at most one unit, and
    not at all when nothing was cut off. *)
Theorem binary_round_aux_spec s mz ez lz :
  0 <= mz ->
  let e1 := Z.max ez (fexp (Zdigits2 mz + ez)) in
  exists m1,
    mz / 2 ^ (e1 - ez) <= m1 <= mz / 2 ^ (e1 - ez) + 1 /\
    (lz = loc_Exact -> mz mod 2 ^ (e1 - ez) = 0 -> m1 = mz / 2 ^ (e1 - ez)) /\
    binary_round_aux Py.prec Py.emax s mz ez lz = finish s m1 e1.
Proof.
  intros Hmz e1.
  unfold binary_round_aux.
  assert (Hfirst : exists mrs,
    shr_fexp Py.prec Py.emax mz ez lz = (mrs, e1) /\
    shr_m mrs = mz / 2 ^ (e1 - ez) /\
    (lz = loc_Exact -> mz mod 2 ^ (e1 - ez) = 0 ->
     loc_of_shr_record mrs = loc_Exact)).
  { unfold shr_fexp, shr. fold (fexp (Zdigits2 mz + ez)).
    assert (Hm0 : shr_m (shr_record_of_loc mz lz) = mz)
      by (destruct lz as [|[| |]]; reflexivity).
    destruct (fexp (Zdigits2 mz + ez) - ez) as [|p|p] eqn:Hn.
    - exists (shr_record_of_loc mz lz).
      assert (e1 = ez) by (unfold e1; lia).
      replace (e1 - ez) with 0 by lia. rewrite Z.div_1_r.
      repeat split; try congruence. intros -> _. reflexivity.
    - exists (iter_pos shr_1 p (shr_record_of_loc mz lz)).
      assert (e1 = ez + Z.pos p) by (unfold e1; lia).
      replace (e1 - ez) with (Z.pos p) by lia.
      repeat split.
      + congruence.
      + rewrite iter_shr_1_m by (rewrite Hm0; assumption). rewrite Hm0. reflexivity.
      + intros -> Hmod. cbn [shr_record_of_loc].
        assert (Hp : 0 < 2 ^ Z.pos p) by (apply Z.pow_pos_nonneg; lia).
        pose proof (Z.div_mod mz (2 ^ Z.pos p) ltac:(lia)) as Hdm.
        rewrite Hmod in Hdm.
        replace mz with ((mz / 2 ^ Z.pos p) * 2 ^ Z.pos p) at 1 by lia.
        rewrite iter_shr_1_exact by (apply Z.div_pos; lia). reflexivity.
    - exists (shr_record_of_loc mz lz).
      assert (e1 = ez) by (unfold e1; lia).
      replace (e1 - ez) with 0 by lia. rewrite Z.div_1_r.
      repeat split; try congruence. intros -> _. reflexivity. }
  destruct Hfirst as (mrs & -> & Hm & Hex).
  set (m1 := round_nearest_even (shr_m mrs) (loc_of_shr_record mrs)).
  exists m1. split; [|split].
  - unfold m1. rewrite <- Hm. apply round_nearest_even_bounds.
  - intros Hl Hmod. unfold m1. rewrite (Hex Hl Hmod). cbn. assumption.
  - assert (Hm1 : 0 <= m1).
    { pose proof (round_nearest_even_bounds (shr_m mrs) (loc_of_shr_record mrs)).
      assert (0 <= shr_m mrs).
      { rewrite Hm. apply Z.div_pos; [assumption|]. apply Z.pow_pos_nonneg; [lia|].
        unfold e1. lia. }
      unfold m1. lia. }
    unfold finish, shr_fexp, shr. fold (fexp (Zdigits2 m1 + e1)).
    cbn [shr_record_of_loc].
    destruct (fexp (Zdigits2 m1 + e1) - e1) as [|p|p] eqn:Hn.
    + replace (Z.max e1 (fexp (Zdigits2 m1 + e1))) with e1 by lia.
      replace (e1 - e1) with 0 by lia. rewrite Z.div_1_r. cbn [shr_m]. reflexivity.
    + replace (Z.max e1 (fexp (Zdigits2 m1 + e1))) with (e1 + Z.pos p) by lia.
      replace (e1 + Z.pos p - e1) with (Z.pos p) by lia.
      rewrite iter_shr_1_m by (cbn; assumption). cbn [shr_m]. reflexivity.
    + replace (Z.max e1 (fexp (Zdigits2 m1 + e1))) with e1 by lia.
      replace (e1 - e1) with 0 by lia. rewrite Z.div_1_r. cbn [shr_m]. reflexivity.
Qed.

Lemma pow2_split a b : 0 <= b <= a -> 2 ^ a = 2 ^ (a - b) * 2 ^ b.
Proof. intros. rewrite <- Z.pow_add_r by lia. f_equal. lia. Qed.

Lemma div_pow2_lower c a b x :
  0 <= b <= a -> c * 2 ^ a <= x -> c * 2 ^ (a - b) <= x / 2 ^ b.
Proof.
  intros Hab Hx. pose proof (pow2_pos b ltac:(lia)).
  apply Z.div_le_lower_bound; [lia|].
  rewrite (pow2_split a b) in Hx by lia. lia.
Qed.

Lemma div_pow2_upper a b x :
  0 <= b <= a -> x <= 2 ^ a -> x / 2 ^ b <= 2 ^ (a - b).
Proof.
  intros Hab Hx. pose proof (pow2_pos b ltac:(lia)).
  pose proof (pow2_pos (a - b) ltac:(lia)).
  rewrite (pow2_split a b) in Hx by lia.
  apply Z.div_le_upper_bound; lia. 
Qed.

Lemma div_pow2_lt a b x :
  0 <= b <= a -> 0 <= x < 2 ^ a -> x / 2 ^ b < 2 ^ (a - b).
Proof.
  intros Hab Hx. pose proof (pow2_pos b ltac:(lia)).
  rewrite (pow2_split a b) in Hx by lia.
  apply Z.div_lt_upper_bound; lia.
Qed.

Lemma div_pow2_small a b x : 0 <= a <= b -> 0 <= x < 2 ^ a -> x / 2 ^ b = 0.
Proof.
  intros Hab Hx. apply Z.div_small.
  assert (2 ^ a <= 2 ^ b) by (apply Z.pow_le_mono_r; lia). lia.
Qed.

Lemma Zdigits2_pow2 k : 0 <= k -> Zdigits2 (2 ^ k) = k + 1.
Proof.
  intros Hk. pose proof (pow2_pos k Hk). apply Zdigits2_unique; [|lia].
  replace (k + 1 - 1) with k by lia. rewrite Z.pow_add_r by lia. lia.
Qed.

Lemma Zdigits2_ge k m : 0 <= k -> 2 ^ k <= m -> k + 1 <= Zdigits2 m.
Proof.
  intros Hk Hm. pose proof (pow2_pos k Hk).
  destruct (Z_le_gt_dec (k + 1) (Zdigits2 m)) as [|Hlt]; [assumption|exfalso].
  assert (Zdigits2 m <= k) as Hle by lia.
  apply Zdigits2_le_iff in Hle; lia.
Qed.

(** *** Reading off [finish] *)

Lemma finish_finite s m1 e1 s' m e :
  finish s m1 e1 = S754_finite s' m e ->
  s' = s /\ e = Z.max e1 (fexp (Zdigits2 m1 + e1)) /\
  Zpos m = m1 / 2 ^ (e - e1) /\ e <= 971.
Proof.
  unfold finish.
  destruct (m1 / 2 ^ (Z.max e1 (fexp (Zdigits2 m1 + e1)) - e1)) eqn:Hq;
    try discriminate.
  destruct (Z.leb_spec (Z.max e1 (fexp (Zdigits2 m1 + e1))) 971); try discriminate.
  intros [= <- <- <-]. rewrite Hq. auto.
Qed.

Lemma finish_shape s m1 e1 :
  0 <= m1 ->
  finish s m1 e1 = S754_zero s \/ finish s m1 e1 = S754_infinity s \/
  exists m e, finish s m1 e1 = S754_finite s m e.
Proof.
  intros Hm. unfold finish.
  set (e2 := Z.max e1 (fexp (Zdigits2 m1 + e1))).
  assert (0 <= m1 / 2 ^ (e2 - e1)).
  { apply Z.div_pos; [assumption|]. apply pow2_pos. unfold e2. lia. }
  destruct (m1 / 2 ^ (e2 - e1)); try lia; auto.
  destruct (e2 <=? 971); eauto.
Qed.

(** A positive mantissa of at most 53 digits at an exponent the format
    allows for it is returned as it is. *)
Lemma finish_canonical s m1 e1 :
  0 < m1 -> fexp (Zdigits2 m1 + e1) <= e1 -> e1 <= 971 ->
  finish s m1 e1 = S754_finite s (Z.to_pos m1) e1.
Proof.
  intros Hm Hf He. unfold finish.
  replace (Z.max e1 (fexp (Zdigits2 m1 + e1))) with e1 by lia.
  replace (e1 - e1) with 0 by lia. rewrite Z.div_1_r.
  destruct m1; try lia. destruct (Z.leb_spec e1 971); [reflexivity|lia].
Qed.

(** *** Shape of a rounded result *)

Lemma binary_round_aux_shape s mz ez lz :
  0 <= mz ->
  binary_round_aux Py.prec Py.emax s mz ez lz = S754_zero s \/
  binary_round_aux Py.prec Py.emax s mz ez lz = S754_infinity s \/
  exists m e, binary_round_aux Py.prec Py.emax s mz ez lz = S754_finite s m e.
Proof.
  intros Hmz.
  destruct (binary_round_aux_spec s mz ez lz Hmz) as (m1 & Hm1 & _ & ->).
  apply finish_shape.
  assert (0 <= mz / 2 ^ (Z.max ez (fexp (Zdigits2 mz + ez)) - ez)).
  { apply Z.div_pos; [assumption|]. apply pow2_pos. lia. }
  lia.
Qed.

(** *** No overflow: a bound on the exponent of the result *)

Lemma rounded_exponent_bound mz ez m1 :
  0 <= mz ->
  mz / 2 ^ (Z.max ez (fexp (Zdigits2 mz + ez)) - ez) <= m1
    <= mz / 2 ^ (Z.max ez (fexp (Zdigits2 mz + ez)) - ez) + 1 ->
  Z.max (Z.max ez (fexp (Zdigits2 mz + ez)))
        (fexp (Zdigits2 m1 + Z.max ez (fexp (Zdigits2 mz + ez))))
  <= Z.max (Z.max ez (-1074)) (Zdigits2 mz + ez - 52).
Proof.
  intros Hmz Hm1. rewrite !fexp_eq in *.
  set (n := Z.max ez (Z.max (Zdigits2 mz + ez - 53) (-1074)) - ez) in *.
  assert (Hn : 0 <= n) by (unfold n; lia).
  assert (HM1 : 0 <= mz / 2 ^ n).
  { apply Z.div_pos; [assumption|]. apply pow2_pos. lia. }
  destruct (Z.eq_dec m1 0) as [->|Hnz]; [cbn [Zdigits2]; lia|].
  assert (Hd : Zdigits2 m1 <= Z.max 1 (Zdigits2 mz - n + 1)).
  { destruct (Z.eq_dec mz 0) as [->|Hmz0].
    - rewrite Z.div_0_l in Hm1 by (pose proof (pow2_pos n ltac:(lia)); lia).
      assert (m1 = 1) by lia. subst m1. cbn. lia.
    - pose proof (Zdigits2_bounds mz ltac:(lia)) as Hb.
      destruct (Z_le_gt_dec (Zdigits2 mz) n) as [Hle|Hgt].
      + rewrite (div_pow2_small (Zdigits2 mz) n) in Hm1
          by (pose proof (Zdigits2_nonneg mz); lia).
        assert (m1 = 1) by lia. subst m1. cbn. lia.
      + pose proof (div_pow2_lt (Zdigits2 mz) n mz ltac:(lia) ltac:(lia)) as Hlt.
        apply Z.le_trans with (Zdigits2 mz - n + 1); [|lia].
        apply Zdigits2_le_iff; [lia|lia|].
        rewrite Z.pow_add_r by lia. lia. }
  unfold n in *. lia.
Qed.

Lemma binary_round_aux_exponent s mz ez lz s' m e :
  0 <= mz ->
  binary_round_aux Py.prec Py.emax s mz ez lz = S754_finite s' m e ->
  Z.max ez (fexp (Zdigits2 mz + ez)) <= e
  /\ e <= Z.max (Z.max ez (-1074)) (Zdigits2 mz + ez - 52).
Proof.
  intros Hmz Hr.
  destruct (binary_round_aux_spec s mz ez lz Hmz) as (m1 & Hm1 & _ & Heq).
  rewrite Heq in Hr. apply finish_finite in Hr.
  destruct Hr as (_ & He & _ & _).
  pose proof (rounded_exponent_bound mz ez m1 Hmz Hm1). lia.
Qed.

Lemma binary_round_aux_no_overflow s mz ez lz :
  0 <= mz ->
  Z.max (Z.max ez (-1074)) (Zdigits2 mz + ez - 52) <= 971 ->
  binary_round_aux Py.prec Py.emax s mz ez lz <> S754_infinity s.
Proof.
  intros Hmz Hb Hinf.
  destruct (binary_round_aux_spec s mz ez lz Hmz) as (m1 & Hm1 & _ & Heq).
  rewrite Heq in Hinf.
  pose proof (rounded_exponent_bound mz ez m1 Hmz Hm1) as Hbound.
  unfold finish in Hinf.
  destruct (m1 / 2 ^ _); try discriminate.
  destruct (Z.leb_spec (Z.max (Z.max ez (fexp (Zdigits2 mz + ez)))
              (fexp (Zdigits2 m1 + Z.max ez (fexp (Zdigits2 mz + ez))))) 971);
    [discriminate|lia].
Qed.

(** *** A lower bound that survives rounding: an integer [c] below the
    exact value stays below the rounded one *)

Lemma binary_round_aux_lower s mz ez lz c s' m e :
  0 <= mz -> 0 <= c -> ez <= 0 -> e <= 0 ->
  c * 2 ^ (- ez) <= mz ->
  binary_round_aux Py.prec Py.emax s mz ez lz = S754_finite s' m e ->
  c * 2 ^ (- e) <= Zpos m.
Proof.
  intros Hmz Hc Hez He Hlow Hr.
  destruct (binary_round_aux_spec s mz ez lz Hmz) as (m1 & Hm1 & _ & Heq).
  rewrite Heq in Hr. apply finish_finite in Hr.
  destruct Hr as (_ & He2 & Hm & _).
  set (e1 := Z.max ez (fexp (Zdigits2 mz + ez))) in *.
  assert (ez <= e1 <= e) by (unfold e1 in *; lia).
  pose proof (div_pow2_lower c (- ez) (e1 - ez) mz ltac:(lia) Hlow) as H1.
  replace (- ez - (e1 - ez)) with (- e1) in H1 by lia.
  assert (H2 : c * 2 ^ (- e1) <= m1) by lia.
  pose proof (div_pow2_lower c (- e1) (e - e1) m1 ltac:(lia) H2) as H3.
  replace (- e1 - (e - e1)) with (- e) in H3 by lia.
  lia.
Qed.

(** *** Rounding in the normal range *)

Lemma binary_round_aux_normal s mz ez lz :
  2 ^ 52 <= mz -> -1074 <= Zdigits2 mz + ez - 53 ->
  let e1 := Zdigits2 mz + ez - 53 in
  exists m e,
    2 ^ 52 <= Zpos m < 2 ^ 53 /\ e1 <= e <= e1 + 1 /\
    mz / 2 ^ (e1 - ez) <= Zpos m * 2 ^ (e - e1) <= mz / 2 ^ (e1 - ez) + 1 /\
    (lz = loc_Exact -> mz mod 2 ^ (e1 - ez) = 0 ->
     e = e1 /\ Zpos m = mz / 2 ^ (e1 - ez)) /\
    binary_round_aux Py.prec Py.emax s mz ez lz
    = if e <=? 971 then S754_finite s m e else S754_infinity s.
Proof.
  intros Hmz Hnorm e1.
  assert (Hpos : 0 < mz) by (pose proof (pow2_pos 52 ltac:(lia)); lia).
  pose proof (Zdigits2_bounds mz Hpos) as Hd.
  assert (Hd53 : 53 <= Zdigits2 mz).
  { destruct (Z_le_gt_dec 53 (Zdigits2 mz)); [assumption|].
    assert (2 ^ Zdigits2 mz <= 2 ^ 52)
      by (apply Z.pow_le_mono_r; pose proof (Zdigits2_pos mz Hpos); lia).
    lia. }
  destruct (binary_round_aux_spec s mz ez lz ltac:(lia)) as (m1 & Hm1 & Hex & ->).
  rewrite fexp_eq in *.
  replace (Z.max ez (Z.max (Zdigits2 mz + ez - 53) (-1074))) with e1 in *
    by (unfold e1; lia).
  replace (e1 - ez) with (Zdigits2 mz - 53) in * by (unfold e1; lia).
  set (M1 := mz / 2 ^ (Zdigits2 mz - 53)) in *.
  assert (HM1 : 2 ^ 52 <= M1 < 2 ^ 53).
  { split.
    - pose proof (div_pow2_lower 1 (Zdigits2 mz - 1) (Zdigits2 mz - 53) mz
                    ltac:(lia) ltac:(lia)) as H.
      replace (Zdigits2 mz - 1 - (Zdigits2 mz - 53)) with 52 in H by lia.
      unfold M1. lia.
    - pose proof (div_pow2_lt (Zdigits2 mz) (Zdigits2 mz - 53) mz
                    ltac:(lia) ltac:(lia)) as H.
      replace (Zdigits2 mz - (Zdigits2 mz - 53)) with 53 in H by lia.
      exact H. }
  destruct (Z.eq_dec m1 (2 ^ 53)) as [Heq|Hne].
  - (* the increment carried into a 54th digit *)
    exists (Z.to_pos (2 ^ 52)), (e1 + 1).
    assert (Hfin : finish s m1 e1
                   = if e1 + 1 <=? 971 then S754_finite s (Z.to_pos (2 ^ 52)) (e1 + 1)
                     else S754_infinity s).
    { unfold finish. rewrite Heq, (Zdigits2_pow2 53) by lia. rewrite fexp_eq.
      replace (Z.max e1 (Z.max (53 + 1 + e1 - 53) (-1074))) with (e1 + 1)
        by (unfold e1; lia).
      replace (e1 + 1 - e1) with 1 by lia. reflexivity. }
    rewrite Hfin. replace (e1 + 1 - e1) with 1 by lia.
    assert (Hv : Z.pos (Z.to_pos (2 ^ 52)) * 2 ^ 1 = 2 ^ 53) by reflexivity.
    refine (conj _ (conj _ (conj _ (conj _ eq_refl)))).
    + cbn. lia.
    + lia.
    + rewrite Hv. lia.
    + intros Hl Hmod. specialize (Hex Hl Hmod). lia.
  - exists (Z.to_pos m1), e1.
    assert (Hm1pos : 0 < m1) by (pose proof (pow2_pos 52 ltac:(lia)); lia).
    assert (Hm1lt : m1 < 2 ^ 53) by lia.
    assert (Hdm1 : Zdigits2 m1 = 53) by (apply Zdigits2_unique; [cbn in *; lia|lia]).
    assert (Hfin : finish s m1 e1
                   = if e1 <=? 971 then S754_finite s (Z.to_pos m1) e1
                     else S754_infinity s).
    { unfold finish. rewrite Hdm1, fexp_eq.
      replace (Z.max e1 (Z.max (53 + e1 - 53) (-1074))) with e1 by (unfold e1; lia).
      replace (e1 - e1) with 0 by lia. rewrite Z.div_1_r.
      destruct m1; try lia. reflexivity. }
    rewrite Hfin, Z2Pos.id by lia.
    replace (e1 - e1) with 0 by lia. rewrite Z.mul_1_r.
    refine (conj _ (conj _ (conj _ (conj _ eq_refl)))).
    + lia.
    + lia.
    + lia.
    + intros Hl Hmod. split; [reflexivity|apply (Hex Hl Hmod)].
Qed.

(** *** An upper bound by a power of two survives rounding *)

Lemma binary_round_aux_le_pow2 s mz ez lz k :
  0 <= mz -> ez <= k - 52 -> -1021 <= k <= 1023 ->
  mz <= 2 ^ (k - ez) ->
  (mz = 2 ^ (k - ez) -> lz = loc_Exact) ->
  binary_round_aux Py.prec Py.emax s mz ez lz = S754_zero s \/
  exists m e,
    binary_round_aux Py.prec Py.emax s mz ez lz = S754_finite s m e /\
    (e < k - 52 \/ (e = k - 52 /\ Zpos m <= 2 ^ 52)).
Proof.
  intros Hmz Hez Hk Hle Hexact.
  destruct (binary_round_aux_spec s mz ez lz Hmz) as (m1 & Hm1 & Hex & Heq).
  rewrite Heq. clear Heq.
  set (e1 := Z.max ez (fexp (Zdigits2 mz + ez))) in *.
  assert (He1 : ez <= e1 <= k - 52).
  { unfold e1. rewrite fexp_eq. split; [lia|].
    destruct (Z.eq_dec mz 0) as [->|Hnz]; [cbn [Zdigits2]; lia|].
    assert (Zdigits2 mz <= k - ez + 1).
    { apply Zdigits2_le_iff; [lia|lia|]. rewrite Z.pow_add_r by lia. 
      pose proof (pow2_pos (k - ez) ltac:(lia)). lia. }
    lia. }
  assert (HM1 : 0 <= mz / 2 ^ (e1 - ez) <= 2 ^ (k - e1)).
  { split; [apply Z.div_pos; [assumption|apply pow2_pos; lia]|].
    pose proof (div_pow2_upper (k - ez) (e1 - ez) mz ltac:(lia) Hle) as H.
    replace (k - ez - (e1 - ez)) with (k - e1) in H by lia. exact H. }
  assert (Hm1le : 0 <= m1 <= 2 ^ (k - e1)).
  { split; [lia|].
    destruct (Z.eq_dec (mz / 2 ^ (e1 - ez)) (2 ^ (k - e1))) as [Heq|Hne]; [|lia].
    pose proof (pow2_pos (e1 - ez) ltac:(lia)) as Hp.
    pose proof (Z.div_mod mz (2 ^ (e1 - ez)) ltac:(lia)) as Hdm.
    pose proof (Z.mod_pos_bound mz (2 ^ (e1 - ez)) Hp) as Hmod.
    rewrite Heq in Hdm.
    assert (Hs : 2 ^ (k - ez) = 2 ^ (e1 - ez) * 2 ^ (k - e1)).
    { rewrite <- Z.pow_add_r by lia. f_equal. lia. }
    assert (Hmzeq : mz = 2 ^ (k - ez)) by lia.
    assert (Hmod0 : mz mod 2 ^ (e1 - ez) = 0) by lia.
    rewrite (Hex (Hexact Hmzeq) Hmod0). lia. }
  pose proof (pow2_pos (k - e1) ltac:(lia)) as Hpk.
  assert (Hemin : -1074 <= e1) by (unfold e1; rewrite fexp_eq; lia).
  destruct (Z.eq_dec m1 0) as [->|Hnz].
  { left. unfold finish. rewrite Z.div_0_l; [reflexivity|].
    pose proof (pow2_pos (Z.max e1 (fexp (Zdigits2 0 + e1)) - e1) ltac:(lia)). lia. }
  right.
  destruct (Z.eq_dec m1 (2 ^ (k - e1))) as [Heq|Hne].
  - exists (Z.to_pos (2 ^ 52)), (k - 52). split; [|right; split; [lia|cbn; lia]].
    unfold finish. rewrite Heq, Zdigits2_pow2, fexp_eq by lia.
    replace (Z.max e1 (Z.max (k - e1 + 1 + e1 - 53) (-1074))) with (k - 52) by lia.
    rewrite <- Z.pow_sub_r by lia.
    replace (k - e1 - (k - 52 - e1)) with 52 by lia.
    destruct (Z.leb_spec (k - 52) 971); [reflexivity|lia].
  - assert (Hdm1 : Zdigits2 m1 <= k - e1) by (apply Zdigits2_le_iff; lia).
    pose proof (Zdigits2_pos m1 ltac:(lia)) as Hdpos.
    destruct (finish_shape s m1 e1 ltac:(lia)) as [Hz|[Hinf|(m & e & Hfin)]].
    + exfalso. unfold finish in Hz. rewrite fexp_eq in Hz.
      destruct (Z_le_gt_dec (Zdigits2 m1 + e1 - 53) e1).
      * replace (Z.max e1 (Z.max (Zdigits2 m1 + e1 - 53) (-1074))) with e1 in Hz by lia.
        replace (e1 - e1) with 0 in Hz by lia. rewrite Z.div_1_r in Hz.
        destruct m1; try lia; destruct (e1 <=? 971); discriminate.
      * replace (Z.max e1 (Z.max (Zdigits2 m1 + e1 - 53) (-1074)))
          with (Zdigits2 m1 + e1 - 53) in Hz by lia.
        pose proof (Zdigits2_bounds m1 ltac:(lia)) as Hb.
        pose proof (div_pow2_lower 1 (Zdigits2 m1 - 1) (Zdigits2 m1 + e1 - 53 - e1) m1
                      ltac:(lia) ltac:(lia)) as Hl.
        pose proof (pow2_pos (Zdigits2 m1 - 1 - (Zdigits2 m1 + e1 - 53 - e1)) ltac:(lia)).
        destruct (m1 / 2 ^ (Zdigits2 m1 + e1 - 53 - e1)); try lia;
          destruct (_ <=? 971); discriminate.
    + exfalso. unfold finish in Hinf. rewrite fexp_eq in Hinf.
      destruct (m1 / 2 ^ _); try discriminate.
      destruct (Z.leb_spec (Z.max e1 (Z.max (Zdigits2 m1 + e1 - 53) (-1074))) 971);
        [discriminate|lia].
    + exists m, e. split; [exact Hfin|].
      apply finish_finite in Hfin. destruct Hfin as (_ & He & Hm & _).
      rewrite fexp_eq in He.
      destruct (Z_lt_le_dec e (k - 52)) as [|Hge]; [left; assumption|right].
      assert (e = k - 52) by lia. assert (e1 = k - 52) by lia.
      split; [assumption|].
      rewrite Hm. replace (e - e1) with 0 by lia. rewrite Z.div_1_r.
      replace (k - e1) with 52 in * by lia. lia.
Qed.

(** *** The bit that decides the rounding *)

Lemma shr_1_r mrs : 0 <= shr_m mrs -> shr_r (shr_1 mrs) = Z.odd (shr_m mrs).
Proof.
  destruct mrs as [m r s]. cbn [shr_m]. intros Hm.
  destruct m as [|[p|p|]|p]; try reflexivity. lia.
Qed.

Lemma iter_shr_1_r p : forall mrs,
  0 <= shr_m mrs ->
  shr_r (iter_pos shr_1 p mrs) = Z.testbit (shr_m mrs) (Zpos p - 1).
Proof.
  induction p as [p IH|p IH|]; intros mrs Hm; cbn [iter_pos].
  - pose proof (pow2_pos (Z.pos p) ltac:(lia)) as Hp.
    assert (H1 : 0 <= shr_m (shr_1 mrs)).
    { rewrite shr_1_m by assumption. apply Z.div_pos; lia. }
    assert (H2 : 0 <= shr_m (iter_pos shr_1 p (shr_1 mrs))).
    { rewrite iter_shr_1_m by assumption. apply Z.div_pos; lia. }
    rewrite IH by assumption.
    rewrite iter_shr_1_m, shr_1_m by assumption.
    change 2 with (2 ^ 1) at 1.
    rewrite !Z.div_pow2_bits by lia. f_equal. lia.
  - pose proof (pow2_pos (Z.pos p) ltac:(lia)) as Hp.
    assert (H2 : 0 <= shr_m (iter_pos shr_1 p mrs)).
    { rewrite iter_shr_1_m by assumption. apply Z.div_pos; lia. }
    rewrite IH by assumption.
    rewrite iter_shr_1_m by assumption.
    rewrite Z.div_pow2_bits by lia. f_equal. lia.
  - rewrite shr_1_r by assumption. symmetry. apply Z.bit0_odd.
Qed.

(** A mantissa whose first bit cut off is 0 is rounded down. *)
Lemma binary_round_aux_down s mz ez :
  0 <= mz ->
  let e1 := Z.max ez (fexp (Zdigits2 mz + ez)) in
  ez < e1 -> Z.testbit mz (e1 - ez - 1) = false ->
  binary_round_aux Py.prec Py.emax s mz ez loc_Exact
  = finish s (mz / 2 ^ (e1 - ez)) e1.
Proof.
  intros Hmz e1 Hlt Hbit.
  unfold binary_round_aux, shr_fexp, shr. fold (fexp (Zdigits2 mz + ez)).
  destruct (fexp (Zdigits2 mz + ez) - ez) as [|p|p] eqn:Hn;
    try (exfalso; unfold e1 in Hlt; lia).
  assert (He1 : e1 = ez + Z.pos p) by (unfold e1; lia).
  replace (e1 - ez) with (Z.pos p) in * by lia.
  set (mrs := iter_pos shr_1 p (shr_record_of_loc mz loc_Exact)).
  assert (Hm : shr_m mrs = mz / 2 ^ Z.pos p).
  { unfold mrs. rewrite iter_shr_1_m by (cbn; assumption). reflexivity. }
  assert (Hr : shr_r mrs = false).
  { unfold mrs. rewrite iter_shr_1_r by (cbn; assumption). exact Hbit. }
  assert (Hround : round_nearest_even (shr_m mrs) (loc_of_shr_record mrs)
                   = mz / 2 ^ Z.pos p).
  { rewrite <- Hm. destruct mrs as [m r s0]. cbn [shr_r] in Hr. subst r.
    destruct s0; reflexivity. }
  rewrite Hround.
  set (m1 := mz / 2 ^ Z.pos p).
  assert (Hm1 : 0 <= m1) by (apply Z.div_pos; [assumption|apply pow2_pos; lia]).
  replace (ez + Z.pos p) with e1 by lia.
  unfold finish. fold (fexp (Zdigits2 m1 + e1)).
  cbn [shr_record_of_loc].
  destruct (fexp (Zdigits2 m1 + e1) - e1) as [|q|q] eqn:Hn'.
  + replace (Z.max e1 (fexp (Zdigits2 m1 + e1))) with e1 by lia.
    replace (e1 - e1) with 0 by lia. rewrite Z.div_1_r. cbn [shr_m]. reflexivity.
  + replace (Z.max e1 (fexp (Zdigits2 m1 + e1))) with (e1 + Z.pos q) by lia.
    replace (e1 + Z.pos q - e1) with (Z.pos q) by lia.
    rewrite iter_shr_1_m by (cbn; assumption). cbn [shr_m]. reflexivity.
  + replace (Z.max e1 (fexp (Zdigits2 m1 + e1))) with e1 by lia.
    replace (e1 - e1) with 0 by lia. rewrite Z.div_1_r. cbn [shr_m]. reflexivity.
Qed.

End Rounding.

(** * Facts about the float operations the overlay uses *)

Module FloatFacts.
Import Binary64 Literals Rounding.


Lemma literal_one : Py.round_int 1 = one. Proof. reflexivity. Qed.
Lemma literal_two : Py.decimal 2 1 = two. Proof. reflexivity. Qed.
Lemma literal_hundred : Py.decimal 100 1 = hundred. Proof. reflexivity. Qed.
Lemma literal_255 : Py.float_of_int 255 = Py.Done f255. Proof. reflexivity. Qed.

(** *** Valid binary64 numbers *)

Lemma valid_finite s m e :
  Py.float_valid (S754_finite s m e) = true <->
  fexp (Zdigits2 (Zpos m) + e) = e /\ e <= 971.
Proof.
  unfold Py.float_valid, valid_binary, bounded, canonical_mantissa.
  rewrite andb_true_iff, Z.eqb_eq, Z.leb_le. reflexivity.
Qed.

Lemma valid_digits s m e :
  Py.float_valid (S754_finite s m e) = true ->
  Zdigits2 (Zpos m) <= 53 /\ -1074 <= e <= 971 /\
  (-1074 < e -> 2 ^ 52 <= Zpos m).
Proof.
  rewrite valid_finite, fexp_eq. intros [Hc He].
  repeat split; try lia.
  intros Hn. assert (Hd : Zdigits2 (Zpos m) = 53) by lia.
  pose proof (Zdigits2_bounds (Zpos m) ltac:(lia)) as Hb.
  rewrite Hd in Hb. replace (53 - 1) with 52 in Hb by lia. lia.
Qed.

(** *** Comparisons *)

Lemma compare_int_float_finite c s m e :
  compare_int_float c (S754_finite s m e)
  = Some (c * 2 ^ Z.max 0 (- e) ?= (if s then Zneg m else Zpos m) * 2 ^ Z.max 0 e).
Proof.
  destruct e as [|p|p]; cbn [compare_int_float].
  - change (2 ^ Z.max 0 (- 0)) with 1. change (2 ^ Z.max 0 0) with 1.
    rewrite !Z.mul_1_r. reflexivity.
  - replace (Z.max 0 (- Z.pos p)) with 0 by lia.
    replace (Z.max 0 (Z.pos p)) with (Z.pos p) by lia.
    rewrite Z.pow_0_r, Z.mul_1_r. reflexivity.
  - replace (Z.max 0 (- Z.neg p)) with (Z.pos p) by lia.
    replace (Z.max 0 (Z.neg p)) with 0 by lia.
    rewrite Z.pow_0_r, Z.mul_1_r. reflexivity.
Qed.

Lemma fle_finite m1 e1 m2 e2 :
  Py.fle (S754_finite false m1 e1) (S754_finite false m2 e2) = true <->
  e1 < e2 \/ (e1 = e2 /\ Zpos m1 <= Zpos m2).
Proof.
  unfold Py.fle, SFleb, SFcompare.
  destruct (Z.compare_spec e1 e2) as [->|Hlt|Hgt].
  - change (Pos.compare_cont Eq m1 m2) with (Pos.compare m1 m2).
    destruct (Pos.compare_spec m1 m2) as [->|H|H]; split; intros; try lia; try discriminate;
      try reflexivity.
  - split; intros; [lia|reflexivity].
  - split; intros; [discriminate|lia].
Qed.

Lemma flt_finite m1 e1 m2 e2 :
  Py.flt (S754_finite false m1 e1) (S754_finite false m2 e2) = true <->
  e1 < e2 \/ (e1 = e2 /\ Zpos m1 < Zpos m2).
Proof.
  unfold Py.flt, SFltb, SFcompare.
  destruct (Z.compare_spec e1 e2) as [->|Hlt|Hgt].
  - change (Pos.compare_cont Eq m1 m2) with (Pos.compare m1 m2).
    destruct (Pos.compare_spec m1 m2) as [->|H|H]; split; intros; try lia; try discriminate;
      try reflexivity.
  - split; intros; [lia|reflexivity].
  - split; intros; [discriminate|lia].
Qed.

(** A float between [0.0] and [2.0] is a zero or a positive finite number
    with a small exponent. *)
Lemma unit_range_shape b :
  Py.fle zero b = true -> Py.fle b two = true ->
  (exists s, b = S754_zero s) \/
  exists m e, b = S754_finite false m e /\
              (e < -51 \/ (e = -51 /\ Zpos m <= 2 ^ 52)).
Proof.
  intros H0 H2. destruct b as [s|s| |s m e].
  - left. eauto.
  - destruct s; discriminate.
  - discriminate.
  - destruct s; [discriminate|]. right. exists m, e. split; [reflexivity|].
    apply fle_finite in H2. exact H2.
Qed.

(** *** [int(x)] *)

Lemma int_of_float_finite s m e :
  Py.int_of_float (S754_finite s m e)
  = Py.Done (let a := if e <? 0 then Zpos m / 2 ^ (- e) else Zpos m * 2 ^ e in
             if s then - a else a).
Proof.
  destruct e as [|p|p]; cbn [Py.int_of_float].
  - change (0 <? 0) with false. cbv beta iota zeta. rewrite Z.pow_0_r, Z.mul_1_r. reflexivity.
  - reflexivity.
  - reflexivity.
Qed.

(** *** The mantissa of a rounded result has at most 53 digits *)

Lemma binary_round_aux_mantissa s mz ez lz s' m e :
  0 <= mz ->
  binary_round_aux Py.prec Py.emax s mz ez lz = S754_finite s' m e ->
  Zpos m < 2 ^ 53.
Proof.
  intros Hmz Hr.
  destruct (binary_round_aux_spec s mz ez lz Hmz) as (m1 & Hm1 & _ & Heq).
  rewrite Heq in Hr. apply finish_finite in Hr. destruct Hr as (_ & He & Hm & _).
  set (e1 := Z.max ez (fexp (Zdigits2 mz + ez))) in *.
  assert (Hn : 0 <= e1 - ez) by (unfold e1; lia).
  assert (HM1 : 0 <= mz / 2 ^ (e1 - ez) < 2 ^ 53).
  { split; [apply Z.div_pos; [assumption|apply pow2_pos; lia]|].
    destruct (Z.eq_dec mz 0) as [->|Hnz].
    - rewrite Z.div_0_l by (pose proof (pow2_pos (e1 - ez) Hn); lia). reflexivity.
    - pose proof (Zdigits2_bounds mz ltac:(lia)) as Hb.
      pose proof (Zdigits2_pos mz ltac:(lia)) as Hp.
      assert (Zdigits2 mz - 53 <= e1 - ez) by (unfold e1; rewrite fexp_eq; lia).
      destruct (Z_le_gt_dec (Zdigits2 mz) (e1 - ez)).
      + rewrite (div_pow2_small (Zdigits2 mz) (e1 - ez)) by lia. reflexivity.
      + pose proof (div_pow2_lt (Zdigits2 mz) (e1 - ez) mz ltac:(lia) ltac:(lia)) as Hlt.
        assert (2 ^ (Zdigits2 mz - (e1 - ez)) <= 2 ^ 53) by (apply Z.pow_le_mono_r; lia).
        lia. }
  assert (He2 : 0 <= e - e1) by lia.
  pose proof (pow2_pos (e - e1) He2) as Hp2.
  destruct (Z.eq_dec m1 (2 ^ 53)) as [Hc|Hnc].
  - rewrite Hc, Zdigits2_pow2, fexp_eq in He by lia.
    pose proof (div_pow2_upper 53 1 m1 ltac:(lia) ltac:(lia)) as Hu.
    assert (m1 / 2 ^ (e - e1) <= m1 / 2 ^ 1).
    { apply Z.div_le_compat_l; [lia|]. split; [reflexivity|].
      apply Z.pow_le_mono_r; lia. }
    change (2 ^ (53 - 1)) with 4503599627370496 in Hu.
    change (2 ^ 53) with 9007199254740992. lia.
  - assert (m1 / 2 ^ (e - e1) <= m1).
    { apply Z.div_le_upper_bound; [lia|]. nia. }
    lia.
Qed.

(** *** Products *)

Lemma Zdigits2_mul_le a b :
  0 < a -> 0 < b -> Zdigits2 (a * b) <= Zdigits2 a + Zdigits2 b.
Proof.
  intros Ha Hb.
  pose proof (Zdigits2_bounds a Ha) as Hda. pose proof (Zdigits2_bounds b Hb) as Hdb.
  pose proof (Zdigits2_pos a Ha). pose proof (Zdigits2_pos b Hb).
  apply Zdigits2_le_iff; [nia|lia|].
  rewrite Z.pow_add_r by lia. nia.
Qed.

Lemma fmul_finite sx mx ex sy my ey :
  Py.fmul (S754_finite sx mx ex) (S754_finite sy my ey)
  = binary_round_aux Py.prec Py.emax (xorb sx sy) (Zpos mx * Zpos my) (ex + ey) loc_Exact.
Proof. reflexivity. Qed.

(** The product of two valid finite numbers whose exponents are not too
    large is a zero or a finite number: no overflow. *)
Lemma fmul_no_overflow sx mx ex sy my ey :
  Zpos mx < 2 ^ 53 -> Zpos my < 2 ^ 53 ->
  ex + ey <= 917 ->
  Py.fmul (S754_finite sx mx ex) (S754_finite sy my ey) = S754_zero (xorb sx sy) \/
  exists m e,
    Py.fmul (S754_finite sx mx ex) (S754_finite sy my ey)
    = S754_finite (xorb sx sy) m e /\
    Zpos m < 2 ^ 53 /\
    e <= Z.max (Z.max (ex + ey) (-1074)) (ex + ey + 54).
Proof.
  intros Hx Hy He. rewrite fmul_finite.
  pose proof (Zdigits2_mul_le (Zpos mx) (Zpos my) ltac:(lia) ltac:(lia)) as Hd.
  apply Zdigits2_le_iff in Hx; [|lia|lia]. apply Zdigits2_le_iff in Hy; [|lia|lia].
  destruct (binary_round_aux_shape (xorb sx sy) (Zpos mx * Zpos my) (ex + ey) loc_Exact
              ltac:(lia)) as [Hz|[Hinf|(m & e & Hfin)]].
  - left. exact Hz.
  - exfalso. revert Hinf. apply binary_round_aux_no_overflow; lia.
  - right. exists m, e. split; [exact Hfin|]. split.
    + apply binary_round_aux_mantissa in Hfin; lia.
    + apply binary_round_aux_exponent in Hfin; lia.
Qed.

Lemma imax_eq a b : Py.imax a b = Z.max a b.
Proof. unfold Py.imax. destruct (Z.ltb_spec a b); lia. Qed.

Lemma imin_eq a b : Py.imin a b = Z.min a b.
Proof. unfold Py.imin. destruct (Z.ltb_spec b a); lia. Qed.

Lemma valid_mantissa s m e :
  Py.float_valid (S754_finite s m e) = true -> Zpos m < 2 ^ 53.
Proof.
  intros H. apply valid_digits in H. destruct H as (Hd & _).
  apply Zdigits2_le_iff in Hd; lia.
Qed.

(** [255 * b] for a brightness between [0.0] and [2.0]: a non-negative
    finite number, at least 255 when [b] is at least [1.0]. *)
Lemma mul255_unit_range b :
  Py.float_valid b = true -> Py.fle zero b = true -> Py.fle b two = true ->
  (Py.fle one b = false /\ exists s, Py.fmul f255 b = S754_zero s) \/
  exists m e,
    Py.fmul f255 b = S754_finite false m e /\ Zpos m < 2 ^ 53 /\ e <= -42 /\
    (Py.fle one b = true -> 255 * 2 ^ (- e) <= Zpos m).
Proof.
  intros Hv H0 H2.
  destruct (unit_range_shape b H0 H2) as [[s ->]|(m & e & -> & He)].
  { left. split; [reflexivity|]. exists (xorb false s). reflexivity. }
  pose proof (valid_mantissa _ _ _ Hv) as Hm.
  pose proof (valid_digits _ _ _ Hv) as (_ & Hrange & Hnorm).
  assert (Hone : Py.fle one (S754_finite false m e) = true ->
                 2 ^ 52 <= Zpos m /\ -52 <= e).
  { intros H1. apply fle_finite in H1.
    destruct H1 as [H1|[H1 H1']]; (split; [|lia]); [apply Hnorm|]; lia. }
  unfold f255.
  destruct (fmul_no_overflow false 8972014882652160 (-45) false m e
              ltac:(cbn; lia) Hm ltac:(lia)) as [Hz|(m' & e' & Hfin & Hm' & He')].
  { left. split; [|eauto].
    destruct (Py.fle one (S754_finite false m e)) eqn:H1; [exfalso|reflexivity].
    destruct (Hone eq_refl) as [Hm52 He52]. rewrite fmul_finite in Hz.
    pose proof (Zdigits2_ge 52 (Zpos 8972014882652160 * Zpos m)
                  ltac:(lia) ltac:(change (2 ^ 52) with 4503599627370496 in *; lia)).
    destruct (binary_round_aux_normal (xorb false false)
                (Zpos 8972014882652160 * Zpos m) (-45 + e) loc_Exact
                ltac:(change (2 ^ 52) with 4503599627370496 in *; lia) ltac:(lia))
      as (m' & e' & _ & _ & _ & _ & Hr).
    rewrite Hr in Hz. destruct (e' <=? 971); discriminate. }
  right. exists m', e'. cbn [xorb] in Hfin.
  split; [exact Hfin|]. split; [exact Hm'|]. split; [lia|].
  intros H1. destruct (Hone H1) as [Hm52 He52].
  rewrite fmul_finite in Hfin. cbn [xorb] in Hfin.
  refine (binary_round_aux_lower _ _ _ _ 255 _ _ _ _ _ _ _ _ Hfin); try lia.
  assert (Hpow : 2 ^ (- (-45 + e)) <= 2 ^ 97) by (apply Z.pow_le_mono_r; lia).
  change (2 ^ 97) with (35184372088832 * 2 ^ 52) in Hpow.
  change (2 ^ 52) with 4503599627370496 in *. lia.
Qed.

(** *** Division by [100.0] *)

Lemma fdiv_hundred_core m e :
  let e' := Z.min (fexp (Zdigits2 (Zpos m) + e - 7)) (e + 46) in
  let a := Zpos m * 2 ^ (e + 46 - e') in
  exists lz,
    SFdiv_core_binary Py.prec Py.emax (Zpos m) e 7036874417766400 (-46)
    = (a / 7036874417766400, e', lz) /\
    (a mod 7036874417766400 = 0 -> lz = loc_Exact).
Proof.
  intros e' a. unfold SFdiv_core_binary.
  change (Zdigits2 7036874417766400) with 53.
  replace (Zdigits2 (Z.pos m) + e - (53 + -46)) with (Zdigits2 (Z.pos m) + e - 7) by lia.
  change (SpecFloat.fexp Py.prec Py.emax (Zdigits2 (Z.pos m) + e - 7))
    with (fexp (Zdigits2 (Z.pos m) + e - 7)).
  replace (e - -46) with (e + 46) by lia. fold e'.
  assert (Hs : 0 <= e + 46 - e') by (unfold e'; lia).
  assert (Ha : match e + 46 - e' with
               | 0 => Z.pos m
               | Z.pos _ => Z.shiftl (Z.pos m) (e + 46 - e')
               | Z.neg _ => 0
               end = a).
  { unfold a. destruct (e + 46 - e') as [|p|p]; try lia.
    rewrite Z.shiftl_mul_pow2 by lia. reflexivity. }
  rewrite Ha.
  pose proof (Z_div_mod a 7036874417766400 ltac:(lia)) as Hdm.
  unfold Z.modulo, Z.div.
  destruct (Z.div_eucl a 7036874417766400) as [q r].
  exists (new_location 7036874417766400 r). split; [reflexivity|].
  intros ->. reflexivity.
Qed.

Lemma fdiv_hundred_finite s m e :
  Py.fdiv (S754_finite s m e) hundred
  = let '(mz, ez, lz) :=
      SFdiv_core_binary Py.prec Py.emax (Zpos m) e 7036874417766400 (-46) in
    binary_round_aux Py.prec Py.emax s mz ez lz.
Proof.
  unfold Py.fdiv, hundred, SFdiv. rewrite xorb_false_r. reflexivity.
Qed.

(** The exact order between an integer and a positive finite float,
    rescaled to a common exponent. *)
Lemma scaled_le m e c j :
  0 <= j -> 0 <= e + j ->
  m * 2 ^ Z.max 0 e <= c * 2 ^ Z.max 0 (- e) ->
  m * 2 ^ (e + j) <= c * 2 ^ j.
Proof.
  intros Hj Hej H.
  destruct (Z_le_gt_dec 0 e) as [He|He].
  - replace (Z.max 0 e) with e in H by lia.
    replace (Z.max 0 (- e)) with 0 in H by lia. rewrite Z.pow_0_r in H.
    rewrite Z.pow_add_r by lia. pose proof (pow2_pos j Hj). nia.
  - replace (Z.max 0 e) with 0 in H by lia.
    replace (Z.max 0 (- e)) with (- e) in H by lia. rewrite Z.pow_0_r in H.
    replace j with (- e + (e + j)) at 2 by lia.
    rewrite (Z.pow_add_r 2 (- e)) by lia. pose proof (pow2_pos (e + j) Hej). nia.
Qed.

Lemma scaled_ge m e c j :
  0 <= j -> 0 <= e + j ->
  c * 2 ^ Z.max 0 (- e) <= m * 2 ^ Z.max 0 e ->
  c * 2 ^ j <= m * 2 ^ (e + j).
Proof.
  intros Hj Hej H.
  destruct (Z_le_gt_dec 0 e) as [He|He].
  - replace (Z.max 0 e) with e in H by lia.
    replace (Z.max 0 (- e)) with 0 in H by lia. rewrite Z.pow_0_r in H.
    rewrite Z.pow_add_r by lia. pose proof (pow2_pos j Hj). nia.
  - replace (Z.max 0 e) with 0 in H by lia.
    replace (Z.max 0 (- e)) with (- e) in H by lia. rewrite Z.pow_0_r in H.
    replace j with (- e + (e + j)) at 1 by lia.
    rewrite (Z.pow_add_r 2 (- e)) by lia. pose proof (pow2_pos (e + j) Hej). nia.
Qed.

(** A positive float that is at most 200 is below [2 ^ 8]. *)
Lemma le_200_digits m e :
  Zpos m * 2 ^ Z.max 0 e <= 200 * 2 ^ Z.max 0 (- e) ->
  Zdigits2 (Zpos m) + e <= 8.
Proof.
  intros H.
  destruct (Z_le_gt_dec e 8) as [He|He].
  - assert (Zdigits2 (Zpos m) <= 8 - e); [|lia].
    apply Zdigits2_le_iff; [lia|lia|].
    pose proof (scaled_le (Zpos m) e 200 (8 - e) ltac:(lia) ltac:(lia) H) as Hs.
    replace (e + (8 - e)) with 8 in Hs by lia.
    change (2 ^ 8) with 256 in Hs. lia.
  - exfalso. replace (Z.max 0 e) with e in H by lia.
    replace (Z.max 0 (- e)) with 0 in H by lia. rewrite Z.pow_0_r in H.
    assert (2 ^ 8 <= 2 ^ e) by (apply Z.pow_le_mono_r; lia).
    change (2 ^ 8) with 256 in *. nia.
Qed.

(** A positive float that is at least 200 is at least [2 ^ 7]. *)
Lemma ge_200_digits m e :
  200 * 2 ^ Z.max 0 (- e) <= Zpos m * 2 ^ Z.max 0 e ->
  8 <= Zdigits2 (Zpos m) + e.
Proof.
  intros H. pose proof (Zdigits2_pos (Zpos m) ltac:(lia)) as Hp.
  destruct (Z_le_gt_dec e 7) as [He|He]; [|lia].
  pose proof (Zdigits2_bounds (Zpos m) ltac:(lia)) as Hb.
  destruct (Z_le_gt_dec 8 (Zdigits2 (Zpos m) + e)) as [|Hlt]; [assumption|exfalso].
  pose proof (scaled_ge (Zpos m) e 200 (7 - e) ltac:(lia) ltac:(lia) H) as Hs.
  replace (e + (7 - e)) with 7 in Hs by lia.
  assert (2 ^ Zdigits2 (Z.pos m) <= 2 ^ (7 - e)) by (apply Z.pow_le_mono_r; lia).
  change (2 ^ 7) with 128 in Hs. lia.
Qed.

(** Dividing a non-negative float that is at most 200 by [100.0] gives at
    most [2.0]. *)
Lemma fdiv_hundred_le_200 s m e :
  Zpos m * 2 ^ Z.max 0 e <= 200 * 2 ^ Z.max 0 (- e) ->
  Py.fdiv (S754_finite s m e) hundred = S754_zero s \/
  exists m' e',
    Py.fdiv (S754_finite s m e) hundred = S754_finite s m' e' /\
    (e' < -51 \/ (e' = -51 /\ Zpos m' <= 2 ^ 52)).
Proof.
  intros H. rewrite fdiv_hundred_finite.
  destruct (fdiv_hundred_core m e) as (lz & -> & Hlz).
  pose proof (le_200_digits m e H) as Hd.
  set (e' := Z.min (fexp (Zdigits2 (Z.pos m) + e - 7)) (e + 46)) in *.
  assert (He' : e' <= -52) by (unfold e'; rewrite fexp_eq; lia).
  assert (Hs : 0 <= e + 46 - e') by (unfold e'; lia).
  set (a := Z.pos m * 2 ^ (e + 46 - e')) in *.
  pose proof (scaled_le (Zpos m) e 200 (46 - e') ltac:(lia) ltac:(lia) H) as Ha.
  replace (e + (46 - e')) with (e + 46 - e') in Ha by lia. fold a in Ha.
  assert (Hpow : 200 * 2 ^ (46 - e') = 7036874417766400 * 2 ^ (1 - e')).
  { replace (46 - e') with (45 + (1 - e')) by lia. rewrite Z.pow_add_r by lia.
    change (2 ^ 45) with 35184372088832. lia. }
  pose proof (pow2_pos (1 - e') ltac:(lia)) as Hp.
  pose proof (Z.div_mod a 7036874417766400 ltac:(lia)) as Hdm.
  pose proof (Z.mod_pos_bound a 7036874417766400 ltac:(lia)) as Hmod.
  assert (Hq : a / 7036874417766400 <= 2 ^ (1 - e')).
  { apply Z.div_le_upper_bound; lia. }
  assert (Ha0 : 0 <= a) by (unfold a; pose proof (pow2_pos _ Hs); lia).
  apply binary_round_aux_le_pow2 with (k := 1);
    [apply Z.div_pos; lia | lia | lia | exact Hq | ].
  intros Heq. apply Hlz. nia.
Qed.

(** Dividing a float that is at least 200 by [100.0] gives at least
    [2.0]. *)
Lemma fdiv_hundred_ge_200 s m e :
  Zpos m < 2 ^ 53 ->
  200 * 2 ^ Z.max 0 (- e) <= Zpos m * 2 ^ Z.max 0 e ->
  Py.fdiv (S754_finite s m e) hundred = S754_infinity s \/
  exists m' e',
    Py.fdiv (S754_finite s m e) hundred = S754_finite s m' e' /\
    2 ^ 52 <= Zpos m' < 2 ^ 53 /\ -51 <= e'.
Proof.
  intros Hm H. rewrite fdiv_hundred_finite.
  destruct (fdiv_hundred_core m e) as (lz & -> & _).
  pose proof (ge_200_digits m e H) as Hd.
  assert (Hd53 : Zdigits2 (Zpos m) <= 53) by (apply Zdigits2_le_iff; lia).
  pose proof (Zdigits2_bounds (Zpos m) ltac:(lia)) as Hb.
  pose proof (Zdigits2_pos (Zpos m) ltac:(lia)) as Hdpos.
  replace (Z.min (fexp (Zdigits2 (Z.pos m) + e - 7)) (e + 46))
    with (Zdigits2 (Z.pos m) + e - 60) in * by (rewrite fexp_eq; lia).
  replace (e + 46 - (Zdigits2 (Z.pos m) + e - 60)) with (106 - Zdigits2 (Z.pos m)) by lia.
  set (d := Zdigits2 (Z.pos m)) in *.
  set (a := Z.pos m * 2 ^ (106 - d)).
  assert (Ha : 2 ^ 105 <= a).
  { unfold a. replace 105 with (d - 1 + (106 - d)) by lia.
    rewrite Z.pow_add_r by lia. pose proof (pow2_pos (106 - d) ltac:(lia)). nia. }
  assert (Hq : 2 ^ 52 <= a / 7036874417766400).
  { apply Z.div_le_lower_bound; [lia|].
    change (2 ^ 105) with 40564819207303340847894502572032 in Ha.
    change (2 ^ 52) with 4503599627370496. lia. }
  assert (Hq53 : d + e = 8 -> 2 ^ 53 <= a / 7036874417766400).
  { intros Hde. apply Z.div_le_lower_bound; [lia|].
    pose proof (scaled_ge (Zpos m) e 200 98 ltac:(lia) ltac:(lia) H) as Hs.
    unfold a. replace (106 - d) with (e + 98) by lia.
    change (2 ^ 98) with 316912650057057350374175801344 in Hs.
    change (2 ^ 53) with 9007199254740992. lia. }
  set (q := a / 7036874417766400) in *.
  assert (Hq0 : 0 < q) by (pose proof (pow2_pos 52 ltac:(lia)); lia).
  assert (Hdq : 53 <= Zdigits2 q /\ (d + e = 8 -> 54 <= Zdigits2 q)).
  { split; [|intros Hde; specialize (Hq53 Hde)].
    - destruct (Z_le_gt_dec 53 (Zdigits2 q)) as [|Hlt]; [assumption|exfalso].
      assert (Zdigits2 q <= 52) as Hle by lia.
      apply Zdigits2_le_iff in Hle; lia.
    - destruct (Z_le_gt_dec 54 (Zdigits2 q)) as [|Hlt]; [assumption|exfalso].
      assert (Zdigits2 q <= 53) as Hle by lia.
      apply Zdigits2_le_iff in Hle; lia. }
  destruct (binary_round_aux_normal s q (d + e - 60) lz Hq ltac:(lia))
    as (m' & e' & Hm' & He' & _ & _ & ->).
  destruct (Z.leb_spec e' 971); [right|left; reflexivity].
  exists m', e'. split; [reflexivity|]. split; [exact Hm'|]. lia.
Qed.

End FloatFacts.

(** * Integer conversion, validity and the brightness clamp *)

Module IntFacts.
Import Binary64 Literals Rounding FloatFacts.

Lemma Pos_iter_xO m d : Zpos (Pos.iter xO m d) = Zpos m * 2 ^ Zpos d.
Proof.
  induction d as [|d IH] using Pos.peano_ind.
  - cbn. lia.
  - rewrite Pos.iter_succ, Pos2Z.inj_xO, IH, Pos2Z.inj_succ, Z.pow_succ_r by lia. lia.
Qed.

Lemma shl_align_spec mx ex ex' :
  snd (shl_align mx ex ex') = Z.min ex ex' /\
  Zpos (fst (shl_align mx ex ex')) = Zpos mx * 2 ^ (ex - Z.min ex ex').
Proof.
  unfold shl_align. destruct (ex' - ex) as [|d|d] eqn:Hd; cbn [fst snd].
  - replace (Z.min ex ex') with ex by lia. replace (ex - ex) with 0 by lia.
    rewrite Z.pow_0_r. lia.
  - replace (Z.min ex ex') with ex by lia. replace (ex - ex) with 0 by lia.
    rewrite Z.pow_0_r. lia.
  - replace (Z.min ex ex') with ex' by lia. rewrite Pos_iter_xO.
    replace (ex - ex') with (Z.pos d) by lia. lia.
Qed.

Lemma binary_round_eq s m e :
  binary_round Py.prec Py.emax s m e
  = binary_round_aux Py.prec Py.emax s
      (Zpos m * 2 ^ (e - Z.min e (fexp (Zdigits2 (Zpos m) + e))))
      (Z.min e (fexp (Zdigits2 (Zpos m) + e))) loc_Exact.
Proof.
  unfold binary_round.
  pose proof (shl_align_spec m e (fexp (Zdigits2 (Zpos m) + e))) as [H1 H2].
  change (SpecFloat.fexp Py.prec Py.emax (Z.pos (digits2_pos m) + e))
    with (fexp (Zdigits2 (Zpos m) + e)).
  destruct (shl_align m e (fexp (Zdigits2 (Z.pos m) + e))) as [mz ez].
  cbn [fst snd] in *. rewrite H1, H2. reflexivity.
Qed.

Lemma valid_normal s m e :
  2 ^ 52 <= Zpos m < 2 ^ 53 -> -1074 <= e <= 971 ->
  Py.float_valid (S754_finite s m e) = true.
Proof.
  intros Hm He. apply valid_finite.
  rewrite (Zdigits2_unique (Zpos m) 53) by (replace (53 - 1) with 52 by lia; lia).
  rewrite fexp_eq. lia.
Qed.

(** Integers of at most 53 bits convert exactly. *)
Lemma round_pos_small s p :
  Zpos p < 2 ^ 53 ->
  let d := Zdigits2 (Zpos p) in
  exists m,
    binary_round Py.prec Py.emax s p 0 = S754_finite s m (d - 53) /\
    Zpos m = Zpos p * 2 ^ (53 - d).
Proof.
  intros Hp. cbv zeta. rewrite binary_round_eq.
  pose proof (Zdigits2_bounds (Zpos p) ltac:(lia)) as Hb.
  pose proof (Zdigits2_pos (Zpos p) ltac:(lia)) as Hdp.
  assert (Hd : Zdigits2 (Zpos p) <= 53) by (apply Zdigits2_le_iff; lia).
  set (d := Zdigits2 (Zpos p)) in *. rewrite Z.add_0_r, fexp_eq.
  replace (Z.min 0 (Z.max (d - 53) (-1074))) with (d - 53) by lia.
  replace (0 - (d - 53)) with (53 - d) by lia.
  set (mz := Z.pos p * 2 ^ (53 - d)).
  assert (Hmz : 2 ^ 52 <= mz < 2 ^ 53).
  { unfold mz. pose proof (pow2_pos (53 - d) ltac:(lia)).
    assert (H52 : 2 ^ 52 = 2 ^ (d - 1) * 2 ^ (53 - d))
      by (rewrite <- Z.pow_add_r by lia; f_equal; lia).
    assert (H53 : 2 ^ 53 = 2 ^ d * 2 ^ (53 - d))
      by (rewrite <- Z.pow_add_r by lia; f_equal; lia).
    rewrite H52, H53. nia. }
  assert (Hdz : Zdigits2 mz = 53)
    by (apply Zdigits2_unique; [replace (53 - 1) with 52 by lia; lia|lia]).
  destruct (binary_round_aux_normal s mz (d - 53) loc_Exact ltac:(lia) ltac:(lia))
    as (m & e & Hm & He & _ & Hex & Hr).
  rewrite Hdz in *.
  replace (53 + (d - 53) - 53 - (d - 53)) with 0 in Hex by lia.
  rewrite Z.pow_0_r, Z.mod_1_r, Z.div_1_r in Hex.
  destruct (Hex eq_refl eq_refl) as [-> Hmm].
  exists m. split; [|exact Hmm].
  rewrite Hr. replace (53 + (d - 53) - 53) with (d - 53) by lia.
  destruct (Z.leb_spec (d - 53) 971); [reflexivity|lia].
Qed.

(** Larger integers round to a normal number or overflow. *)
Lemma round_pos_large s p :
  2 ^ 53 <= Zpos p ->
  binary_round Py.prec Py.emax s p 0 = S754_infinity s \/
  exists m e,
    binary_round Py.prec Py.emax s p 0 = S754_finite s m e /\
    2 ^ 52 <= Zpos m < 2 ^ 53 /\ 1 <= e <= 971.
Proof.
  intros Hp. rewrite binary_round_eq.
  assert (Hd : 54 <= Zdigits2 (Zpos p)).
  { destruct (Z_le_gt_dec 54 (Zdigits2 (Zpos p))) as [|Hlt]; [assumption|exfalso].
    assert (Zdigits2 (Zpos p) <= 53) as Hle by lia.
    apply Zdigits2_le_iff in Hle; lia. }
  rewrite Z.add_0_r, fexp_eq.
  replace (Z.min 0 (Z.max (Zdigits2 (Z.pos p) - 53) (-1074))) with 0 by lia.
  rewrite Z.sub_0_r, Z.pow_0_r, Z.mul_1_r.
  destruct (binary_round_aux_normal s (Zpos p) 0 loc_Exact
              ltac:(change (2 ^ 52) with 4503599627370496;
                    change (2 ^ 53) with 9007199254740992 in Hp; lia) ltac:(lia))
    as (m & e & Hm & He & _ & _ & ->).
  destruct (Z.leb_spec e 971); [right|left; reflexivity].
  exists m, e. split; [reflexivity|]. split; [exact Hm|]. lia.
Qed.

(** No overflow below [2 ^ 1024 - 2 ^ 970], half way between the largest
    float [2 ^ 1024 - 2 ^ 971] and [2 ^ 1024]: an integer above the
    largest float and below the half is rounded down to it. *)
Lemma round_pos_no_overflow s p :
  Zpos p < 2 ^ 1024 - 2 ^ 970 ->
  binary_round Py.prec Py.emax s p 0 <> S754_infinity s.
Proof.
  intros Hp Hinf.
  destruct (Z_lt_le_dec (Zpos p) (2 ^ 53)) as [Hs|Hl].
  - destruct (round_pos_small s p Hs) as (m & Hr & _). congruence.
  - rewrite binary_round_eq in Hinf.
    pose proof (pow2_pos 970 ltac:(lia)) as Hp970.
    assert (Hd : 54 <= Zdigits2 (Zpos p) <= 1024).
    { split.
      - destruct (Z_le_gt_dec 54 (Zdigits2 (Zpos p))) as [|Hlt]; [assumption|exfalso].
        assert (Zdigits2 (Zpos p) <= 53) as Hle by lia.
        apply Zdigits2_le_iff in Hle; lia.
      - apply Zdigits2_le_iff; lia. }
    rewrite Z.add_0_r, fexp_eq in Hinf.
    replace (Z.min 0 (Z.max (Zdigits2 (Z.pos p) - 53) (-1074))) with 0 in Hinf by lia.
    rewrite Z.sub_0_r, Z.pow_0_r, Z.mul_1_r in Hinf.
    destruct (binary_round_aux_normal s (Zpos p) 0 loc_Exact
                ltac:(change (2 ^ 52) with 4503599627370496;
                      change (2 ^ 53) with 9007199254740992 in Hl; lia) ltac:(lia))
      as (m & e & Hm & He & Hv & Hex & Hr).
    rewrite Hr in Hinf.
    destruct (Z.leb_spec e 971) as [|Hgt]; [discriminate|].
    rewrite !Z.add_0_r, !Z.sub_0_r in *.
    set (d := Zdigits2 (Zpos p)) in *.
    assert (d = 1024) by lia. assert (e = 972) by lia.
    assert (He1 : d - 53 = 971) by lia. rewrite He1 in *.
    replace (e - 971) with 1 in Hv by lia.
    pose proof (pow2_pos 971 ltac:(lia)) as Hp971.
    assert (H971 : 2 ^ 971 = 2 * 2 ^ 970)
      by (change 971 with (Z.succ 970); apply Z.pow_succ_r; lia).
    assert (Hsplit : 2 ^ 1024 = 2 ^ 53 * 2 ^ 971) by (rewrite <- Z.pow_add_r by lia; reflexivity).
    assert (HM1 : Z.pos p / 2 ^ 971 <= 2 ^ 53 - 1).
    { apply Z.lt_succ_r. apply Z.div_lt_upper_bound; lia. }
    change (2 ^ 1) with 2 in Hv.
    assert (HM1' : Z.pos p / 2 ^ 971 = 2 ^ 53 - 1)
      by (change (2 ^ 53) with 9007199254740992 in *;
          change (2 ^ 52) with 4503599627370496 in *; lia).
    pose proof (Z.div_mod (Zpos p) (2 ^ 971) ltac:(lia)) as Hdm.
    pose proof (Z.mod_pos_bound (Zpos p) (2 ^ 971) Hp971) as Hmod.
    rewrite HM1' in Hdm.
    assert (Hlow : Z.pos p mod 2 ^ 971 < 2 ^ 970)
      by (change (2 ^ 53) with 9007199254740992 in *; lia).
    assert (Hbit : Z.testbit (Zpos p) 970 = false).
    { rewrite <- (Z.mod_pow2_bits_low (Zpos p) 971 970) by lia.
      apply Z.testbit_false; [lia|].
      rewrite Z.div_small by lia. reflexivity. }
    pose proof (binary_round_aux_down s (Zpos p) 0 ltac:(lia)) as Hdown.
    cbv zeta in Hdown. rewrite Z.add_0_r, fexp_eq in Hdown. fold d in Hdown.
    replace (Z.max 0 (Z.max (d - 53) (-1074))) with 971 in Hdown by lia.
    specialize (Hdown ltac:(lia) Hbit).
    rewrite Z.sub_0_r, HM1' in Hdown.
    rewrite Hr in Hdown.
    rewrite finish_canonical in Hdown; [discriminate|lia| |lia].
    assert (Hdig : Zdigits2 (2 ^ 53 - 1) = 53) by reflexivity.
    rewrite Hdig, fexp_eq. lia.
Qed.


Lemma round_int_pos p : Py.round_int (Zpos p) = binary_round Py.prec Py.emax false p 0.
Proof. reflexivity. Qed.

Lemma round_int_neg p : Py.round_int (Zneg p) = binary_round Py.prec Py.emax true p 0.
Proof. reflexivity. Qed.

(** The float of a non-zero integer: its sign, a normalised mantissa, and
    its position relative to any integer bound [c] that the integer
    respects. *)
Lemma float_of_int_pos p f :
  Py.float_of_int (Zpos p) = Py.Done f ->
  exists m e,
    f = S754_finite false m e /\ 2 ^ 52 <= Zpos m < 2 ^ 53 /\ -52 <= e <= 971 /\
    (forall c, 0 <= c <= Zpos p -> c < 2 ^ 53 ->
       c * 2 ^ Z.max 0 (- e) <= Zpos m * 2 ^ Z.max 0 e) /\
    (forall c, Zpos p <= c -> c < 2 ^ 53 ->
       Zpos m * 2 ^ Z.max 0 e <= c * 2 ^ Z.max 0 (- e)).
Proof.
  unfold Py.float_of_int. rewrite round_int_pos.
  destruct (Z_lt_le_dec (Zpos p) (2 ^ 53)) as [Hs|Hl].
  - destruct (round_pos_small false p Hs) as (m & -> & Hm).
    intros [= <-].
    pose proof (Zdigits2_bounds (Zpos p) ltac:(lia)) as Hb.
    pose proof (Zdigits2_pos (Zpos p) ltac:(lia)) as Hdp.
    assert (Hd : Zdigits2 (Zpos p) <= 53) by (apply Zdigits2_le_iff; lia).
    set (d := Zdigits2 (Zpos p)) in *.
    pose proof (pow2_pos (53 - d) ltac:(lia)) as Hpp.
    assert (H52 : 2 ^ 52 = 2 ^ (d - 1) * 2 ^ (53 - d))
      by (rewrite <- Z.pow_add_r by lia; f_equal; lia).
    assert (H53 : 2 ^ 53 = 2 ^ d * 2 ^ (53 - d))
      by (rewrite <- Z.pow_add_r by lia; f_equal; lia).
    exists m, (d - 53). split; [reflexivity|].
    replace (Z.max 0 (- (d - 53))) with (53 - d) by lia.
    replace (Z.max 0 (d - 53)) with 0 by lia. rewrite Z.pow_0_r, Z.mul_1_r.
    split; [rewrite Hm, H52, H53 at 1; nia|]. split; [lia|].
    split; intros c Hc _; rewrite Hm; nia.
  - destruct (round_pos_large false p Hl) as [->|(m & e & -> & Hm & He)];
      [discriminate|].
    intros [= <-]. exists m, e. split; [reflexivity|]. split; [exact Hm|].
    split; [lia|].
    replace (Z.max 0 (- e)) with 0 by lia. replace (Z.max 0 e) with e by lia.
    rewrite Z.pow_0_r.
    assert (2 ^ 1 <= 2 ^ e) by (apply Z.pow_le_mono_r; lia).
    change (2 ^ 1) with 2 in *.
    change (2 ^ 53) with 9007199254740992 in *.
    change (2 ^ 52) with 4503599627370496 in *.
    split; intros c Hc Hc53; nia.
Qed.

Lemma float_of_int_neg p f :
  Py.float_of_int (Zneg p) = Py.Done f ->
  exists m e, f = S754_finite true m e /\ 2 ^ 52 <= Zpos m < 2 ^ 53 /\ -52 <= e <= 971.
Proof.
  unfold Py.float_of_int. rewrite round_int_neg.
  destruct (Z_lt_le_dec (Zpos p) (2 ^ 53)) as [Hs|Hl].
  - destruct (round_pos_small true p Hs) as (m & -> & Hm).
    intros [= <-].
    pose proof (Zdigits2_bounds (Zpos p) ltac:(lia)) as Hb.
    pose proof (Zdigits2_pos (Zpos p) ltac:(lia)) as Hdp.
    assert (Hd : Zdigits2 (Zpos p) <= 53) by (apply Zdigits2_le_iff; lia).
    set (d := Zdigits2 (Zpos p)) in *.
    pose proof (pow2_pos (53 - d) ltac:(lia)) as Hpp.
    assert (H52 : 2 ^ 52 = 2 ^ (d - 1) * 2 ^ (53 - d))
      by (rewrite <- Z.pow_add_r by lia; f_equal; lia).
    assert (H53 : 2 ^ 53 = 2 ^ d * 2 ^ (53 - d))
      by (rewrite <- Z.pow_add_r by lia; f_equal; lia).
    exists m, (d - 53). split; [reflexivity|].
    split; [rewrite Hm, H52, H53 at 1; nia|lia].
  - destruct (round_pos_large true p Hl) as [->|(m & e & -> & Hm & He)];
      [discriminate|].
    intros [= <-]. exists m, e. split; [reflexivity|]. split; [exact Hm|lia].
Qed.

(** Conversion succeeds below the half way point, where it starts to
    overflow. *)
Lemma float_of_int_boundary :
  Py.float_of_int (2 ^ 1024 - 2 ^ 970) = Py.Raise Py.OverflowError /\
  Py.float_of_int (2 ^ 1024 - 2 ^ 970 - 1)
  = Py.Done (S754_finite false 9007199254740991 971).
Proof. split; vm_compute; reflexivity. Qed.

Lemma float_of_int_in_range z :
  Z.abs z < 2 ^ 1024 - 2 ^ 970 -> exists f, Py.float_of_int z = Py.Done f.
Proof.
  intros Hz. unfold Py.float_of_int. destruct z as [|p|p].
  - eexists. reflexivity.
  - rewrite round_int_pos.
    pose proof (round_pos_no_overflow false p ltac:(lia)) as Hno.
    destruct (Z_lt_le_dec (Zpos p) (2 ^ 53)) as [Hs|Hl].
    + destruct (round_pos_small false p Hs) as (m & -> & _). eauto.
    + destruct (round_pos_large false p Hl) as [Hinf|(m & e & -> & _)];
        [contradiction|eauto].
  - rewrite round_int_neg.
    pose proof (round_pos_no_overflow true p ltac:(lia)) as Hno.
    destruct (Z_lt_le_dec (Zpos p) (2 ^ 53)) as [Hs|Hl].
    + destruct (round_pos_small true p Hs) as (m & -> & _). eauto.
    + destruct (round_pos_large true p Hl) as [Hinf|(m & e & -> & _)];
        [contradiction|eauto].
Qed.


(** *** Results are valid binary64 numbers *)

Lemma fexp_mono a b : a <= b -> fexp a <= fexp b.
Proof. rewrite !fexp_eq. lia. Qed.

(** Rounding gives a valid number whenever the mantissa it starts from has
    enough digits for its exponent. *)
Lemma binary_round_aux_valid s mz ez lz :
  0 <= mz -> ez <= fexp (Zdigits2 mz + ez) ->
  Py.float_valid (binary_round_aux Py.prec Py.emax s mz ez lz) = true.
Proof.
  intros Hmz Hal. rewrite fexp_eq in Hal.
  destruct (Z_le_gt_dec (-1074) (Zdigits2 mz + ez - 53)) as [Hn|Hsub].
  - (* normal range *)
    assert (Hpos : 0 < mz).
    { destruct (Z.eq_dec mz 0) as [->|]; [cbn [Zdigits2] in *; lia|lia]. }
    pose proof (Zdigits2_bounds mz Hpos) as Hb.
    assert (H52 : 2 ^ 52 <= 2 ^ (Zdigits2 mz - 1)) by (apply Z.pow_le_mono_r; lia).
    destruct (binary_round_aux_normal s mz ez lz ltac:(lia) Hn)
      as (m & e & Hm & He & _ & _ & ->).
    destruct (Z.leb_spec e 971); [|reflexivity].
    apply valid_normal; lia.
  - (* subnormal range *)
    destruct (binary_round_aux_spec s mz ez lz Hmz) as (m1 & Hm1 & _ & ->).
    rewrite fexp_eq in *.
    replace (Z.max ez (Z.max (Zdigits2 mz + ez - 53) (-1074))) with (-1074) in * by lia.
    assert (Hn : 0 <= -1074 - ez) by lia.
    assert (HM1 : 0 <= mz / 2 ^ (-1074 - ez) < 2 ^ 52).
    { split; [apply Z.div_pos; [assumption|apply pow2_pos; lia]|].
      destruct (Z.eq_dec mz 0) as [->|Hnz].
      - rewrite Z.div_0_l by (pose proof (pow2_pos _ Hn); lia). reflexivity.
      - pose proof (Zdigits2_bounds mz ltac:(lia)) as Hb.
        pose proof (Zdigits2_pos mz ltac:(lia)) as Hp.
        destruct (Z_le_gt_dec (Zdigits2 mz) (-1074 - ez)).
        + rewrite (div_pow2_small (Zdigits2 mz) (-1074 - ez)) by lia. reflexivity.
        + pose proof (div_pow2_lt (Zdigits2 mz) (-1074 - ez) mz ltac:(lia) ltac:(lia)) as Hlt.
          assert (2 ^ (Zdigits2 mz - (-1074 - ez)) <= 2 ^ 52)
            by (apply Z.pow_le_mono_r; lia).
          lia. }
    destruct (Z.eq_dec m1 0) as [->|Hnz]; [reflexivity|].
    assert (Hd : Zdigits2 m1 <= 53).
    { apply Zdigits2_le_iff; [lia|lia|].
      change (2 ^ 53) with 9007199254740992.
      change (2 ^ 52) with 4503599627370496 in *. lia. }
    rewrite finish_canonical by (try rewrite fexp_eq; lia).
    apply valid_finite. rewrite Z2Pos.id, fexp_eq by lia. lia.
Qed.

Lemma fdiv_hundred_valid f :
  Py.float_valid f = true -> Py.float_valid (Py.fdiv f hundred) = true.
Proof.
  destruct f as [s|s| |s m e]; try reflexivity.
  intros Hv. rewrite fdiv_hundred_finite.
  destruct (fdiv_hundred_core m e) as (lz & -> & _).
  pose proof (valid_mantissa _ _ _ Hv) as Hm.
  assert (Hd53 : Zdigits2 (Zpos m) <= 53) by (apply Zdigits2_le_iff; lia).
  pose proof (Zdigits2_bounds (Zpos m) ltac:(lia)) as Hb.
  pose proof (Zdigits2_pos (Zpos m) ltac:(lia)) as Hdp.
  set (d := Zdigits2 (Z.pos m)) in *.
  set (e' := Z.min (fexp (d + e - 7)) (e + 46)).
  assert (Hs : 0 <= e + 46 - e') by (unfold e'; lia).
  set (a := Z.pos m * 2 ^ (e + 46 - e')).
  assert (Ha : 0 <= a) by (unfold a; pose proof (pow2_pos _ Hs); lia).
  apply binary_round_aux_valid; [apply Z.div_pos; lia|].
  destruct (Z_le_gt_dec e' (-1074)) as [|Hgt]; [rewrite fexp_eq; lia|].
  assert (He' : e' <= d + e - 60) by (unfold e' in *; rewrite fexp_eq in *; lia).
  set (k := d - 1 + (e + 46 - e') - 53).
  assert (Hk : 0 <= k) by (unfold k; lia).
  assert (Hq : 2 ^ k <= a / 7036874417766400).
  { apply Z.div_le_lower_bound; [lia|].
    assert (Hsplit : 2 ^ (d - 1) * 2 ^ (e + 46 - e') = 2 ^ 53 * 2 ^ k).
    { rewrite <- !Z.pow_add_r by lia. f_equal. unfold k. lia. }
    pose proof (pow2_pos k Hk). pose proof (pow2_pos (e + 46 - e') Hs).
    change (2 ^ 53) with 9007199254740992 in Hsplit. unfold a. nia. }
  pose proof (Zdigits2_ge k _ Hk Hq) as Hdq.
  apply Z.le_trans with (fexp (d + e - 7)); [unfold e'; lia|].
  apply fexp_mono. unfold k in Hdq. lia.
Qed.

Lemma float_of_int_valid z f :
  Py.float_of_int z = Py.Done f -> Py.float_valid f = true.
Proof.
  destruct z as [|p|p]; intros H.
  - injection H as <-. reflexivity.
  - destruct (float_of_int_pos p f H) as (m & e & -> & Hm & He & _).
    apply valid_normal; lia.
  - destruct (float_of_int_neg p f H) as (m & e & -> & Hm & He).
    apply valid_normal; lia.
Qed.

(** *** Integers that convert to a float, and their decimal digits *)

Lemma round_pos_overflow s p :
  2 ^ 1024 <= Zpos p -> binary_round Py.prec Py.emax s p 0 = S754_infinity s.
Proof.
  intros Hp. rewrite binary_round_eq.
  pose proof (Zdigits2_ge 1024 (Zpos p) ltac:(lia) Hp) as Hd.
  rewrite Z.add_0_r, fexp_eq.
  replace (Z.min 0 (Z.max (Zdigits2 (Z.pos p) - 53) (-1074))) with 0 by lia.
  rewrite Z.sub_0_r, Z.pow_0_r, Z.mul_1_r.
  assert (H52 : 2 ^ 52 <= Zpos p).
  { assert (2 ^ 52 <= 2 ^ 1024) by (apply Z.pow_le_mono_r; lia). lia. }
  destruct (binary_round_aux_normal s (Zpos p) 0 loc_Exact H52 ltac:(lia))
    as (m & e & _ & He & _ & _ & ->).
  destruct (Z.leb_spec e 971) as [Hle|]; [lia|reflexivity].
Qed.

Lemma float_of_int_bounded z f :
  Py.float_of_int z = Py.Done f -> Z.abs z < 2 ^ 1024.
Proof.
  pose proof (pow2_pos 1024 ltac:(lia)) as Hpos.
  unfold Py.float_of_int. destruct z as [|p|p]; intros H.
  - exact Hpos.
  - destruct (Z_lt_le_dec (Zpos p) (2 ^ 1024)) as [Hlt|Hge]; [exact Hlt|].
    rewrite round_int_pos, (round_pos_overflow false p Hge) in H. discriminate.
  - destruct (Z_lt_le_dec (Zpos p) (2 ^ 1024)) as [Hlt|Hge]; [exact Hlt|].
    rewrite round_int_neg, (round_pos_overflow true p Hge) in H. discriminate.
Qed.

Lemma str_digits_ok_below z : Z.abs z < 2 ^ 1024 -> Py.str_digits_ok z = true.
Proof.
  intros Hz. unfold Py.str_digits_ok. apply Z.ltb_lt.
  apply (Z.lt_trans _ (2 ^ 1024)); [exact Hz|]. vm_compute. reflexivity.
Qed.

Lemma str_digits_ok_small z : Z.abs z < 2 ^ 53 -> Py.str_digits_ok z = true.
Proof.
  intros Hz. apply str_digits_ok_below.
  assert (2 ^ 53 <= 2 ^ 1024) by (apply Z.pow_le_mono_r; lia). lia.
Qed.

Lemma str_digits_ok_max z :
  Py.str_digits_ok z = true -> Py.str_digits_ok (Z.max 1 z) = true.
Proof.
  intros Hz. destruct (Z_le_gt_dec z 1) as [Hle|Hgt].
  - replace (Z.max 1 z) with 1 by lia. apply str_digits_ok_small. reflexivity.
  - replace (Z.max 1 z) with z by lia. exact Hz.
Qed.

(** [int(x)] of a finite binary64 number has far fewer digits than the
    limit. *)
Lemma int_of_float_printable f n :
  Py.float_valid f = true -> Py.int_of_float f = Py.Done n ->
  Py.str_digits_ok n = true.
Proof.
  intros Hv Hn. apply str_digits_ok_below.
  pose proof (pow2_pos 1024 ltac:(lia)) as Hpos.
  destruct f as [s|s| |s m e]; try discriminate.
  - injection Hn as <-. exact Hpos.
  - rewrite int_of_float_finite in Hn. cbv zeta in Hn.
    destruct (valid_digits s m e Hv) as (Hd & He & _).
    assert (Hm : Zpos m < 2 ^ 53) by (apply Zdigits2_le_iff; lia).
    set (a := if e <? 0 then Z.pos m / 2 ^ (- e) else Z.pos m * 2 ^ e) in *.
    assert (Ha : 0 <= a < 2 ^ 1024).
    { unfold a. destruct (Z.ltb_spec e 0) as [Hneg|Hnn].
      - pose proof (pow2_pos (- e) ltac:(lia)) as Hp.
        assert (Z.pos m / 2 ^ (- e) <= Z.pos m)
          by (apply Z.div_le_upper_bound; [lia|nia]).
        assert (0 <= Z.pos m / 2 ^ (- e)) by (apply Z.div_pos; lia).
        assert (2 ^ 53 <= 2 ^ 1024) by (apply Z.pow_le_mono_r; lia). lia.
      - pose proof (pow2_pos e Hnn) as Hp.
        assert (Hs : 2 ^ 1024 = 2 ^ (1024 - e) * 2 ^ e)
          by (rewrite <- Z.pow_add_r by lia; f_equal; lia).
        assert (2 ^ 53 <= 2 ^ (1024 - e)) by (apply Z.pow_le_mono_r; lia).
        rewrite Hs. nia. }
    clearbody a. injection Hn as <-. destruct s; lia.
Qed.

(** *** The clamp of [set_brightness_percent] *)

Lemma flt_fle a b : Py.flt a b = true -> Py.fle a b = true.
Proof.
  unfold Py.flt, Py.fle, SFltb, SFleb.
  destruct (SFcompare a b) as [[| |]|]; congruence.
Qed.

Lemma clamp_range q :
  let b := Py.fmax zero (Py.fmin two q) in
  Py.fle zero b = true /\ Py.fle b two = true /\
  (Py.float_valid q = true -> Py.float_valid b = true).
Proof.
  cbv zeta. unfold Py.fmax, Py.fmin.
  destruct (Py.flt q two) eqn:Hq2.
  - destruct (Py.flt zero q) eqn:H0q.
    + auto using flt_fle.
    + repeat split; reflexivity.
  - change (Py.flt zero two) with true. cbv iota. repeat split; reflexivity.
Qed.

(** A quotient that is at most [2.0] and not negative is stored as it is
    (a negative zero as [0.0]). *)
Lemma clamp_le_two q :
  (exists s, q = S754_zero s) \/
  (exists m e, q = S754_finite false m e /\
               (e < -51 \/ (e = -51 /\ Zpos m <= 2 ^ 52))) ->
  Py.fmax zero (Py.fmin two q)
  = match q with S754_zero _ => zero | _ => q end.
Proof.
  intros [[s ->]|(m & e & -> & He)]; [destruct s; reflexivity|].
  unfold Py.fmax, Py.fmin.
  destruct (Py.flt (S754_finite false m e) two) eqn:Hlt; [reflexivity|].
  assert (Heq : e = -51 /\ Zpos m = 2 ^ 52).
  { destruct He as [He|[He Hm]].
    - assert (Py.flt (S754_finite false m e) two = true)
        by (apply flt_finite; lia). congruence.
    - split; [assumption|].
      destruct (Z.eq_dec (Zpos m) (2 ^ 52)) as [|Hne]; [assumption|].
      assert (Py.flt (S754_finite false m e) two = true)
        by (apply flt_finite; change (2 ^ 52) with 4503599627370496 in *; lia).
      congruence. }
  destruct Heq as [-> Hm]. change (2 ^ 52) with (Zpos 4503599627370496) in Hm.
  injection Hm as ->. reflexivity.
Qed.

(** A quotient that is at least [2.0] is stored as [2.0]. *)
Lemma clamp_ge_two q :
  q = S754_infinity false \/
  (exists m e, q = S754_finite false m e /\ 2 ^ 52 <= Zpos m /\ -51 <= e) ->
  Py.fmax zero (Py.fmin two q) = two.
Proof.
  intros [->|(m & e & -> & Hm & He)]; [reflexivity|].
  unfold Py.fmax, Py.fmin.
  destruct (Py.flt (S754_finite false m e) two) eqn:Hlt; [|reflexivity].
  apply flt_finite in Hlt. change (2 ^ 52) with 4503599627370496 in *. lia.
Qed.

(** A negative quotient is stored as [0.0]. *)
Lemma clamp_negative q :
  q = S754_zero true \/ q = S754_infinity true \/
  (exists m e, q = S754_finite true m e) ->
  Py.fmax zero (Py.fmin two q) = zero.
Proof.
  intros [->|[->|(m & e & ->)]]; reflexivity.
Qed.

End IntFacts.

(** * The setters *)

Module SetterFacts.
Import Binary64 Literals Rounding FloatFacts IntFacts.

Ltac run_monad :=
  unfold format_field, M.bind, M.when, M.lift, M.raise, M.ret, M.get, M.modify,
    log, update, set_thickness_attr, set_brightness_attr, set_color_attr;
  cbn [negb fst snd thickness brightness color width height logged updates
       painter].

Lemma min_brightness_literal : Ringlight.MIN_BRIGHTNESS = zero.
Proof. reflexivity. Qed.

Lemma max_brightness_literal : Ringlight.MAX_BRIGHTNESS = two.
Proof. reflexivity. Qed.

(** *** What an f-string can format *)

(** A number that divides by [100.0] formats: an [int] beyond the limit
    of [str] is beyond the largest float. *)
Lemma truediv_printable v d q :
  truediv_float v d = Py.Done q -> printable v = true.
Proof.
  destruct v as [|z|f|l|c]; try reflexivity. cbn [truediv_float printable].
  destruct (Py.float_of_int z) as [f|e] eqn:Hf; [|discriminate].
  intros _. apply str_digits_ok_below. eapply float_of_int_bounded; eassumption.
Qed.

Lemma percent_in_range_printable v :
  percent_in_range v = true -> printable v = true.
Proof.
  destruct v as [|z|f|l|c]; try reflexivity.
  unfold percent_in_range. cbn [int_le_num num_le_int printable].
  rewrite andb_true_iff, !Z.leb_le. intros [H0 H200].
  apply str_digits_ok_small. change (2 ^ 53) with 9007199254740992. lia.
Qed.

(** *** [set_brightness_percent] step by step *)

Lemma set_brightness_percent_done v q s :
  is_numeric v = true ->
  truediv_float v (Py.decimal 100 1) = Py.Done q ->
  Ringlight.set_brightness_percent v s
  = (Py.Done tt,
     mkOverlay (thickness s) (Py.fmax zero (Py.fmin two q)) (color s)
               (width s) (height s)
               (logged s ++
                (if percent_in_range v then []
                 else [(WARNING, BrightnessOutOfRange)]) ++
                [(DEBUG, BrightnessSet)])
               (S (updates s)) (painter s)).
Proof.
  intros Hn Hq. pose proof (truediv_printable _ _ _ Hq) as Hp.
  unfold Ringlight.set_brightness_percent.
  rewrite min_brightness_literal, max_brightness_literal.
  unfold percent_in_range, Ringlight.MIN_BRIGHTNESS_PERCENT,
    Ringlight.MAX_BRIGHTNESS_PERCENT.
  run_monad. rewrite Hn, Hq, Hp. cbn [negb].
  destruct (int_le_num 0 v && num_le_int v 200); cbn [negb];
    run_monad; rewrite <- ?app_assoc; reflexivity.
Qed.

Lemma set_brightness_percent_raise v e s :
  is_numeric v = true ->
  truediv_float v (Py.decimal 100 1) = Py.Raise e ->
  printable v = true ->
  Ringlight.set_brightness_percent v s
  = (Py.Raise e,
     mkOverlay (thickness s) (brightness s) (color s) (width s) (height s)
               (logged s ++
                (if percent_in_range v then []
                 else [(WARNING, BrightnessOutOfRange)]))
               (updates s) (painter s)).
Proof.
  intros Hn Hq Hp. unfold Ringlight.set_brightness_percent.
  unfold percent_in_range, Ringlight.MIN_BRIGHTNESS_PERCENT,
    Ringlight.MAX_BRIGHTNESS_PERCENT.
  run_monad. rewrite Hn, Hq, Hp. cbn [negb].
  destruct (int_le_num 0 v && num_le_int v 200); cbn [negb];
    run_monad; rewrite ?app_nil_r; destruct s; reflexivity.
Qed.

(** An [int] of too many digits is out of range, and the warning cannot
    be formatted: [ValueError], before anything is logged or stored. *)
Lemma set_brightness_percent_unprintable v s :
  is_numeric v = true -> printable v = false ->
  Ringlight.set_brightness_percent v s = (Py.Raise Py.ValueError, s).
Proof.
  intros Hn Hp.
  assert (Hr : percent_in_range v = false).
  { destruct (percent_in_range v) eqn:Hr; [|reflexivity].
    rewrite (percent_in_range_printable v Hr) in Hp. discriminate. }
  unfold Ringlight.set_brightness_percent.
  unfold percent_in_range, Ringlight.MIN_BRIGHTNESS_PERCENT,
    Ringlight.MAX_BRIGHTNESS_PERCENT in *.
  run_monad. rewrite Hn, Hr, Hp. reflexivity.
Qed.

Lemma set_brightness_percent_not_numeric v s :
  is_numeric v = false ->
  Ringlight.set_brightness_percent v s = (Py.Raise Py.ValueError, s).
Proof.
  intros Hn. unfold Ringlight.set_brightness_percent. run_monad.
  rewrite Hn. reflexivity.
Qed.

(** *** [set_thickness] step by step *)

Lemma set_thickness_done v n s :
  is_numeric v = true ->
  py_int v = Py.Done n ->
  printable v = true -> Py.str_digits_ok (Z.max 1 n) = true ->
  Ringlight.set_thickness v s
  = (Py.Done tt,
     mkOverlay (Z.max 1 n) (brightness s) (color s) (width s) (height s)
               (logged s ++
                (if num_lt_int v 1 then [(WARNING, ThicknessBelowMinimum)]
                 else []) ++
                [(DEBUG, ThicknessSet)])
               (S (updates s)) (painter s)).
Proof.
  intros Hn Hq Hp Hd. unfold Ringlight.set_thickness, Ringlight.MIN_THICKNESS.
  run_monad. rewrite Hn, Hq, Hp, imax_eq. cbn [negb printable].
  destruct (num_lt_int v 1); run_monad; cbn [printable]; rewrite Hd;
    run_monad; rewrite <- ?app_assoc; reflexivity.
Qed.

Lemma set_thickness_raise v e s :
  is_numeric v = true ->
  py_int v = Py.Raise e ->
  Ringlight.set_thickness v s
  = (Py.Raise e,
     mkOverlay (thickness s) (brightness s) (color s) (width s) (height s)
               (logged s ++
                (if num_lt_int v 1 then [(WARNING, ThicknessBelowMinimum)]
                 else []))
               (updates s) (painter s)).
Proof.
  intros Hn Hq.
  assert (Hp : printable v = true) by (destruct v; try reflexivity; discriminate).
  unfold Ringlight.set_thickness, Ringlight.MIN_THICKNESS.
  run_monad. rewrite Hn, Hq, Hp. cbn [negb].
  destruct (num_lt_int v 1); run_monad; rewrite ?app_nil_r; destruct s; reflexivity.
Qed.

(** An [int] of too many digits: below 1 the warning cannot be formatted
    and nothing is stored; from 1 on the int is stored and a repaint
    requested before the debug record fails to format. *)
Lemma set_thickness_unprintable_low z s :
  z < 1 -> Py.str_digits_ok z = false ->
  Ringlight.set_thickness (PyInt z) s = (Py.Raise Py.ValueError, s).
Proof.
  intros Hz Hd. unfold Ringlight.set_thickness, Ringlight.MIN_THICKNESS.
  run_monad. cbn [is_numeric num_lt_int printable]. run_monad.
  destruct (Z.ltb_spec z 1); [|lia]. run_monad. cbn [printable]. rewrite Hd.
  reflexivity.
Qed.

Lemma set_thickness_unprintable_high z s :
  1 <= z -> Py.str_digits_ok z = false ->
  Ringlight.set_thickness (PyInt z) s
  = (Py.Raise Py.ValueError,
     mkOverlay z (brightness s) (color s) (width s) (height s)
               (logged s) (S (updates s)) (painter s)).
Proof.
  intros Hz Hd. unfold Ringlight.set_thickness, Ringlight.MIN_THICKNESS.
  run_monad. cbn [is_numeric num_lt_int printable py_int]. run_monad.
  destruct (Z.ltb_spec z 1); [lia|]. run_monad. rewrite imax_eq.
  replace (Z.max 1 z) with z by lia. cbn [printable]. rewrite Hd. run_monad.
  reflexivity.
Qed.

Lemma set_thickness_not_numeric v s :
  is_numeric v = false ->
  Ringlight.set_thickness v s = (Py.Raise Py.ValueError, s).
Proof.
  intros Hn. unfold Ringlight.set_thickness. run_monad.
  rewrite Hn. reflexivity.
Qed.

(** *** The original setters differ only in what they log and check *)

Lemma original_set_thickness_done v n s :
  py_int v = Py.Done n -> Py.str_digits_ok (Z.max 1 n) = true ->
  RinglightOriginal.set_thickness v s
  = (Py.Done tt,
     mkOverlay (Z.max 1 n) (brightness s) (color s) (width s) (height s)
               (logged s ++ [(DEBUG, ThicknessSet)])
               (S (updates s)) (painter s)).
Proof.
  intros Hq Hd. unfold RinglightOriginal.set_thickness, RinglightOriginal.MIN_THICKNESS.
  run_monad. rewrite Hq. run_monad. rewrite imax_eq. cbn [printable].
  rewrite Hd. run_monad. reflexivity.
Qed.

(** The int is stored and a repaint requested before the debug record
    fails to format. *)
Lemma original_set_thickness_stored v n s :
  py_int v = Py.Done n -> Py.str_digits_ok (Z.max 1 n) = false ->
  RinglightOriginal.set_thickness v s
  = (Py.Raise Py.ValueError,
     mkOverlay (Z.max 1 n) (brightness s) (color s) (width s) (height s)
               (logged s) (S (updates s)) (painter s)).
Proof.
  intros Hq Hd. unfold RinglightOriginal.set_thickness, RinglightOriginal.MIN_THICKNESS.
  run_monad. rewrite Hq. run_monad. rewrite imax_eq. cbn [printable].
  rewrite Hd. run_monad. reflexivity.
Qed.

Lemma original_set_thickness_raise v e s :
  py_int v = Py.Raise e ->
  RinglightOriginal.set_thickness v s = (Py.Raise e, s).
Proof.
  intros Hq. unfold RinglightOriginal.set_thickness. run_monad.
  rewrite Hq. reflexivity.
Qed.

Lemma original_set_brightness_percent_done v q s :
  truediv_float v (Py.decimal 100 1) = Py.Done q ->
  RinglightOriginal.set_brightness_percent v s
  = (Py.Done tt,
     mkOverlay (thickness s) (Py.fmax zero (Py.fmin two q)) (color s)
               (width s) (height s)
               (logged s ++ [(DEBUG, BrightnessSet)])
               (S (updates s)) (painter s)).
Proof.
  intros Hq. pose proof (truediv_printable _ _ _ Hq) as Hp.
  unfold RinglightOriginal.set_brightness_percent.
  change RinglightOriginal.MIN_BRIGHTNESS with zero.
  change RinglightOriginal.MAX_BRIGHTNESS with two.
  run_monad. rewrite Hq, Hp. reflexivity.
Qed.

Lemma original_set_brightness_percent_raise v e s :
  truediv_float v (Py.decimal 100 1) = Py.Raise e ->
  RinglightOriginal.set_brightness_percent v s = (Py.Raise e, s).
Proof.
  intros Hq. unfold RinglightOriginal.set_brightness_percent. run_monad.
  rewrite Hq. reflexivity.
Qed.


(** *** The quotient [v / 100.0] of a percentage *)

Lemma fdiv_hundred_shape s m e :
  Py.fdiv (S754_finite s m e) hundred = S754_zero s \/
  Py.fdiv (S754_finite s m e) hundred = S754_infinity s \/
  exists m' e', Py.fdiv (S754_finite s m e) hundred = S754_finite s m' e'.
Proof.
  rewrite fdiv_hundred_finite.
  destruct (fdiv_hundred_core m e) as (lz & -> & _).
  apply binary_round_aux_shape. apply Z.div_pos; [|lia].
  assert (0 < 2 ^ (e + 46 - Z.min (fexp (Zdigits2 (Z.pos m) + e - 7)) (e + 46)))
    by (apply pow2_pos; lia).
  lia.
Qed.

Lemma feq_refl_finite s m e :
  Py.feq (S754_finite s m e) (S754_finite s m e) = true.
Proof.
  unfold Py.feq, SFeqb, SFcompare.
  rewrite Z.compare_refl.
  change (Pos.compare_cont Eq m m) with (Pos.compare m m).
  rewrite Pos.compare_refl. destruct s; reflexivity.
Qed.

(** Within [0, 200] the quotient is stored as it is. *)
Lemma percent_in_range_quotient v :
  wf_pyobj v -> is_numeric v = true -> percent_in_range v = true ->
  exists q,
    truediv_float v (Py.decimal 100 1) = Py.Done q /\
    Py.fmax zero (Py.fmin two q) = match q with S754_zero _ => zero | _ => q end /\
    (forall s, q = S754_zero s -> s = true -> v = PyFloat (S754_zero true)).
Proof.
  intros Hwf Hn Hr. rewrite literal_hundred.
  unfold percent_in_range in Hr. apply andb_true_iff in Hr. destruct Hr as [H0 H200].
  destruct v as [|z|f|l|c]; try discriminate.
  - (* an int *)
    cbn [int_le_num num_le_int] in *. apply Z.leb_le in H0, H200.
    cbn [truediv_float].
    destruct z as [|p|p]; [|clear H0|lia].
    + exists zero. repeat split; try reflexivity. intros s [= <-]. discriminate.
    + destruct (float_of_int_in_range (Zpos p)) as (f & Hf).
      { change (Z.abs (Z.pos p)) with (Z.pos p).
        pose proof (pow2_pos 971 ltac:(lia)).
        assert (2 ^ 1024 = 2 ^ 53 * 2 ^ 971) by (rewrite <- Z.pow_add_r by lia; reflexivity).
        change (2 ^ 53) with 9007199254740992 in *. lia. }
      rewrite Hf.
      destruct (float_of_int_pos p f Hf) as (m & e & -> & Hm & He & _ & Hup).
      specialize (Hup 200 H200 ltac:(change (2 ^ 53) with 9007199254740992; lia)).
      exists (Py.fdiv (S754_finite false m e) hundred). split; [reflexivity|].
      destruct (fdiv_hundred_le_200 false m e Hup) as [Hz|(m' & e' & Hq & Hb)].
      * rewrite Hz. repeat split; try reflexivity. intros s [= <-]. discriminate.
      * split; [apply clamp_le_two; right; eauto|].
        rewrite Hq. discriminate.
  - (* a float *)
    cbn [truediv_float]. exists (Py.fdiv f hundred). split; [reflexivity|].
    destruct f as [s|s| |s m e].
    + split; [destruct s; reflexivity|].
      intros s' Hq Hs'. subst s'. destruct s; [reflexivity|discriminate].
    + destruct s; discriminate.
    + discriminate.
    + cbn [int_le_num num_le_int] in *.
      rewrite compare_int_float_finite in H0, H200.
      destruct s.
      { exfalso. rewrite Z.mul_0_l in H0.
        pose proof (pow2_pos (Z.max 0 e) ltac:(lia)).
        destruct (Z.compare_spec 0 (Z.neg m * 2 ^ Z.max 0 e)); try discriminate; nia. }
      assert (Hup : Z.pos m * 2 ^ Z.max 0 e <= 200 * 2 ^ Z.max 0 (- e)).
      { destruct (Z.compare_spec (200 * 2 ^ Z.max 0 (- e)) (Z.pos m * 2 ^ Z.max 0 e));
          try discriminate; lia. }
      destruct (fdiv_hundred_le_200 false m e Hup) as [Hz|(m' & e' & Hq & Hb)].
      * rewrite Hz. repeat split; try reflexivity. intros s [= <-]. discriminate.
      * split; [apply clamp_le_two; right; eauto|].
        rewrite Hq. discriminate.
Qed.

(** Above 200 the stored brightness is [2.0]. *)
Lemma percent_above_quotient v q :
  wf_pyobj v -> not_nan v = true -> num_le_int v 200 = false ->
  is_numeric v = true ->
  truediv_float v (Py.decimal 100 1) = Py.Done q ->
  Py.fmax zero (Py.fmin two q) = two.
Proof.
  intros Hwf Hnan H200 Hn. rewrite literal_hundred.
  destruct v as [|z|f|l|c]; try discriminate.
  - cbn [num_le_int truediv_float] in *. apply Z.leb_gt in H200.
    destruct (Py.float_of_int z) as [f|] eqn:Hf; [|discriminate].
    intros [= <-]. destruct z as [|p|p]; try lia.
    destruct (float_of_int_pos p f Hf) as (m & e & -> & Hm & He & Hlow & _).
    specialize (Hlow 200 ltac:(lia) ltac:(change (2 ^ 53) with 9007199254740992; lia)).
    apply clamp_ge_two.
    destruct (fdiv_hundred_ge_200 false m e ltac:(lia) Hlow)
      as [->|(m' & e' & -> & Hm' & He')]; [left; reflexivity|right].
    exists m', e'. repeat split; lia.
  - cbn [truediv_float num_le_int not_nan] in *. intros [= <-].
    destruct f as [s|s| |s m e].
    + discriminate.
    + destruct s; [discriminate|]. reflexivity.
    + discriminate.
    + rewrite compare_int_float_finite in H200.
      pose proof (pow2_pos (Z.max 0 e) ltac:(lia)).
      pose proof (pow2_pos (Z.max 0 (- e)) ltac:(lia)).
      destruct s.
      { exfalso.
        destruct (Z.compare_spec (200 * 2 ^ Z.max 0 (- e)) (Z.neg m * 2 ^ Z.max 0 e));
          try discriminate; nia. }
      assert (Hlow : 200 * 2 ^ Z.max 0 (- e) <= Z.pos m * 2 ^ Z.max 0 e).
      { destruct (Z.compare_spec (200 * 2 ^ Z.max 0 (- e)) (Z.pos m * 2 ^ Z.max 0 e));
          try discriminate; lia. }
      apply clamp_ge_two.
      destruct (fdiv_hundred_ge_200 false m e (valid_mantissa _ _ _ Hwf) Hlow)
        as [->|(m' & e' & -> & Hm' & He')]; [left; reflexivity|right].
      exists m', e'. repeat split; lia.
Qed.

(** Below 0 the stored brightness is [0.0]. *)
Lemma percent_below_quotient v q :
  not_nan v = true -> int_le_num 0 v = false ->
  is_numeric v = true ->
  truediv_float v (Py.decimal 100 1) = Py.Done q ->
  Py.fmax zero (Py.fmin two q) = zero.
Proof.
  intros Hnan H0 Hn. rewrite literal_hundred.
  destruct v as [|z|f|l|c]; try discriminate.
  - cbn [int_le_num truediv_float] in *. apply Z.leb_gt in H0.
    destruct (Py.float_of_int z) as [f|] eqn:Hf; [|discriminate].
    intros [= <-]. destruct z as [|p|p]; try lia.
    destruct (float_of_int_neg p f Hf) as (m & e & -> & _).
    apply clamp_negative.
    destruct (fdiv_hundred_shape true m e) as [->|[->|(m' & e' & ->)]]; eauto.
  - cbn [truediv_float int_le_num not_nan] in *. intros [= <-].
    destruct f as [s|s| |s m e].
    + cbn in H0. discriminate.
    + destruct s; [reflexivity|discriminate].
    + discriminate.
    + rewrite compare_int_float_finite in H0. rewrite Z.mul_0_l in H0.
      pose proof (pow2_pos (Z.max 0 e) ltac:(lia)).
      destruct s.
      * apply clamp_negative.
        destruct (fdiv_hundred_shape true m e) as [->|[->|(m' & e' & ->)]]; eauto.
      * exfalso.
        destruct (Z.compare_spec 0 (Z.pos m * 2 ^ Z.max 0 e)); try discriminate; nia.
Qed.

Lemma truediv_convertible v :
  is_numeric v = true -> float_convertible v ->
  exists q, truediv_float v (Py.decimal 100 1) = Py.Done q.
Proof.
  destruct v as [|z|f|l|c]; try discriminate; intros _ Hc; cbn [truediv_float].
  - destruct (float_of_int_in_range z Hc) as (f & ->). eauto.
  - eauto.
Qed.


(** *** [int(px)] of a finite number, against the comparisons with 1 *)

Lemma py_int_finite v :
  finite_number v = true ->
  exists n,
    py_int v = Py.Done n /\
    (int_le_num 1 v = true -> 1 <= n) /\
    (num_lt_int v 1 = true -> n <= 0).
Proof.
  destruct v as [|z|f|l|c]; try discriminate.
  - intros _. exists z. cbn [py_int int_le_num num_lt_int].
    rewrite Z.leb_le, Z.ltb_lt. repeat split; lia.
  - destruct f as [s|s| |s m e]; try discriminate; intros _.
    + exists 0. cbn. repeat split; try discriminate; lia.
    + cbn [py_int int_le_num num_lt_int].
      rewrite int_of_float_finite, compare_int_float_finite, Z.mul_1_l.
      eexists. split; [reflexivity|]. cbv zeta.
      pose proof (pow2_pos (Z.max 0 e) ltac:(lia)) as Hp1.
      pose proof (pow2_pos (Z.max 0 (- e)) ltac:(lia)) as Hp2.
      destruct (Z.ltb_spec e 0) as [He|He].
      * replace (Z.max 0 e) with 0 in * by lia.
        replace (Z.max 0 (- e)) with (- e) in * by lia.
        rewrite Z.pow_0_r, Z.mul_1_r.
        assert (Ha : 0 <= Z.pos m / 2 ^ (- e)) by (apply Z.div_pos; lia).
        destruct s.
        -- split; intros Hc; [|lia].
           destruct (Z.compare_spec (2 ^ (- e)) (Z.neg m)); try discriminate; lia.
        -- split; intros Hc.
           ++ apply Z.div_le_lower_bound; [lia|].
              destruct (Z.compare_spec (2 ^ (- e)) (Z.pos m)); try discriminate; lia.
           ++ rewrite Z.div_small; [lia|].
              destruct (Z.compare_spec (2 ^ (- e)) (Z.pos m)); try discriminate; lia.
      * replace (Z.max 0 e) with e in * by lia.
        replace (Z.max 0 (- e)) with 0 in * by lia.
        rewrite Z.pow_0_r.
        destruct s.
        -- split; intros Hc; [|nia].
           destruct (Z.compare_spec 1 (Z.neg m * 2 ^ e)); try discriminate; nia.
        -- split; intros Hc; [nia|].
           destruct (Z.compare_spec 1 (Z.pos m * 2 ^ e)); try discriminate; nia.
Qed.

Lemma finite_number_numeric v : finite_number v = true -> is_numeric v = true.
Proof. destruct v; try discriminate; reflexivity. Qed.

(** What [set_thickness] stores for a finite number that formats is an
    [int] its debug record can format. *)
Lemma finite_number_stored v :
  wf_pyobj v -> finite_number v = true -> printable v = true ->
  exists n, py_int v = Py.Done n /\ Py.str_digits_ok (Z.max 1 n) = true.
Proof.
  intros Hwf Hf Hp. destruct (py_int_finite v Hf) as (n & Hn & _).
  exists n. split; [exact Hn|]. apply str_digits_ok_max.
  destruct v as [|z|f|l|c]; try discriminate.
  - cbn [py_int] in Hn. injection Hn as <-. exact Hp.
  - cbn [py_int wf_pyobj] in *. eapply int_of_float_printable; eassumption.
Qed.

(** *** What every setter call maintains *)

Lemma brightness_ok_clamp q :
  Py.float_valid q = true ->
  Py.float_valid (Py.fmax zero (Py.fmin two q)) = true /\
  Py.fle (S754_zero false) (Py.fmax zero (Py.fmin two q)) = true /\
  Py.fle (Py.fmax zero (Py.fmin two q)) (Py.decimal 2 1) = true.
Proof.
  intros Hv. rewrite literal_two.
  destruct (clamp_range q) as (H0 & H2 & Hvalid). auto.
Qed.

Lemma truediv_valid v q :
  wf_pyobj v -> truediv_float v (Py.decimal 100 1) = Py.Done q ->
  Py.float_valid q = true.
Proof.
  rewrite literal_hundred. destruct v as [|z|f|l|c]; try discriminate.
  - cbn [truediv_float]. intros _.
    destruct (Py.float_of_int z) as [f|] eqn:Hf; [|discriminate].
    intros [= <-]. apply fdiv_hundred_valid. eapply float_of_int_valid; eassumption.
  - cbn [truediv_float wf_pyobj]. intros Hv [= <-]. apply fdiv_hundred_valid, Hv.
Qed.


Lemma original_set_thickness_keeps v s :
  1 <= thickness s ->
  1 <= thickness (snd (RinglightOriginal.set_thickness v s)) /\
  brightness (snd (RinglightOriginal.set_thickness v s)) = brightness s /\
  color (snd (RinglightOriginal.set_thickness v s)) = color s.
Proof.
  intros Ht. unfold RinglightOriginal.set_thickness, RinglightOriginal.MIN_THICKNESS.
  run_monad. destruct (py_int v) as [n|e]; [|auto]. run_monad. rewrite imax_eq.
  destruct (printable (PyInt (Z.max 1 n))); run_monad; repeat split; lia.
Qed.


Lemma original_call_preserves c s :
  wf_call c -> parameters_ok s -> parameters_ok (snd (call_original c s)).
Proof.
  intros Hwf (Ht & Hb & Hc). destruct c as [x|x|x]; cbn [call_original wf_call] in *.
  - destruct (original_set_thickness_keeps x s Ht) as (Ht' & Hb' & Hc').
    unfold parameters_ok, brightness_ok in *. rewrite Hb', Hc'. auto.
  - destruct (truediv_float x (Py.decimal 100 1)) as [q|e] eqn:Hq.
    + rewrite (original_set_brightness_percent_done x q s Hq). cbn [snd].
      split; [exact Ht|]. split; [|exact Hc].
      apply brightness_ok_clamp. eapply truediv_valid; eassumption.
    + rewrite (original_set_brightness_percent_raise x e s Hq).
      repeat split; try apply Hb; try apply Hc; assumption.
  - unfold RinglightOriginal.set_color.
    destruct (RinglightOriginal.truthy x);
      [|repeat split; try apply Hb; try apply Hc; assumption].
    destruct x as [|z|f|l|c]; cbn [wf_pyobj] in *;
      try (repeat split; try apply Hb; try apply Hc; assumption).
    destruct (Qt.isValid c); run_monad;
      repeat split; cbn [thickness brightness color]; try apply Hb;
      try apply Hc; try apply Hwf; assumption.
Qed.


Lemma init_ok w h : parameters_ok (Ringlight.init w h).
Proof.
  unfold parameters_ok, brightness_ok, Qt.wf_color.
  split; [unfold Ringlight.init, Ringlight.DEFAULT_THICKNESS; cbn [thickness]; lia|].
  repeat split; vm_compute; reflexivity.
Qed.

Lemma original_init_ok w h : parameters_ok (RinglightOriginal.init w h).
Proof.
  unfold parameters_ok, brightness_ok, Qt.wf_color.
  split; [unfold RinglightOriginal.init, RinglightOriginal.DEFAULT_THICKNESS;
          cbn [thickness]; lia|].
  repeat split; vm_compute; reflexivity.
Qed.

End SetterFacts.

(** * The two [paintEvent]s *)

Module PaintFacts.
Import Binary64 Literals Rounding FloatFacts IntFacts SetterFacts.

Ltac run_paint :=
  unfold begin_painter, end_painter, setCompositionMode, setAntialiasing, paint;
  unfold with_painter, log, update;
  unfold M.bind, M.when, M.lift, M.raise, M.ret, M.get, M.modify,
    M.try_except, M.try_finally;
  cbn [fst snd thickness brightness color width height logged updates painter
       Qt.active Qt.mode Qt.antialiasing Qt.fills Qt.new_painter app].

(** *** The revised [paintEvent], case by case *)

Lemma paintEvent_degenerate s :
  width s <= 0 \/ height s <= 0 ->
  Ringlight.paintEvent s
  = (Py.Done tt,
     mkOverlay (thickness s) (brightness s) (color s) (width s) (height s)
               (logged s ++ [(WARNING, InvalidDimensions)]) (updates s)
               (Qt.mkPainter false Qt.Screen true [])).
Proof.
  intros Hd. unfold Ringlight.paintEvent, Ringlight.paint_body. run_paint.
  assert (Hg : (width s <=? 0) || (height s <=? 0) = true).
  { apply orb_true_iff. rewrite !Z.leb_le. exact Hd. }
  rewrite Hg. run_paint. reflexivity.
Qed.

Lemma paintEvent_frame s a :
  0 < width s -> 0 < height s ->
  Ringlight.fill_alpha (brightness s) = Py.Done a ->
  Ringlight.paintEvent s
  = (Py.Done tt,
     mkOverlay (thickness s) (brightness s) (color s) (width s) (height s)
               (logged s) (updates s)
               (Qt.mkPainter false Qt.Screen true
                  [Qt.FillFrame
                     (Ringlight.outer_rect (width s) (height s))
                     Ringlight.OUTER_CORNER_RADIUS
                     (Ringlight.inner_rect (thickness s) (width s) (height s))
                     (Ringlight.inner_radius (thickness s) (width s) (height s))
                     (Qt.setAlpha (color s) a)])).
Proof.
  intros Hw Hh Ha. unfold Ringlight.paintEvent, Ringlight.paint_body. run_paint.
  assert (Hg : (width s <=? 0) || (height s <=? 0) = false).
  { apply orb_false_iff. rewrite !Z.leb_gt. split; assumption. }
  rewrite Hg. run_paint. rewrite Ha. run_paint. reflexivity.
Qed.

Lemma paintEvent_error s e :
  0 < width s -> 0 < height s ->
  Ringlight.fill_alpha (brightness s) = Py.Raise e ->
  Ringlight.paintEvent s
  = (Py.Done tt,
     mkOverlay (thickness s) (brightness s) (color s) (width s) (height s)
               (logged s ++ [(ERROR, ErrorInPaintEvent e)]) (updates s)
               (Qt.mkPainter false Qt.Screen true [])).
Proof.
  intros Hw Hh Ha. unfold Ringlight.paintEvent, Ringlight.paint_body. run_paint.
  assert (Hg : (width s <=? 0) || (height s <=? 0) = false).
  { apply orb_false_iff. rewrite !Z.leb_gt. split; assumption. }
  rewrite Hg. run_paint. rewrite Ha. run_paint. reflexivity.
Qed.

Lemma paintEvent_returns s : fst (Ringlight.paintEvent s) = Py.Done tt.
Proof.
  destruct (Z_le_gt_dec (width s) 0) as [Hw|Hw];
    [rewrite paintEvent_degenerate by auto; reflexivity|].
  destruct (Z_le_gt_dec (height s) 0) as [Hh|Hh];
    [rewrite paintEvent_degenerate by auto; reflexivity|].
  destruct (Ringlight.fill_alpha (brightness s)) as [a|e] eqn:Ha.
  - rewrite (paintEvent_frame s a) by (assumption || lia). reflexivity.
  - rewrite (paintEvent_error s e) by (assumption || lia). reflexivity.
Qed.

(** *** The fill alpha of a stored brightness *)

Lemma int_mul_float_255 b : int_mul_float 255 b = Py.Done (Py.fmul f255 b).
Proof. reflexivity. Qed.

Lemma brightness_ok_literals s :
  brightness_ok s ->
  Py.float_valid (brightness s) = true /\
  Py.fle zero (brightness s) = true /\ Py.fle (brightness s) two = true.
Proof. unfold brightness_ok. rewrite literal_two. auto. Qed.

Lemma fill_alpha_unit_range b :
  Py.float_valid b = true -> Py.fle zero b = true -> Py.fle b two = true ->
  exists n,
    Py.int_of_float (Py.fmul f255 b) = Py.Done n /\ 0 <= n /\
    Ringlight.fill_alpha b = Py.Done (Z.max 0 (Z.min 255 n)) /\
    (Py.fle one b = true -> 255 <= n).
Proof.
  intros Hv H0 H2. unfold Ringlight.fill_alpha. rewrite int_mul_float_255.
  destruct (mul255_unit_range b Hv H0 H2) as [(Hno & s & Hz)|(m & e & Hf & Hm & He & Hlow)].
  - rewrite Hz. exists 0. cbn [Py.int_of_float]. rewrite imax_eq, imin_eq.
    repeat split; try lia.
    intros H1. congruence.
  - rewrite Hf, int_of_float_finite. cbv zeta.
    destruct (Z.ltb_spec e 0); [|lia].
    exists (Z.pos m / 2 ^ (- e)). rewrite imax_eq, imin_eq.
    pose proof (pow2_pos (- e) ltac:(lia)).
    repeat split; try reflexivity.
    + apply Z.div_pos; lia.
    + intros Hge. specialize (Hlow Hge). apply Z.div_le_lower_bound; lia.
Qed.


(** *** The original [paintEvent] *)

Lemma layers_table : Forall table_layer RinglightOriginal.layers.
Proof.
  repeat constructor; do 4 eexists; (split; [vm_compute; reflexivity|]);
    repeat split; (reflexivity || discriminate).
Qed.

Lemma layer_alpha_unit_range b mi ei :
  Py.float_valid b = true -> Py.fle zero b = true -> Py.fle b two = true ->
  Zpos mi < 2 ^ 53 -> ei <= 0 ->
  exists n,
    Py.int_of_float (Py.fmul (Py.fmul f255 b) (S754_finite false mi ei)) = Py.Done n /\
    0 <= n /\
    RinglightOriginal.layer_alpha b (S754_finite false mi ei)
    = Py.Done (Z.max 0 (Z.min 220 n)).
Proof.
  intros Hv H0 H2 Hmi Hei. unfold RinglightOriginal.layer_alpha.
  rewrite int_mul_float_255.
  destruct (mul255_unit_range b Hv H0 H2) as [(_ & s & Hz)|(m & e & Hf & Hm & He & _)].
  - rewrite Hz. exists 0. cbn [Py.fmul SFmul Py.int_of_float].
    change (Py.fmul (S754_zero s) (S754_finite false mi ei)) with (S754_zero (xorb s false)).
    cbn [Py.int_of_float]. rewrite imax_eq, imin_eq. repeat split; lia.
  - rewrite Hf.
    destruct (fmul_no_overflow false m e false mi ei Hm Hmi ltac:(lia))
      as [Hz|(m' & e' & Hfin & _ & _)].
    + rewrite Hz. exists 0. cbn [Py.int_of_float]. rewrite imax_eq, imin_eq.
      repeat split; lia.
    + rewrite Hfin, int_of_float_finite. cbn [xorb]. cbv zeta.
      eexists. rewrite imax_eq, imin_eq. split; [reflexivity|].
      split; [|reflexivity].
      destruct (Z.ltb_spec e' 0).
      * apply Z.div_pos; [lia|apply pow2_pos; lia].
      * pose proof (pow2_pos e' ltac:(lia)). nia.
Qed.

Lemma float_of_int_small p :
  Zpos p < 2 ^ 53 ->
  exists m,
    Py.float_of_int (Zpos p) = Py.Done (S754_finite false m (Zdigits2 (Zpos p) - 53)) /\
    Zpos m = Zpos p * 2 ^ (53 - Zdigits2 (Zpos p)) /\
    2 ^ 52 <= Zpos m < 2 ^ 53 /\ -52 <= Zdigits2 (Zpos p) - 53 <= 0.
Proof.
  intros Hp. destruct (round_pos_small false p Hp) as (m & Hr & Hm). cbv zeta in Hr.
  exists m. unfold Py.float_of_int. rewrite round_int_pos, Hr.
  split; [reflexivity|]. split; [exact Hm|].
  pose proof (Zdigits2_bounds (Zpos p) ltac:(lia)) as Hb.
  pose proof (Zdigits2_pos (Zpos p) ltac:(lia)) as Hdp.
  assert (Hd : Zdigits2 (Zpos p) <= 53) by (apply Zdigits2_le_iff; lia).
  set (d := Zdigits2 (Zpos p)) in *.
  pose proof (pow2_pos (53 - d) ltac:(lia)) as Hpp.
  assert (H52 : 2 ^ 52 = 2 ^ (d - 1) * 2 ^ (53 - d))
    by (rewrite <- Z.pow_add_r by lia; f_equal; lia).
  assert (H53 : 2 ^ 53 = 2 ^ d * 2 ^ (53 - d))
    by (rewrite <- Z.pow_add_r by lia; f_equal; lia).
  split; [rewrite Hm, H52, H53 at 1; nia|lia].
Qed.

(** [size = max(1, int(t * mul))] for a positive [t]. *)
Lemma layer_size_pos t mm em :
  1 <= t < 2 ^ 53 -> Zpos mm < 2 ^ 53 -> em <= 0 ->
  exists z,
    RinglightOriginal.layer_size t (S754_finite false mm em) = Py.Done z /\ 1 <= z.
Proof.
  intros Ht Hmm Hem. destruct t as [|p|p]; try lia.
  destruct (float_of_int_small p ltac:(lia)) as (m & Hf & _ & Hm & He).
  unfold RinglightOriginal.layer_size, int_mul_float. rewrite Hf.
  destruct (fmul_no_overflow false m (Zdigits2 (Z.pos p) - 53) false mm em
              ltac:(lia) Hmm ltac:(lia)) as [Hz|(m' & e' & Hfin & _ & _)].
  - rewrite Hz. cbn [Py.int_of_float]. eexists. split; [reflexivity|].
    rewrite imax_eq. lia.
  - rewrite Hfin, int_of_float_finite. eexists. split; [reflexivity|].
    rewrite imax_eq. lia.
Qed.

(** Multiplying by [1.0] changes nothing. *)
Lemma fmul_one s m e :
  2 ^ 52 <= Zpos m < 2 ^ 53 -> -1022 <= e <= 971 ->
  Py.fmul (S754_finite s m e) one = S754_finite s m e.
Proof.
  intros Hm He. unfold one. rewrite fmul_finite, xorb_false_r.
  change (Z.pos 4503599627370496) with (2 ^ 52).
  assert (Hd : Zdigits2 (Z.pos m * 2 ^ 52) = 105).
  { apply Zdigits2_unique; [|change (2 ^ 52) with 4503599627370496 in *; lia].
    change (2 ^ (105 - 1)) with (2 ^ 52 * 2 ^ 52).
    change (2 ^ 105) with (2 ^ 53 * 2 ^ 52).
    change (2 ^ 52) with 4503599627370496 in *.
    change (2 ^ 53) with 9007199254740992 in *. lia. }
  destruct (binary_round_aux_normal s (Z.pos m * 2 ^ 52) (e + -52) loc_Exact
              ltac:(change (2 ^ 52) with 4503599627370496 in *; lia)
              ltac:(rewrite Hd; lia))
    as (m' & e' & _ & _ & _ & Hex & ->).
  rewrite Hd in Hex.
  replace (105 + (e + -52) - 53 - (e + -52)) with 52 in Hex by lia.
  assert (Hnz : 2 ^ 52 <> 0) by (change (2 ^ 52) with 4503599627370496; lia).
  destruct (Hex eq_refl (Z.mod_mul _ _ Hnz)) as [-> Hm'].
  rewrite Z.div_mul in Hm' by exact Hnz.
  injection Hm' as ->.
  replace (105 + (e + -52) - 53) with e by lia.
  destruct (Z.leb_spec e 971); [reflexivity|lia].
Qed.

(** The base layer ([mul = 1.00]) is as thick as [t]. *)
Lemma layer_size_base t :
  1 <= t < 2 ^ 53 -> RinglightOriginal.layer_size t one = Py.Done t.
Proof.
  intros Ht. destruct t as [|p|p]; try lia.
  destruct (float_of_int_small p ltac:(lia)) as (m & Hf & Hmeq & Hm & He).
  unfold RinglightOriginal.layer_size, int_mul_float. rewrite Hf.
  rewrite fmul_one by lia. rewrite int_of_float_finite. cbv zeta.
  rewrite imax_eq. f_equal.
  set (d := Zdigits2 (Z.pos p)) in *.
  destruct (Z.ltb_spec (d - 53) 0).
  - replace (- (d - 53)) with (53 - d) by lia.
    rewrite Hmeq, Z.div_mul by (pose proof (pow2_pos (53 - d) ltac:(lia)); lia). lia.
  - replace (53 - d) with 0 in Hmeq by lia.
    replace (d - 53) with 0 by lia. rewrite Z.pow_0_r in *. lia.
Qed.

(** An integer that is not positive gives the minimal size. *)
Lemma layer_size_nonpos t mm em :
  - 2 ^ 53 < t <= 0 -> Zpos mm < 2 ^ 53 -> em <= 0 ->
  RinglightOriginal.layer_size t (S754_finite false mm em) = Py.Done 1.
Proof.
  intros Ht Hmm Hem. destruct t as [|p|p]; try lia; [reflexivity|].
  destruct (round_pos_small true p ltac:(lia)) as (m & Hr & Hmeq). cbv zeta in Hr.
  unfold RinglightOriginal.layer_size, int_mul_float, Py.float_of_int.
  rewrite round_int_neg, Hr.
  pose proof (Zdigits2_pos (Zpos p) ltac:(lia)) as Hdp.
  assert (Hd : Zdigits2 (Zpos p) <= 53) by (apply Zdigits2_le_iff; lia).
  pose proof (Zdigits2_bounds (Zpos p) ltac:(lia)) as Hb.
  set (d := Zdigits2 (Zpos p)) in *.
  assert (Hm : Zpos m < 2 ^ 53).
  { pose proof (pow2_pos (53 - d) ltac:(lia)) as Hpp.
    assert (H53 : 2 ^ 53 = 2 ^ d * 2 ^ (53 - d))
      by (rewrite <- Z.pow_add_r by lia; f_equal; lia).
    rewrite Hmeq, H53. nia. }
  destruct (fmul_no_overflow true m (d - 53) false mm em Hm Hmm ltac:(lia))
    as [Hz|(m' & e' & Hfin & _ & _)].
  - rewrite Hz. reflexivity.
  - rewrite Hfin, int_of_float_finite. cbn [xorb]. cbv zeta.
    rewrite imax_eq. f_equal.
    assert (0 <= (if e' <? 0 then Z.pos m' / 2 ^ (- e') else Z.pos m' * 2 ^ e')).
    { destruct (Z.ltb_spec e' 0).
      - apply Z.div_pos; [lia|apply pow2_pos; lia].
      - pose proof (pow2_pos e' ltac:(lia)). nia. }
    lia.
Qed.

Lemma paint_layer_done w h t base l s z a :
  RinglightOriginal.layer_size t (snd l) = Py.Done z ->
  RinglightOriginal.layer_alpha (brightness s) (fst l) = Py.Done a ->
  RinglightOriginal.paint_layer w h t base l s
  = (Py.Done tt,
     mkOverlay (thickness s) (brightness s) (color s) (width s) (height s)
               (logged s) (updates s)
               (Qt.mkPainter (Qt.active (painter s)) (Qt.mode (painter s))
                  (Qt.antialiasing (painter s))
                  (Qt.fills (painter s) ++
                   RinglightOriginal.edge_bands w h z (Qt.setAlpha base a)
                                                (Qt.setAlpha base 0)))).
Proof.
  intros Hz Ha. destruct l as [intensity mul]. cbn [fst snd] in *.
  unfold RinglightOriginal.paint_layer. unfold M.bind at 1, M.lift at 1.
  rewrite Hz. unfold M.bind at 1, M.get at 1. unfold M.bind at 1, M.lift at 1.
  rewrite Ha. unfold RinglightOriginal.edge_bands. cbn [fold_right].
  run_paint. rewrite <- !app_assoc. reflexivity.
Qed.

Lemma layer_bands_done w h t b base l z a :
  RinglightOriginal.layer_size t (snd l) = Py.Done z ->
  RinglightOriginal.layer_alpha b (fst l) = Py.Done a ->
  layer_bands w h t b base l
  = RinglightOriginal.edge_bands w h z (Qt.setAlpha base a) (Qt.setAlpha base 0).
Proof. intros Hz Ha. unfold layer_bands. rewrite Hz, Ha. reflexivity. Qed.

Lemma for_each_layers w h t base ls :
  forall s,
  (forall l, In l ls ->
     exists z a, RinglightOriginal.layer_size t (snd l) = Py.Done z /\
                 RinglightOriginal.layer_alpha (brightness s) (fst l) = Py.Done a) ->
  RinglightOriginal.for_each (RinglightOriginal.paint_layer w h t base) ls s
  = (Py.Done tt,
     mkOverlay (thickness s) (brightness s) (color s) (width s) (height s)
               (logged s) (updates s)
               (Qt.mkPainter (Qt.active (painter s)) (Qt.mode (painter s))
                  (Qt.antialiasing (painter s))
                  (Qt.fills (painter s) ++
                   flat_map (layer_bands w h t (brightness s) base) ls))).
Proof.
  induction ls as [|l ls IH]; intros s Hall.
  - cbn [RinglightOriginal.for_each flat_map]. unfold M.ret. rewrite app_nil_r.
    destruct s as [? ? ? ? ? ? ? []]. reflexivity.
  - cbn [RinglightOriginal.for_each flat_map].
    destruct (Hall l (or_introl eq_refl)) as (z & a & Hz & Ha).
    unfold M.bind at 1.
    rewrite (paint_layer_done w h t base l s z a Hz Ha).
    rewrite (layer_bands_done w h t (brightness s) base l z a Hz Ha).
    rewrite IH by (cbn [brightness]; intros l' Hl'; apply Hall; right; exact Hl').
    cbn [fst snd thickness brightness color width height logged updates painter
         Qt.active Qt.mode Qt.antialiasing Qt.fills].
    rewrite <- !app_assoc. reflexivity.
Qed.

Lemma original_paintEvent_bands s :
  (forall l, In l RinglightOriginal.layers ->
     exists z a,
       RinglightOriginal.layer_size
         (RinglightOriginal.capped_thickness (thickness s) (width s) (height s))
         (snd l) = Py.Done z /\
       RinglightOriginal.layer_alpha (brightness s) (fst l) = Py.Done a) ->
  RinglightOriginal.paintEvent s
  = (Py.Done tt,
     mkOverlay (thickness s) (brightness s) (color s) (width s) (height s)
               (logged s) (updates s)
               (Qt.mkPainter false Qt.Screen false
                  (flat_map
                     (layer_bands (width s) (height s)
                        (RinglightOriginal.capped_thickness (thickness s) (width s) (height s))
                        (brightness s) (color s))
                     RinglightOriginal.layers))).
Proof.
  intros Hall. unfold RinglightOriginal.paintEvent. run_paint.
  rewrite for_each_layers by exact Hall. run_paint. reflexivity.
Qed.

End PaintFacts.

(** * The properties of the specification *)

Import Binary64 Literals Rounding FloatFacts IntFacts SetterFacts PaintFacts.

Lemma setAlpha_alpha c a : 0 <= a <= 255 -> Qt.alpha (Qt.setAlpha c a) = a.
Proof.
  intros Ha. unfold Qt.setAlpha, Qt.channel_ok.
  destruct (Z.leb_spec 0 a); [|lia]. destruct (Z.leb_spec a 255); [|lia].
  reflexivity.
Qed.

Lemma brightness_paints s :
  brightness_ok s ->
  exists n,
    Py.int_of_float (Py.fmul f255 (brightness s)) = Py.Done n /\ 0 <= n /\
    Ringlight.fill_alpha (brightness s) = Py.Done (Z.max 0 (Z.min 255 n)) /\
    (Py.fle one (brightness s) = true -> 255 <= n).
Proof.
  intros Hb. apply brightness_ok_literals in Hb. destruct Hb as (Hv & H0 & H2).
  apply fill_alpha_unit_range; assumption.
Qed.

(** *** The layers of the bloom, for a state the setters maintain *)

Lemma capped_thickness_eq t w h :
  RinglightOriginal.capped_thickness t w h = Z.min t (Z.max 1 (Z.min w h)).
Proof.
  unfold RinglightOriginal.capped_thickness. rewrite !imin_eq, imax_eq. reflexivity.
Qed.

Lemma bloom_layers_computed s :
  parameters_ok s -> qt_int (width s) -> qt_int (height s) ->
  forall l, In l RinglightOriginal.layers ->
  exists z n,
    RinglightOriginal.layer_size
      (RinglightOriginal.capped_thickness (thickness s) (width s) (height s))
      (snd l) = Py.Done z /\ 1 <= z /\
    Py.int_of_float (Py.fmul (Py.fmul f255 (brightness s)) (fst l)) = Py.Done n /\
    RinglightOriginal.layer_alpha (brightness s) (fst l)
    = Py.Done (Z.max 0 (Z.min 220 n)).
Proof.
  intros (Ht & Hb & _) Hw Hh l Hl.
  apply brightness_ok_literals in Hb. destruct Hb as (Hv & H0 & H2).
  pose proof layers_table as Htab. rewrite Forall_forall in Htab.
  destruct (Htab l Hl) as (mi & ei & mm & em & -> & Hmi & Hei & Hmm & Hem).
  cbn [fst snd].
  assert (Hcap : 1 <= RinglightOriginal.capped_thickness (thickness s) (width s) (height s)
                 < 2 ^ 53).
  { rewrite capped_thickness_eq. unfold qt_int in *.
    change (2 ^ 31) with 2147483648 in *.
    change (2 ^ 53) with 9007199254740992. lia. }
  destruct (layer_size_pos _ mm em Hcap Hmm Hem) as (z & Hz & Hz1).
  destruct (layer_alpha_unit_range (brightness s) mi ei Hv H0 H2 Hmi Hei)
    as (n & Hn & _ & Ha).
  exists z, n. auto.
Qed.

Lemma bloom_frame_alphas w h t b base ls :
  (forall l, In l ls ->
     exists z n,
       RinglightOriginal.layer_size t (snd l) = Py.Done z /\ 1 <= z /\
       Py.int_of_float (Py.fmul (Py.fmul f255 b) (fst l)) = Py.Done n /\
       RinglightOriginal.layer_alpha b (fst l) = Py.Done (Z.max 0 (Z.min 220 n))) ->
  exists alphas,
    Forall2 (fun l a =>
               RinglightOriginal.layer_alpha b (fst l) = Py.Done a /\
               exists x n,
                 int_mul_float 255 b = Py.Done x /\
                 Py.int_of_float (Py.fmul x (fst l)) = Py.Done n /\
                 a = Z.max 0 (Z.min 220 n) /\ 0 <= a <= 220)
            ls alphas /\
    map band_alpha (flat_map (layer_bands w h t b base) ls)
    = flat_map (fun a => [Some a; Some a; Some a; Some a]) alphas.
Proof.
  induction ls as [|l ls IH]; intros Hall.
  - exists []. split; [constructor|reflexivity].
  - destruct (Hall l (or_introl eq_refl)) as (z & n & Hz & _ & Hn & Ha).
    destruct IH as (alphas & HF & Hmap); [intros l' Hl'; apply Hall; right; exact Hl'|].
    exists (Z.max 0 (Z.min 220 n) :: alphas). split.
    + constructor; [|exact HF]. split; [exact Ha|].
      exists (Py.fmul f255 b), n. rewrite int_mul_float_255.
      repeat split; try assumption; lia.
    + cbn [flat_map]. rewrite map_app, Hmap.
      rewrite (layer_bands_done w h t b base l z _ Hz Ha).
      unfold RinglightOriginal.edge_bands. cbn [map band_alpha Qt.at0 app].
      rewrite setAlpha_alpha by lia. reflexivity.
Qed.

Lemma bloom_frame_rects w h t b base ls :
  (forall l, In l ls ->
     exists z n,
       RinglightOriginal.layer_size t (snd l) = Py.Done z /\ 1 <= z /\
       Py.int_of_float (Py.fmul (Py.fmul f255 b) (fst l)) = Py.Done n /\
       RinglightOriginal.layer_alpha b (fst l) = Py.Done (Z.max 0 (Z.min 220 n))) ->
  exists sizes,
    Forall2 (fun l z => RinglightOriginal.layer_size t (snd l) = Py.Done z /\ 1 <= z)
            ls sizes /\
    map band_rect (flat_map (layer_bands w h t b base) ls)
    = flat_map (fun z => [Some (Qt.mkQRect 0 0 w z);
                          Some (Qt.mkQRect 0 (h - z) w z);
                          Some (Qt.mkQRect 0 0 z h);
                          Some (Qt.mkQRect (w - z) 0 z h)]) sizes.
Proof.
  induction ls as [|l ls IH]; intros Hall.
  - exists []. split; [constructor|reflexivity].
  - destruct (Hall l (or_introl eq_refl)) as (z & n & Hz & Hz1 & Hn & Ha).
    destruct IH as (sizes & HF & Hmap); [intros l' Hl'; apply Hall; right; exact Hl'|].
    exists (z :: sizes). split.
    + constructor; [|exact HF]. split; assumption.
    + cbn [flat_map]. rewrite map_app, Hmap.
      rewrite (layer_bands_done w h t b base l z _ Hz Ha).
      reflexivity.
Qed.

Lemma layers_eq :
  RinglightOriginal.layers
  = [ (one, one);
      (S754_finite false 6305039478318694 (-53), S754_finite false 6755399441055744 (-53));
      (S754_finite false 8106479329266893 (-54), S754_finite false 4953959590107546 (-53));
      (S754_finite false 4503599627370496 (-54), S754_finite false 7205759403792794 (-54)) ].
Proof. vm_compute. reflexivity. Qed.

Lemma Forall2_weaken {A B} (P Q : A -> B -> Prop) l1 l2 :
  (forall a b, In a l1 -> P a b -> Q a b) ->
  Forall2 P l1 l2 -> Forall2 Q l1 l2.
Proof.
  intros HPQ HF. induction HF as [|a b l1 l2 Hab HF IH]; constructor.
  - apply HPQ; [left; reflexivity|exact Hab].
  - apply IH. intros a' b' Hin. apply HPQ. right. exact Hin.
Qed.

(** The layer sizes of a thickness capped at a non-positive dimension are
    those the formula gives on the dimension itself: all 1. *)
Lemma layer_size_degenerate m l :
  - 2 ^ 31 <= m <= 0 -> In l RinglightOriginal.layers ->
  RinglightOriginal.layer_size 1 (snd l) = RinglightOriginal.layer_size m (snd l).
Proof.
  intros Hm Hl.
  pose proof layers_table as Htab. rewrite Forall_forall in Htab.
  destruct (Htab l Hl) as (mi & ei & mm & em & Heq & _ & _ & Hmm & Hem).
  assert (H1 : RinglightOriginal.layer_size 1 (snd l) = Py.Done 1).
  { rewrite layers_eq in Hl. cbn [In] in Hl.
    destruct Hl as [<-|[<-|[<-|[<-|[]]]]]; vm_compute; reflexivity. }
  rewrite H1, Heq. cbn [snd]. symmetry. apply layer_size_nonpos; try assumption.
  change (2 ^ 31) with 2147483648 in Hm.
  change (2 ^ 53) with 9007199254740992. lia.
Qed.

(** *** Bounds by binary fractions survive rounding *)

(** A bound [c * 2 ^ j] below the exact value stays below the rounded
    one, when the result is at least as fine as [2 ^ j]. *)
Lemma binary_round_aux_above s mz ez lz c j s' m e :
  0 <= mz -> 0 <= c -> ez <= j -> e <= j ->
  c * 2 ^ (j - ez) <= mz ->
  binary_round_aux Py.prec Py.emax s mz ez lz = S754_finite s' m e ->
  c * 2 ^ (j - e) <= Zpos m.
Proof.
  intros Hmz Hc Hez He Hlow Hr.
  destruct (binary_round_aux_spec s mz ez lz Hmz) as (m1 & Hm1 & _ & Heq).
  rewrite Heq in Hr. apply finish_finite in Hr.
  destruct Hr as (_ & He2 & Hm & _).
  set (e1 := Z.max ez (fexp (Zdigits2 mz + ez))) in *.
  assert (ez <= e1 <= e) by (unfold e1 in *; lia).
  pose proof (div_pow2_lower c (j - ez) (e1 - ez) mz ltac:(lia) Hlow) as H1.
  replace (j - ez - (e1 - ez)) with (j - e1) in H1 by lia.
  assert (H2 : c * 2 ^ (j - e1) <= m1) by lia.
  pose proof (div_pow2_lower c (j - e1) (e - e1) m1 ltac:(lia) H2) as H3.
  replace (j - e1 - (e - e1)) with (j - e) in H3 by lia.
  lia.
Qed.

(** A bound [c * 2 ^ j] above the exact value stays above the rounded
    one. *)
Lemma binary_round_aux_below s mz ez c j s' m e :
  0 <= mz -> 0 <= c -> ez <= j -> e <= j ->
  mz <= c * 2 ^ (j - ez) ->
  binary_round_aux Py.prec Py.emax s mz ez loc_Exact = S754_finite s' m e ->
  Zpos m <= c * 2 ^ (j - e).
Proof.
  intros Hmz Hc Hez He Hup Hr.
  destruct (binary_round_aux_spec s mz ez loc_Exact Hmz) as (m1 & Hm1 & Hex & Heq).
  rewrite Heq in Hr. apply finish_finite in Hr.
  destruct Hr as (_ & He2 & Hm & _).
  set (e1 := Z.max ez (fexp (Zdigits2 mz + ez))) in *.
  assert (Hee : ez <= e1 <= e) by (unfold e1 in *; lia).
  pose proof (pow2_pos (e1 - ez) ltac:(lia)) as Hp1.
  pose proof (pow2_pos (e - e1) ltac:(lia)) as Hp2.
  pose proof (pow2_pos (j - e) ltac:(lia)) as Hp3.
  assert (Hs1 : 2 ^ (j - ez) = 2 ^ (j - e1) * 2 ^ (e1 - ez))
    by (rewrite <- Z.pow_add_r by lia; f_equal; lia).
  assert (Hs2 : 2 ^ (j - e1) = 2 ^ (j - e) * 2 ^ (e - e1))
    by (rewrite <- Z.pow_add_r by lia; f_equal; lia).
  assert (Hm1le : m1 <= c * 2 ^ (j - e1)).
  { pose proof (Z.div_mod mz (2 ^ (e1 - ez)) ltac:(lia)) as Hdm.
    pose proof (Z.mod_pos_bound mz (2 ^ (e1 - ez)) Hp1) as Hmod.
    destruct (Z.eq_dec (mz mod 2 ^ (e1 - ez)) 0) as [H0|Hn0].
    - rewrite (Hex eq_refl H0).
      apply Z.div_le_upper_bound; [lia|]. rewrite Hs1 in Hup. lia.
    - assert (mz / 2 ^ (e1 - ez) < c * 2 ^ (j - e1)); [|lia].
      rewrite Hs1 in Hup. nia. }
  rewrite Hm. apply Z.div_le_upper_bound; [lia|]. rewrite Hs2 in Hm1le. lia.
Qed.

(** *** The layer sizes, in integer arithmetic *)

(** [size = max(1, int(t * mul))] for a multiplier that is the double
    nearest to [num / 100] and not below it: the size is
    [max(1, num * t // 100)]. *)
Lemma layer_size_scaled t mm em num :
  1 <= t < 2 ^ 31 -> 0 <= num <= 100 -> -60 <= em <= -52 ->
  num * 2 ^ (- em) <= 100 * Zpos mm <= num * 2 ^ (- em) + 100 ->
  RinglightOriginal.layer_size t (S754_finite false mm em)
  = Py.Done (Z.max 1 (num * t / 100)).
Proof.
  intros Ht Hnum Hem Hmm. destruct t as [|p|p]; try lia.
  change (2 ^ 31) with 2147483648 in Ht.
  destruct (float_of_int_small p ltac:(change (2 ^ 53) with 9007199254740992; lia))
    as (m & Hf & Hmeq & Hm & He).
  set (d := Zdigits2 (Z.pos p)) in *.
  assert (Hd31 : d <= 31).
  { apply Zdigits2_le_iff; [lia|lia|]. change (2 ^ 31) with 2147483648. lia. }
  set (D7 := 2 ^ (- em - 7)).
  assert (HD7 : 2 ^ 45 <= D7) by (apply Z.pow_le_mono_r; lia).
  assert (HD : 2 ^ (- em) = 128 * D7).
  { unfold D7. change 128 with (2 ^ 7). rewrite <- Z.pow_add_r by lia. f_equal. lia. }
  rewrite HD in Hmm.
  set (S := 2 ^ (53 - d)) in *.
  assert (HS : 0 < S) by (apply pow2_pos; lia).
  change (2 ^ 45) with 35184372088832 in HD7.
  assert (Hmm1 : 1 <= Zpos mm <= 128 * D7 + 1) by nia.
  unfold RinglightOriginal.layer_size, int_mul_float. rewrite Hf, fmul_finite.
  cbn [xorb].
  set (mz := Z.pos m * Z.pos mm). set (ez := d - 53 + em).
  assert (Hmz52 : 2 ^ 52 <= mz) by (unfold mz; nia).
  assert (Hdz : 53 <= Zdigits2 mz <= 54 - em).
  { split.
    - apply (Zdigits2_ge 52); [lia|exact Hmz52].
    - apply Zdigits2_le_iff; [unfold mz; lia|lia|].
      replace (54 - em) with (53 + 1 + (- em)) by lia.
      rewrite !Z.pow_add_r, HD by lia. change (2 ^ 1) with 2. unfold mz. nia. }
  destruct (binary_round_aux_normal false mz ez loc_Exact Hmz52
              ltac:(unfold ez; lia)) as (m' & e' & Hm' & He' & _ & _ & Hr).
  assert (He'20 : e' <= -20) by (unfold ez in *; lia).
  destruct (Z.leb_spec e' 971) as [_|Hbig]; [|lia].
  rewrite Hr, int_of_float_finite, imax_eq. cbv zeta. f_equal. f_equal.
  destruct (Z.ltb_spec e' 0) as [_|]; [|lia].
  (* the quotient and its remainder *)
  set (K := num * Z.pos p / 100).
  pose proof (Z.div_mod (num * Z.pos p) 100 ltac:(lia)) as Hdm.
  pose proof (Z.mod_pos_bound (num * Z.pos p) 100 ltac:(lia)) as Hmod.
  fold K in Hdm.
  set (r := (num * Z.pos p) mod 100) in *.
  assert (HK0 : 0 <= K) by (unfold K; apply Z.div_pos; lia).
  assert (Hmzeq : mz = Z.pos p * Z.pos mm * S) by (unfold mz; rewrite Hmeq; ring).
  assert (Hsez : 2 ^ (0 - ez) = S * (128 * D7)).
  { rewrite <- HD. unfold S, ez. rewrite <- Z.pow_add_r by lia. f_equal. lia. }
  assert (Hsez7 : 2 ^ (-7 - ez) = S * D7).
  { unfold S, D7, ez. rewrite <- Z.pow_add_r by lia. f_equal. lia. }
  assert (Hmz0 : 0 <= mz) by (unfold mz; lia).
  assert (Hez0 : ez <= -7) by (unfold ez; lia).
  (* at least the quotient *)
  assert (Hlow : K * (128 * D7) <= Z.pos p * Z.pos mm).
  { assert (100 * (K * (128 * D7)) <= 100 * (Z.pos p * Z.pos mm)); [|lia].
    assert (H1 : 100 * K <= num * Z.pos p) by lia.
    assert (H2 : num * Z.pos p * (128 * D7) <= 100 * (Z.pos p * Z.pos mm)) by nia.
    nia. }
  assert (Hge : K * 2 ^ (0 - e') <= Zpos m').
  { assert (Hb : K * 2 ^ (0 - ez) <= mz) by (rewrite Hsez, Hmzeq; nia).
    apply (binary_round_aux_above false mz ez loc_Exact K 0 false m' e'
             Hmz0 HK0 ltac:(lia) ltac:(lia) Hb Hr). }
  (* and below the next integer *)
  assert (Hup : Z.pos p * Z.pos mm <= (128 * (K + 1) - 1) * D7).
  { assert (100 * (Z.pos p * Z.pos mm) <= 100 * ((128 * (K + 1) - 1) * D7)); [|lia].
    assert (H1 : num * Z.pos p <= 100 * K + 99) by lia.
    assert (H2 : 100 * (Z.pos p * Z.pos mm)
                 <= num * Z.pos p * (128 * D7) + 100 * Z.pos p) by nia.
    assert (H3 : num * Z.pos p * (128 * D7) <= (100 * K + 99) * (128 * D7)) by nia.
    nia. }
  assert (Hle : Zpos m' <= (128 * (K + 1) - 1) * 2 ^ (-7 - e')).
  { assert (Hb : mz <= (128 * (K + 1) - 1) * 2 ^ (-7 - ez))
      by (rewrite Hsez7, Hmzeq; nia).
    apply (binary_round_aux_below false mz ez (128 * (K + 1) - 1) (-7) false m' e'
             Hmz0 ltac:(lia) ltac:(lia) ltac:(lia) Hb Hr). }
  pose proof (pow2_pos (-7 - e') ltac:(lia)) as Hp7.
  assert (Hs : 2 ^ (- e') = 128 * 2 ^ (-7 - e')).
  { change 128 with (2 ^ 7). rewrite <- Z.pow_add_r by lia. f_equal. lia. }
  replace (0 - e') with (- e') in Hge by lia.
  rewrite Hs in *.
  apply Z.le_antisymm.
  - apply Z.lt_succ_r, Z.div_lt_upper_bound; [lia|]. nia.
  - apply Z.div_le_lower_bound; [lia|]. nia.
Qed.

Lemma layers_percent :
  map snd RinglightOriginal.layers = map (fun num => Py.decimal num 100) size_percent.
Proof. reflexivity. Qed.

Lemma layer_size_percent t l num :
  1 <= t < 2 ^ 31 -> In (l, num) (combine RinglightOriginal.layers size_percent) ->
  RinglightOriginal.layer_size t (snd l) = Py.Done (Z.max 1 (num * t / 100)).
Proof.
  intros Ht Hl. rewrite layers_eq in Hl. cbn [combine size_percent In] in Hl.
  destruct Hl as [Hl|[Hl|[Hl|[Hl|[]]]]]; injection Hl as <- <-; cbn [snd];
    apply layer_size_scaled; try exact Ht; try lia;
    vm_compute; split; discriminate.
Qed.

(** The sizes of the four layers, for a thickness [paintEvent] can
    compute. *)
Lemma bloom_sizes t sizes :
  1 <= t < 2 ^ 31 ->
  Forall2 (fun l z => RinglightOriginal.layer_size t (snd l) = Py.Done z /\ 1 <= z)
          RinglightOriginal.layers sizes ->
  sizes = map (fun num => Z.max 1 (num * t / 100)) size_percent.
Proof.
  intros Ht HF.
  pose proof (fun l num => layer_size_percent t l num Ht) as Hall.
  rewrite layers_eq in HF, Hall. cbn [combine size_percent In] in Hall.
  inversion HF as [|l1 z1 ls1 zs1 (H1 & _) HF1]; subst.
  inversion HF1 as [|l2 z2 ls2 zs2 (H2 & _) HF2]; subst.
  inversion HF2 as [|l3 z3 ls3 zs3 (H3 & _) HF3]; subst.
  inversion HF3 as [|l4 z4 ls4 zs4 (H4 & _) HF4]; subst.
  inversion HF4; subst.
  rewrite (Hall _ 100) in H1 by auto.
  rewrite (Hall _ 75) in H2 by auto.
  rewrite (Hall _ 55) in H3 by auto.
  rewrite (Hall _ 40) in H4 by auto 6.
  injection H1 as <-. injection H2 as <-. injection H3 as <-. injection H4 as <-.
  reflexivity.
Qed.

(** On a dimension that is not positive every size is the minimal one,
    as with the thickness 1 the cap leaves. *)
Lemma size_nonpos num m :
  0 <= num <= 100 -> m <= 0 ->
  Z.max 1 (num * 1 / 100) = Z.max 1 (num * m / 100).
Proof.
  intros Hnum Hm.
  assert (num * 1 / 100 <= 1) by (apply Z.div_le_upper_bound; lia).
  assert (num * m / 100 <= 0) by (apply Z.div_le_upper_bound; [lia|nia]).
  lia.
Qed.

Lemma sizes_nonpos m :
  m <= 0 ->
  map (fun num => Z.max 1 (num * 1 / 100)) size_percent
  = map (fun num => Z.max 1 (num * m / 100)) size_percent.
Proof.
  intros Hm. apply map_ext_in. intros num Hin. apply size_nonpos; [|exact Hm].
  cbn in Hin. destruct Hin as [<-|[<-|[<-|[<-|[]]]]]; lia.
Qed.

(** The band rectangles of the frame the original [paintEvent] paints,
    for a state the setters maintain. *)
Lemma bloom_band_rects s :
  parameters_ok s -> qt_int (width s) -> qt_int (height s) ->
  let t := RinglightOriginal.capped_thickness (thickness s) (width s) (height s) in
  1 <= t < 2 ^ 31 /\
  fst (RinglightOriginal.paintEvent s) = Py.Done tt /\
  map band_rect (frame (snd (RinglightOriginal.paintEvent s)))
  = flat_map (band_rects (width s) (height s))
             (map (fun num => Z.max 1 (num * t / 100)) size_percent).
Proof.
  intros Hok Hw Hh t.
  assert (Ht : 1 <= t < 2 ^ 31).
  { unfold t. rewrite capped_thickness_eq. destruct Hok as (Hth & _).
    unfold qt_int in *. lia. }
  split; [exact Ht|].
  pose proof (bloom_layers_computed s Hok Hw Hh) as Hall.
  assert (Hall' : forall l, In l RinglightOriginal.layers ->
            exists z a,
              RinglightOriginal.layer_size
                (RinglightOriginal.capped_thickness (thickness s) (width s) (height s))
                (snd l) = Py.Done z /\
              RinglightOriginal.layer_alpha (brightness s) (fst l) = Py.Done a).
  { intros l Hl. destruct (Hall l Hl) as (z & n & Hz & _ & _ & Ha). eauto. }
  rewrite (original_paintEvent_bands s Hall').
  split; [reflexivity|].
  unfold frame. cbn [snd painter Qt.fills].
  destruct (bloom_frame_rects (width s) (height s) _ (brightness s) (color s) _ Hall)
    as (sizes & HF & Hmap).
  fold t in HF, Hmap |- *. rewrite Hmap, (bloom_sizes t sizes Ht HF). reflexivity.
Qed.


(** ** Rounded frame ([ringlight.py]) *)

(** C1 (counterexample).  On a 21 x 21 surface the frame is painted with
    effective thickness 1, above [min(width, height) / 2 - margin = 0],
    and its inner rectangle has width and height -1. *)
Lemma rounded_frame_inverts_on_21px_surface :
  let s := Ringlight.init 21 21 in
  0 < width s /\ 0 < height s /\
  frame (snd (Ringlight.paintEvent s))
  = [Qt.FillFrame (Qt.mkQRect 10 10 1 1) 20 (Qt.mkQRect 11 11 (-1) (-1)) 19
                  (Qt.rgb 255 255 255)] /\
  ~ (Ringlight.effective_thickness (thickness s) (width s) (height s)
     <= Z.min (width s) (height s) / 2 - Ringlight.SCREEN_MARGIN /\
     0 <= Qt.rw (Ringlight.inner_rect (thickness s) (width s) (height s)) /\
     0 <= Qt.rh (Ringlight.inner_rect (thickness s) (width s) (height s))).
Proof.
  cbv zeta. split; [cbn; lia|]. split; [cbn; lia|]. split; [vm_compute; reflexivity|].
  vm_compute. intros (H & _). apply H. reflexivity.
Qed.

(** C1 (amended).  In ROUNDED_FRAME rendering the effective thickness is
    [min(thickness, max(1, min(width, height) // 2 - 10))]; on every
    surface whose smaller dimension is at least 22 it is at most
    [min(width, height) // 2 - 10], for every stored thickness, and the
    inner rectangle of the painted frame has non-negative width and
    height. *)
Theorem rounded_frame_inner_rect_not_inverted s :
  brightness_ok s -> 22 <= width s -> 22 <= height s ->
  let w := width s in
  let h := height s in
  let t := Ringlight.effective_thickness (thickness s) w h in
  t = Z.min (thickness s) (Z.max 1 (Z.min w h / 2 - 10)) /\
  t <= Z.min w h / 2 - 10 /\
  2 * t <= Z.min w h - 2 * 10 /\
  (exists a,
     frame (snd (Ringlight.paintEvent s))
     = [Qt.FillFrame (Qt.mkQRect 10 10 (w - 2 * 10) (h - 2 * 10)) 20
          (Qt.mkQRect (10 + t) (10 + t) (w - 2 * (10 + t)) (h - 2 * (10 + t)))
          (Z.max 0 (20 - t)) (Qt.setAlpha (color s) a)]) /\
  0 <= w - 2 * (10 + t) /\ 0 <= h - 2 * (10 + t).
Proof.
  intros Hb Hw Hh w h t.
  assert (Ht : t = Z.min (thickness s) (Z.max 1 (Z.min w h / 2 - 10))).
  { unfold t, Ringlight.effective_thickness, Ringlight.max_thickness,
      Ringlight.MIN_THICKNESS, Ringlight.SCREEN_MARGIN.
    rewrite !imin_eq, imax_eq. reflexivity. }
  assert (Hdiv : 11 <= Z.min w h / 2) by (apply Z.div_le_lower_bound; lia).
  assert (Hhalf : 2 * (Z.min w h / 2) <= Z.min w h)
    by (apply Z.mul_div_le; lia).
  split; [exact Ht|]. split; [lia|]. split; [lia|]. split; [|lia].
  destruct (brightness_paints s Hb) as (n & _ & _ & Ha & _).
  exists (Z.max 0 (Z.min 255 n)).
  rewrite (paintEvent_frame s _ ltac:(lia) ltac:(lia) Ha).
  unfold frame. cbn [snd painter Qt.fills].
  unfold Ringlight.outer_rect, Ringlight.inner_rect, Ringlight.inner_radius,
    Ringlight.OUTER_CORNER_RADIUS, Ringlight.SCREEN_MARGIN.
  rewrite imax_eq. reflexivity.
Qed.

Lemma rounded_frame_inner_rect_not_inverted_witness :
  let s := Ringlight.init 200 200 in
  brightness_ok s /\ 22 <= width s /\ 22 <= height s /\
  Ringlight.effective_thickness (thickness s) (width s) (height s) = 90 /\
  Ringlight.effective_thickness (thickness s) (width s) (height s)
  <= Z.min (width s) (height s) / 2 - 10.
Proof.
  cbv zeta.
  assert (Hb : brightness_ok (Ringlight.init 200 200)) by apply init_ok.
  assert (Hw : 22 <= width (Ringlight.init 200 200)) by (cbn; lia).
  assert (Hh : 22 <= height (Ringlight.init 200 200)) by (cbn; lia).
  split; [exact Hb|]. split; [exact Hw|]. split; [exact Hh|].
  split; [reflexivity|].
  exact (proj1 (proj2 (rounded_frame_inner_rect_not_inverted
                         (Ringlight.init 200 200) Hb Hw Hh))).
Defined.

(** C2 (counterexample).  At 3% brightness the painted alpha is 7, where
    [clamp(round(255 * b), 0, 255)] is 8. *)
Lemma fill_alpha_truncates_at_3_percent :
  let s := snd (Ringlight.set_brightness_percent (PyInt 3) (Ringlight.init 1920 1080)) in
  brightness s = Py.decimal 3 100 /\
  brightness_ok s /\
  frame_alpha (snd (Ringlight.paintEvent s)) = Some 7 /\
  spec_fill_alpha (brightness s) = Py.Done 8 /\
  Ringlight.fill_alpha (brightness s) <> spec_fill_alpha (brightness s).
Proof.
  cbv zeta. split; [vm_compute; reflexivity|].
  split; [repeat split; vm_compute; reflexivity|].
  split; [vm_compute; reflexivity|]. split; [vm_compute; reflexivity|].
  vm_compute. discriminate.
Qed.

(** C2 (amended).  In ROUNDED_FRAME rendering, for every stored brightness
    [b] between 0.0 and 2.0 the fill alpha is
    [clamp(int(255 * b), 0, 255)], with [int] truncating towards zero; it
    lies in [0, 255], and for every [b >= 1.0] it is exactly 255. *)
Theorem fill_alpha_clamped_truncation s :
  brightness_ok s -> 0 < width s -> 0 < height s ->
  exists x n,
    int_mul_float 255 (brightness s) = Py.Done x /\
    Py.int_of_float x = Py.Done n /\
    frame_alpha (snd (Ringlight.paintEvent s)) = Some (Z.max 0 (Z.min 255 n)) /\
    0 <= Z.max 0 (Z.min 255 n) <= 255 /\
    (Py.fle (Py.round_int 1) (brightness s) = true ->
     frame_alpha (snd (Ringlight.paintEvent s)) = Some 255).
Proof.
  intros Hb Hw Hh.
  destruct (brightness_paints s Hb) as (n & Hn & Hn0 & Ha & H1).
  exists (Py.fmul f255 (brightness s)), n.
  rewrite (paintEvent_frame s _ Hw Hh Ha).
  unfold frame_alpha, frame. cbn [snd painter Qt.fills].
  rewrite setAlpha_alpha by lia.
  split; [reflexivity|]. split; [exact Hn|]. split; [reflexivity|]. split; [lia|].
  rewrite literal_one. intros Hge. specialize (H1 Hge). f_equal. lia.
Qed.

Lemma fill_alpha_clamped_truncation_witness :
  let s := snd (Ringlight.set_brightness_percent (PyInt 150) (Ringlight.init 1920 1080)) in
  brightness_ok s /\ 0 < width s /\ 0 < height s /\
  Py.fle (Py.round_int 1) (brightness s) = true /\
  frame_alpha (snd (Ringlight.paintEvent s)) = Some 255.
Proof.
  cbv zeta.
  set (s := snd (Ringlight.set_brightness_percent (PyInt 150) (Ringlight.init 1920 1080))).
  assert (Hb : brightness_ok s) by (repeat split; vm_compute; reflexivity).
  assert (Hw : 0 < width s) by (vm_compute; reflexivity).
  assert (Hh : 0 < height s) by (vm_compute; reflexivity).
  assert (H1 : Py.fle (Py.round_int 1) (brightness s) = true) by (vm_compute; reflexivity).
  split; [exact Hb|]. split; [exact Hw|]. split; [exact Hh|]. split; [exact H1|].
  destruct (fill_alpha_clamped_truncation s Hb Hw Hh) as (x & n & _ & _ & _ & _ & H255).
  exact (H255 H1).
Defined.

(** C9.  In ROUNDED_FRAME rendering the painted inner radius is
    [max(0, 20 - effective_thickness)]: with the surface and the other
    parameters fixed it does not increase when the stored thickness grows,
    and it is 0 as soon as the effective thickness is at least 20. *)
Theorem inner_radius_monotone s t1 t2 :
  brightness_ok s -> 0 < width s -> 0 < height s -> t1 <= t2 ->
  let e1 := Ringlight.effective_thickness t1 (width s) (height s) in
  let e2 := Ringlight.effective_thickness t2 (width s) (height s) in
  exists r1 r2,
    frame_inner_radius (snd (Ringlight.paintEvent (with_thickness t1 s))) = Some r1 /\
    frame_inner_radius (snd (Ringlight.paintEvent (with_thickness t2 s))) = Some r2 /\
    r1 = Z.max 0 (Ringlight.OUTER_CORNER_RADIUS - e1) /\
    r2 = Z.max 0 (Ringlight.OUTER_CORNER_RADIUS - e2) /\
    e1 <= e2 /\ r2 <= r1 /\
    (20 <= e1 -> r1 = 0) /\ (20 <= e2 -> r2 = 0).
Proof.
  intros Hb Hw Hh Ht e1 e2.
  destruct (brightness_paints s Hb) as (n & _ & _ & Ha & _).
  exists (Ringlight.inner_radius t1 (width s) (height s)),
         (Ringlight.inner_radius t2 (width s) (height s)).
  rewrite (paintEvent_frame (with_thickness t1 s) _ Hw Hh Ha).
  rewrite (paintEvent_frame (with_thickness t2 s) _ Hw Hh Ha).
  unfold frame_inner_radius, frame. cbn [snd painter Qt.fills with_thickness thickness width height].
  unfold Ringlight.inner_radius. rewrite !imax_eq. fold e1 e2.
  assert (He : e1 <= e2).
  { unfold e1, e2, Ringlight.effective_thickness. rewrite !imin_eq. lia. }
  unfold Ringlight.OUTER_CORNER_RADIUS. repeat split; lia.
Qed.

Lemma inner_radius_monotone_witness :
  let s := Ringlight.init 1920 1080 in
  brightness_ok s /\ 0 < width s /\ 0 < height s /\ 5 <= 220 /\
  frame_inner_radius (snd (Ringlight.paintEvent (with_thickness 5 s))) = Some 15 /\
  frame_inner_radius (snd (Ringlight.paintEvent (with_thickness 220 s))) = Some 0 /\
  exists r1 r2,
    frame_inner_radius (snd (Ringlight.paintEvent (with_thickness 5 s))) = Some r1 /\
    frame_inner_radius (snd (Ringlight.paintEvent (with_thickness 220 s))) = Some r2 /\
    r2 <= r1.
Proof.
  cbv zeta.
  assert (Hb : brightness_ok (Ringlight.init 1920 1080)) by apply init_ok.
  assert (Hw : 0 < width (Ringlight.init 1920 1080)) by (cbn; lia).
  assert (Hh : 0 < height (Ringlight.init 1920 1080)) by (cbn; lia).
  assert (Ht : 5 <= 220) by lia.
  split; [exact Hb|]. split; [exact Hw|]. split; [exact Hh|]. split; [exact Ht|].
  split; [vm_compute; reflexivity|]. split; [vm_compute; reflexivity|].
  destruct (inner_radius_monotone (Ringlight.init 1920 1080) 5 220 Hb Hw Hh Ht)
    as (r1 & r2 & H1 & H2 & _ & _ & _ & Hle & _).
  exists r1, r2. auto.
Defined.

(** ** The setters *)




(** C4 (the code at the failing input).  [float('-inf')] is numeric and
    below 1: [set_thickness] logs the warning that it is clamping to 1px,
    then [int(pixels)] raises [OverflowError] to the caller, and the
    thickness stays at 220 instead of becoming 1.  An [int] below 1 of
    more than 4300 decimal digits, such as [- 10 ** 4300], is not stored
    as 1 either: formatting it for the warning raises [ValueError] before
    anything is changed. *)
Lemma set_thickness_raises_on_negative_infinity :
  let px := PyFloat (S754_infinity true) in
  let s := Ringlight.init 1920 1080 in
  is_numeric px = true /\ num_lt_int px 1 = true /\
  fst (Ringlight.set_thickness px s) = Py.Raise Py.OverflowError /\
  logged (snd (Ringlight.set_thickness px s)) = [(WARNING, ThicknessBelowMinimum)] /\
  thickness (snd (Ringlight.set_thickness px s)) = 220 /\
  thickness (snd (Ringlight.set_thickness px s)) <> 1 /\
  Ringlight.set_thickness (PyInt (- Py.str_limit)) s = (Py.Raise Py.ValueError, s).
Proof.
  cbv zeta. repeat split; try (vm_compute; reflexivity).
  vm_compute. discriminate.
Qed.

(** C5 (the code at the failing input).  The integer [2 ** 1024] is
    numeric and outside [0, 200]: [set_brightness_percent] logs the
    warning that it is clamping, then [value / 100.0] raises
    [OverflowError] to the caller, and the brightness stays at 1.0 instead
    of becoming the clamp 2.0. *)
Lemma set_brightness_percent_rejects_huge_int :
  let v := PyInt (2 ^ 1024) in
  let s := Ringlight.init 1920 1080 in
  is_numeric v = true /\ percent_in_range v = false /\
  fst (Ringlight.set_brightness_percent v s) = Py.Raise Py.OverflowError /\
  logged (snd (Ringlight.set_brightness_percent v s))
  = [(WARNING, BrightnessOutOfRange)] /\
  brightness (snd (Ringlight.set_brightness_percent v s)) = Py.round_int 1 /\
  brightness (snd (Ringlight.set_brightness_percent v s)) <> Py.decimal 2 1.
Proof.
  cbv zeta. repeat split; try (vm_compute; reflexivity).
  vm_compute. discriminate.
Qed.

(** C7 (counterexample).  [set_color((255, 0, 0))] raises [ValueError] to
    its caller. *)
Lemma set_color_raises_on_tuple :
  Ringlight.set_color (PyTuple [255; 0; 0]) (Ringlight.init 1920 1080)
  = (Py.Raise Py.ValueError, Ringlight.init 1920 1080).
Proof. reflexivity. Qed.

(** C7 (amended).  A [None] or invalid colour passed to [set_color] is a
    warned no-op that leaves the stored colour unchanged, and a valid
    colour is stored.  The setters return normally on arguments of the
    documented types ([set_brightness_percent] on every float and every
    int that rounds to a float, which those below [2 ** 1024 - 2 ** 970]
    in absolute value do, [set_thickness] on every finite float and every
    int of at most 4300 decimal digits, [set_color] on [None] and every
    [QColor]); on an argument of another type each
    setter raises [ValueError] to its caller and changes nothing.  The
    ROUNDED_FRAME [paintEvent] returns normally for every state of the
    widget: what its body raises is logged. *)
Theorem setters_raise_only_by_design s :
  Ringlight.set_color PyNone s
  = (Py.Done tt,
     mkOverlay (thickness s) (brightness s) (color s) (width s) (height s)
               (logged s ++ [(WARNING, NoneColorIgnored)]) (updates s) (painter s)) /\
  (forall c, Qt.isValid c = false ->
     Ringlight.set_color (PyQColor c) s
     = (Py.Done tt,
        mkOverlay (thickness s) (brightness s) (color s) (width s) (height s)
                  (logged s ++ [(WARNING, InvalidColorIgnored)]) (updates s)
                  (painter s))) /\
  (forall c, Qt.isValid c = true ->
     fst (Ringlight.set_color (PyQColor c) s) = Py.Done tt /\
     color (snd (Ringlight.set_color (PyQColor c) s)) = c) /\
  (forall x, x <> PyNone -> (forall c, x <> PyQColor c) ->
     Ringlight.set_color x s = (Py.Raise Py.ValueError, s)) /\
  (forall x, is_numeric x = false ->
     Ringlight.set_brightness_percent x s = (Py.Raise Py.ValueError, s) /\
     Ringlight.set_thickness x s = (Py.Raise Py.ValueError, s)) /\
  (forall x, is_numeric x = true -> float_convertible x ->
     fst (Ringlight.set_brightness_percent x s) = Py.Done tt) /\
  (forall x, wf_pyobj x -> finite_number x = true -> printable x = true ->
     fst (Ringlight.set_thickness x s) = Py.Done tt) /\
  fst (Ringlight.paintEvent s) = Py.Done tt.
Proof.
  split; [reflexivity|].
  split; [intros c Hc; cbn [Ringlight.set_color]; rewrite Hc; reflexivity|].
  split; [intros c Hc; cbn [Ringlight.set_color]; rewrite Hc; split; reflexivity|].
  split.
  { intros x Hnone Hcol. destruct x as [|z|f|l|c]; try reflexivity.
    - contradiction.
    - exfalso. apply (Hcol c). reflexivity. }
  split.
  { intros x Hn. split.
    - apply set_brightness_percent_not_numeric, Hn.
    - apply set_thickness_not_numeric, Hn. }
  split.
  { intros x Hn Hc. destruct (truediv_convertible x Hn Hc) as (q & Hq).
    rewrite (set_brightness_percent_done x q s Hn Hq). reflexivity. }
  split.
  { intros x Hwf Hf Hp. destruct (finite_number_stored x Hwf Hf Hp) as (n & Hn & Hd).
    rewrite (set_thickness_done x n s (finite_number_numeric x Hf) Hn Hp Hd).
    reflexivity. }
  apply paintEvent_returns.
Qed.

(** ** Layered bloom ([ringlight_original.py]) *)

(** C6 (counterexample).  On a surface of width 0 and height 100 the
    original [paintEvent] returns normally but still paints its sixteen
    gradient bands; the left band of the base layer is the rectangle
    [QRect(0, 0, 1, 100)] at alpha 204. *)
Lemma original_paintEvent_paints_on_empty_surface :
  let s := RinglightOriginal.init 0 100 in
  fst (RinglightOriginal.paintEvent s) = Py.Done tt /\
  length (frame (snd (RinglightOriginal.paintEvent s))) = 16%nat /\
  nth_error (frame (snd (RinglightOriginal.paintEvent s))) 2
  = Some (Qt.FillRect (Qt.mkQRect 0 0 1 100)
            (Qt.mkGradient 0 0 1 0
               (Qt.mkQColor true 255 255 255 204)
               (Qt.mkQColor true 255 255 255 0))).
Proof. cbv zeta. repeat split; vm_compute; reflexivity. Qed.

(** The revised [paintEvent] has a guard: on a degenerate surface it
    paints nothing, logs a warning and returns. *)
Lemma revised_paintEvent_empty_on_degenerate_surface s :
  width s <= 0 \/ height s <= 0 ->
  fst (Ringlight.paintEvent s) = Py.Done tt /\
  frame (snd (Ringlight.paintEvent s)) = [] /\
  logged (snd (Ringlight.paintEvent s)) = logged s ++ [(WARNING, InvalidDimensions)].
Proof.
  intros Hd. rewrite (paintEvent_degenerate s Hd). repeat split.
Qed.

(** C6 (amended).  On a surface with [width <= 0] or [height <= 0]
    rendering raises no exception in either mode.  ROUNDED_FRAME produces
    an empty frame, for every state of the widget.  LAYERED_BLOOM has no
    dimension check: for every state the setters maintain it floors the
    thickness at 1 and issues its sixteen gradient bands, one pixel
    thick, along the four edges; the surface being empty, no band
    contains a pixel of it. *)
Theorem empty_surface_rendering s :
  width s <= 0 \/ height s <= 0 ->
  (fst (Ringlight.paintEvent s) = Py.Done tt /\
   frame (snd (Ringlight.paintEvent s)) = []) /\
  (parameters_ok s -> qt_int (width s) -> qt_int (height s) ->
   let bands := map band_rect (frame (snd (RinglightOriginal.paintEvent s))) in
   fst (RinglightOriginal.paintEvent s) = Py.Done tt /\
   bands = flat_map (band_rects (width s) (height s)) [1; 1; 1; 1] /\
   forall r x y,
     In (Some r) bands ->
     Qt.rx r <= x < Qt.rx r + Qt.rw r -> Qt.ry r <= y < Qt.ry r + Qt.rh r ->
     ~ (0 <= x < width s /\ 0 <= y < height s)).
Proof.
  intros Hd. split.
  - destruct (revised_paintEvent_empty_on_degenerate_surface s Hd) as (H1 & H2 & _).
    split; assumption.
  - intros Hok Hw Hh bands.
    destruct (bloom_band_rects s Hok Hw Hh) as (_ & Hdone & Hbands).
    fold bands in Hbands.
    assert (Ht : RinglightOriginal.capped_thickness (thickness s) (width s) (height s)
                 = 1).
    { rewrite capped_thickness_eq. destruct Hok as (Hth & _). lia. }
    rewrite Ht in Hbands.
    split; [exact Hdone|]. split; [exact Hbands|].
    intros r x y _ _ _ [Hx Hy]. lia.
Qed.

Lemma empty_surface_rendering_witness :
  let s := RinglightOriginal.init 0 100 in
  (width s <= 0 \/ height s <= 0) /\
  parameters_ok s /\ qt_int (width s) /\ qt_int (height s) /\
  frame (snd (Ringlight.paintEvent s)) = [] /\
  map band_rect (frame (snd (RinglightOriginal.paintEvent s)))
  = flat_map (band_rects 0 100) [1; 1; 1; 1].
Proof.
  cbv zeta.
  set (s := RinglightOriginal.init 0 100).
  assert (Hd : width s <= 0 \/ height s <= 0) by (left; vm_compute; discriminate).
  assert (Hok : parameters_ok s) by apply original_init_ok.
  assert (Hw : qt_int (width s)) by (vm_compute; split; [discriminate|reflexivity]).
  assert (Hh : qt_int (height s)) by (vm_compute; split; [discriminate|reflexivity]).
  split; [exact Hd|]. split; [exact Hok|]. split; [exact Hw|]. split; [exact Hh|].
  destruct (empty_surface_rendering s Hd) as ((_ & Hempty) & Hbloom).
  split; [exact Hempty|].
  destruct (Hbloom Hok Hw Hh) as (_ & Hbands & _). exact Hbands.
Defined.

(** C8 (counterexample).  With the defaults of the original file
    (brightness 0.80) the second and third layers are painted at alpha 142
    and 91, where [clamp(round(255 * brightness * intensity), 0, 220)] is
    143 and 92. *)
Lemma layer_alpha_truncates_at_defaults :
  let s := RinglightOriginal.init 1920 1080 in
  map band_alpha (frame (snd (RinglightOriginal.paintEvent s)))
  = flat_map (fun a => [Some a; Some a; Some a; Some a]) [204; 142; 91; 51] /\
  map (fun l => spec_layer_alpha (brightness s) (fst l)) RinglightOriginal.layers
  = [Py.Done 204; Py.Done 143; Py.Done 92; Py.Done 51] /\
  map (fun l => RinglightOriginal.layer_alpha (brightness s) (fst l))
      RinglightOriginal.layers
  <> map (fun l => spec_layer_alpha (brightness s) (fst l)) RinglightOriginal.layers.
Proof.
  cbv zeta. split; [vm_compute; reflexivity|]. split; [vm_compute; reflexivity|].
  vm_compute. discriminate.
Qed.

(** C8 (amended).  In LAYERED_BLOOM rendering every layer's alpha is
    [clamp(int(255 * brightness * intensity), 0, 220)] for its table
    intensity, with [int] truncating towards zero; it lies in [0, 220],
    all four bands of a layer carry it, and with brightness 2.0 the base
    layer (intensity 1.0) is painted at exactly 220. *)
Theorem layer_alpha_clamped_truncation s :
  parameters_ok s -> qt_int (width s) -> qt_int (height s) ->
  fst (RinglightOriginal.paintEvent s) = Py.Done tt /\
  exists alphas,
    Forall2 (fun l a =>
               RinglightOriginal.layer_alpha (brightness s) (fst l) = Py.Done a /\
               exists x n,
                 int_mul_float 255 (brightness s) = Py.Done x /\
                 Py.int_of_float (Py.fmul x (fst l)) = Py.Done n /\
                 a = Z.max 0 (Z.min 220 n) /\ 0 <= a <= 220)
            RinglightOriginal.layers alphas /\
    map band_alpha (frame (snd (RinglightOriginal.paintEvent s)))
    = flat_map (fun a => [Some a; Some a; Some a; Some a]) alphas /\
    (brightness s = Py.decimal 2 1 -> hd_error alphas = Some 220).
Proof.
  intros Hok Hw Hh.
  pose proof (bloom_layers_computed s Hok Hw Hh) as Hall.
  assert (Hall' : forall l, In l RinglightOriginal.layers ->
            exists z a,
              RinglightOriginal.layer_size
                (RinglightOriginal.capped_thickness (thickness s) (width s) (height s))
                (snd l) = Py.Done z /\
              RinglightOriginal.layer_alpha (brightness s) (fst l) = Py.Done a).
  { intros l Hl. destruct (Hall l Hl) as (z & n & Hz & _ & _ & Ha). eauto. }
  rewrite (original_paintEvent_bands s Hall').
  split; [reflexivity|].
  unfold frame. cbn [snd painter Qt.fills].
  destruct (bloom_frame_alphas (width s) (height s) _ (brightness s) (color s) _ Hall)
    as (alphas & HF & Hmap).
  exists alphas. split; [exact HF|]. split; [exact Hmap|].
  intros Hb2. rewrite layers_eq in HF.
  inversion HF as [|l a ls als (Ha & _) HF' Hl]; subst.
  cbn [fst] in Ha. rewrite Hb2 in Ha. vm_compute in Ha. injection Ha as <-.
  reflexivity.
Qed.

Lemma layer_alpha_clamped_truncation_witness :
  let s := snd (RinglightOriginal.set_brightness_percent (PyInt 200)
                  (RinglightOriginal.init 1920 1080)) in
  parameters_ok s /\ qt_int (width s) /\ qt_int (height s) /\
  brightness s = Py.decimal 2 1 /\
  exists alphas,
    map band_alpha (frame (snd (RinglightOriginal.paintEvent s)))
    = flat_map (fun a => [Some a; Some a; Some a; Some a]) alphas /\
    hd_error alphas = Some 220.
Proof.
  cbv zeta.
  set (s := snd (RinglightOriginal.set_brightness_percent (PyInt 200)
                   (RinglightOriginal.init 1920 1080))).
  assert (Hok : parameters_ok s).
  { apply (original_call_preserves (SetBrightnessPercent (PyInt 200)));
      [exact I|apply original_init_ok]. }
  assert (Hw : qt_int (width s)) by (vm_compute; split; [discriminate|reflexivity]).
  assert (Hh : qt_int (height s)) by (vm_compute; split; [discriminate|reflexivity]).
  assert (Hb : brightness s = Py.decimal 2 1) by (vm_compute; reflexivity).
  split; [exact Hok|]. split; [exact Hw|]. split; [exact Hh|]. split; [exact Hb|].
  destruct (layer_alpha_clamped_truncation s Hok Hw Hh) as (_ & alphas & _ & Hmap & H220).
  exists alphas. split; [exact Hmap|exact (H220 Hb)].
Defined.

(** C10.  In the LAYERED_BLOOM renderer the thickness used for layer
    sizing is [t = min(thickness, max(1, min(width, height)))], whatever
    the stored thickness, and the band size of the layer with multiplier
    [num / 100] is [max(1, num * t // 100)], which is what
    [max(1, int(t * size_multiplier))] comes to.  When the stored
    thickness is at least the smaller surface dimension, [t] is that
    dimension (not half of it less a margin), every layer's band size is
    [max(1, int(min(width, height) * size_multiplier))], and on a
    non-degenerate surface the base layer's bands are as thick as the
    whole smaller dimension, so the two opposing bands across it each
    cover the entire surface. *)
Theorem bloom_thickness_capped_at_smaller_dimension s :
  parameters_ok s -> qt_int (width s) -> qt_int (height s) ->
  let w := width s in
  let h := height s in
  let m := Z.min w h in
  let t := RinglightOriginal.capped_thickness (thickness s) w h in
  let bands := map band_rect (frame (snd (RinglightOriginal.paintEvent s))) in
  t = Z.min (thickness s) (Z.max 1 m) /\
  fst (RinglightOriginal.paintEvent s) = Py.Done tt /\
  bands = flat_map (band_rects w h)
                   (map (fun num => Z.max 1 (num * t / 100)) size_percent) /\
  Forall2 (fun l num => snd l = Py.decimal num 100 /\
                        RinglightOriginal.layer_size t (snd l)
                        = Py.Done (Z.max 1 (num * t / 100)))
          RinglightOriginal.layers size_percent /\
  (m <= thickness s ->
   t = Z.max 1 m /\
   Forall2 (fun l num => RinglightOriginal.layer_size m (snd l)
                         = Py.Done (Z.max 1 (num * m / 100)))
           RinglightOriginal.layers size_percent /\
   bands = flat_map (band_rects w h)
                    (map (fun num => Z.max 1 (num * m / 100)) size_percent) /\
   (1 <= m ->
    (h <= w ->
     nth_error bands 0 = Some (Some (Qt.mkQRect 0 0 w h)) /\
     nth_error bands 1 = Some (Some (Qt.mkQRect 0 0 w h))) /\
    (w <= h ->
     nth_error bands 2 = Some (Some (Qt.mkQRect 0 0 w h)) /\
     nth_error bands 3 = Some (Some (Qt.mkQRect 0 0 w h))))).
Proof.
  intros Hok Hw Hh w h m t bands.
  destruct (bloom_band_rects s Hok Hw Hh) as (Ht & Hdone & Hbands).
  fold w h t bands in Ht, Hbands.
  assert (Hcap : t = Z.min (thickness s) (Z.max 1 m))
    by (unfold t; apply capped_thickness_eq).
  assert (Hsizes : forall t', 1 <= t' < 2 ^ 31 ->
            Forall2 (fun l num => snd l = Py.decimal num 100 /\
                                  RinglightOriginal.layer_size t' (snd l)
                                  = Py.Done (Z.max 1 (num * t' / 100)))
                    RinglightOriginal.layers size_percent).
  { intros t' Ht'.
    pose proof (fun l num => layer_size_percent t' l num Ht') as Hall.
    unfold RinglightOriginal.layers, size_percent in *. cbn [combine In] in Hall.
    repeat constructor; try reflexivity; apply Hall; auto 6. }
  split; [exact Hcap|]. split; [exact Hdone|]. split; [exact Hbands|].
  split; [apply Hsizes; exact Ht|].
  intros Hthick.
  assert (Htm : t = Z.max 1 m) by (destruct Hok as (Hth & _); lia).
  split; [exact Htm|].
  assert (Hm31 : m < 2 ^ 31) by (unfold m, w, h, qt_int in *; lia).
  destruct (Z_le_gt_dec 1 m) as [Hm|Hm].
  - (* the dimension itself *)
    assert (Heq : t = m) by lia. rewrite Heq in *.
    split; [refine (Forall2_weaken _ _ _ _ _ (Hsizes m Ht)); intros l num _ [_ Hz];
            exact Hz|].
    split; [exact Hbands|].
    intros _. rewrite Hbands. cbn [size_percent map flat_map band_rects app nth_error].
    replace (100 * m / 100) with m by (rewrite Z.mul_comm, Z.div_mul; lia).
    replace (Z.max 1 m) with m by lia.
    split; intros Hle.
    + replace m with h by (unfold m; lia). replace (h - h) with 0 by lia. auto.
    + replace m with w by (unfold m; lia). replace (w - w) with 0 by lia. auto.
  - (* a degenerate surface: the floor 1 *)
    assert (Heq : t = 1) by lia. rewrite Heq in *.
    assert (Hm' : - 2 ^ 31 <= m <= 0) by (unfold m, w, h, qt_int in *; lia).
    split; [|split; [rewrite Hbands, (sizes_nonpos m) by lia; reflexivity|lia]].
    pose proof (Hsizes 1 Ht) as HF.
    unfold RinglightOriginal.layers, size_percent in HF |- *.
    inversion HF as [|l1 n1 ls1 ns1 (_ & H1) HF1]; subst.
    inversion HF1 as [|l2 n2 ls2 ns2 (_ & H2) HF2]; subst.
    inversion HF2 as [|l3 n3 ls3 ns3 (_ & H3) HF3]; subst.
    inversion HF3 as [|l4 n4 ls4 ns4 (_ & H4) HF4]; subst.
    assert (Hdeg : forall l, In l RinglightOriginal.layers ->
              RinglightOriginal.layer_size 1 (snd l)
              = RinglightOriginal.layer_size m (snd l))
      by (intros l Hl; apply layer_size_degenerate; assumption).
    unfold RinglightOriginal.layers in Hdeg. cbn [In] in Hdeg.
    repeat constructor.
    + rewrite <- Hdeg, H1 by auto. f_equal. apply size_nonpos; lia.
    + rewrite <- Hdeg, H2 by auto. f_equal. apply size_nonpos; lia.
    + rewrite <- Hdeg, H3 by auto. f_equal. apply size_nonpos; lia.
    + rewrite <- Hdeg, H4 by auto 6. f_equal. apply size_nonpos; lia.
Qed.

Lemma bloom_thickness_capped_at_smaller_dimension_witness :
  let s := RinglightOriginal.init 300 200 in
  parameters_ok s /\ qt_int (width s) /\ qt_int (height s) /\
  Z.min (width s) (height s) <= thickness s /\
  RinglightOriginal.capped_thickness (thickness s) (width s) (height s) = 200 /\
  Ringlight.effective_thickness (thickness s) (width s) (height s) = 90 /\
  map band_rect (frame (snd (RinglightOriginal.paintEvent s)))
  = flat_map (band_rects 300 200) [200; 150; 110; 80] /\
  nth_error (map band_rect (frame (snd (RinglightOriginal.paintEvent s)))) 0
  = Some (Some (Qt.mkQRect 0 0 300 200)) /\
  nth_error (map band_rect (frame (snd (RinglightOriginal.paintEvent s)))) 1
  = Some (Some (Qt.mkQRect 0 0 300 200)).
Proof.
  cbv zeta.
  set (s := RinglightOriginal.init 300 200).
  assert (Hok : parameters_ok s) by apply original_init_ok.
  assert (Hw : qt_int (width s)) by (vm_compute; split; [discriminate|reflexivity]).
  assert (Hh : qt_int (height s)) by (vm_compute; split; [discriminate|reflexivity]).
  assert (Ht : Z.min (width s) (height s) <= thickness s) by (vm_compute; discriminate).
  split; [exact Hok|]. split; [exact Hw|]. split; [exact Hh|]. split; [exact Ht|].
  split; [reflexivity|]. split; [reflexivity|].
  destruct (bloom_thickness_capped_at_smaller_dimension s Hok Hw Hh)
    as (_ & _ & _ & _ & Hcapped).
  destruct (Hcapped Ht) as (_ & _ & Hbands & Hbase).
  split; [exact Hbands|].
  destruct (Hbase ltac:(vm_compute; discriminate)) as (Hwide & _).
  exact (Hwide ltac:(vm_compute; discriminate)).
Defined.

(** * Further properties of the overlay *)

(** An integer bound above the exact value stays above the rounded
    one. *)
Lemma binary_round_aux_upper s mz ez c s' m e :
  0 <= mz -> 0 <= c -> ez <= 0 -> e <= 0 ->
  mz <= c * 2 ^ (- ez) ->
  binary_round_aux Py.prec Py.emax s mz ez loc_Exact = S754_finite s' m e ->
  Zpos m <= c * 2 ^ (- e).
Proof.
  intros Hmz Hc Hez He Hup Hr.
  destruct (binary_round_aux_spec s mz ez loc_Exact Hmz) as (m1 & Hm1 & Hex & Heq).
  rewrite Heq in Hr. apply finish_finite in Hr.
  destruct Hr as (_ & He2 & Hm & _).
  set (e1 := Z.max ez (fexp (Zdigits2 mz + ez))) in *.
  assert (Hee : ez <= e1 <= e) by (unfold e1 in *; lia).
  pose proof (pow2_pos (e1 - ez) ltac:(lia)) as Hp1.
  pose proof (pow2_pos (e - e1) ltac:(lia)) as Hp2.
  pose proof (pow2_pos (- e) ltac:(lia)) as Hp3.
  assert (Hs1 : 2 ^ (- ez) = 2 ^ (- e1) * 2 ^ (e1 - ez))
    by (rewrite <- Z.pow_add_r by lia; f_equal; lia).
  assert (Hs2 : 2 ^ (- e1) = 2 ^ (- e) * 2 ^ (e - e1))
    by (rewrite <- Z.pow_add_r by lia; f_equal; lia).
  assert (Hm1le : m1 <= c * 2 ^ (- e1)).
  { pose proof (Z.div_mod mz (2 ^ (e1 - ez)) ltac:(lia)) as Hdm.
    pose proof (Z.mod_pos_bound mz (2 ^ (e1 - ez)) Hp1) as Hmod.
    destruct (Z.eq_dec (mz mod 2 ^ (e1 - ez)) 0) as [H0|Hn0].
    - rewrite (Hex eq_refl H0).
      apply Z.div_le_upper_bound; [lia|]. rewrite Hs1 in Hup. lia.
    - assert (mz / 2 ^ (e1 - ez) < c * 2 ^ (- e1)); [|lia].
      rewrite Hs1 in Hup. nia. }
  rewrite Hm. apply Z.div_le_upper_bound; [lia|]. rewrite Hs2 in Hm1le. lia.
Qed.

(** [size = max(1, int(t * mul))] for a multiplier that is at most
    [1.0]: between 1 and [t]. *)
Lemma layer_size_le t mm em :
  1 <= t < 2 ^ 52 -> Zpos mm < 2 ^ 53 -> em <= 0 -> Zpos mm <= 2 ^ (- em) ->
  exists z,
    RinglightOriginal.layer_size t (S754_finite false mm em) = Py.Done z /\
    1 <= z <= t.
Proof.
  intros Ht Hmm Hem Hle. destruct t as [|p|p]; try lia.
  destruct (float_of_int_small p ltac:(change (2 ^ 52) with 4503599627370496 in Ht;
                                        change (2 ^ 53) with 9007199254740992; lia))
    as (m & Hf & Hmeq & Hm & He).
  unfold RinglightOriginal.layer_size, int_mul_float. rewrite Hf.
  set (d := Zdigits2 (Z.pos p)) in *.
  destruct (fmul_no_overflow false m (d - 53) false mm em
              ltac:(lia) Hmm ltac:(lia)) as [Hz|(m' & e' & Hfin & _ & _)].
  - rewrite Hz. cbn [Py.int_of_float]. eexists. split; [reflexivity|].
    rewrite imax_eq. lia.
  - rewrite Hfin, int_of_float_finite. eexists. split; [reflexivity|].
    rewrite imax_eq. cbn [xorb]. cbv zeta.
    rewrite fmul_finite in Hfin. cbn [xorb] in Hfin.
    pose proof (pow2_pos (53 - d) ltac:(lia)) as Hp1.
    pose proof (pow2_pos (- em) ltac:(lia)) as Hp2.
    assert (Hs : 2 ^ (- (d - 53 + em)) = 2 ^ (53 - d) * 2 ^ (- em))
      by (rewrite <- Z.pow_add_r by lia; f_equal; lia).
    assert (Hup : Z.pos m * Z.pos mm <= Z.pos p * 2 ^ (- (d - 53 + em))).
    { rewrite Hs, Hmeq. nia. }
    assert (He' : e' <= 0).
    { assert (Hpos : 0 <= Z.pos m * Z.pos mm) by nia.
      pose proof (binary_round_aux_exponent _ _ _ _ _ _ _ Hpos Hfin) as (_ & Hb).
      assert (Hd : Zdigits2 (Z.pos m * Z.pos mm) <= 52 - (d - 53 + em)).
      { apply Zdigits2_le_iff; [nia|lia|].
        replace (52 - (d - 53 + em)) with (52 + - (d - 53 + em)) by lia.
        rewrite Z.pow_add_r by lia.
        pose proof (pow2_pos (- (d - 53 + em)) ltac:(lia)). nia. }
      lia. }
    assert (Hpos : 0 <= Z.pos m * Z.pos mm) by nia.
    assert (Hez : d - 53 + em <= 0) by lia.
    pose proof (binary_round_aux_upper _ _ _ (Z.pos p) _ _ _ Hpos ltac:(lia)
                  Hez He' Hup Hfin) as Hm'.
    pose proof (pow2_pos (- e') ltac:(lia)) as Hp3.
    destruct (Z.ltb_spec e' 0).
    + assert (Z.pos m' / 2 ^ (- e') <= Z.pos p)
        by (apply Z.div_le_upper_bound; lia).
      lia.
    + replace e' with 0 in * by lia. rewrite Z.pow_0_r in *. lia.
Qed.

(** No multiplier of the layer table is above [1.0]. *)
Lemma layers_at_most_one l :
  In l RinglightOriginal.layers ->
  exists mi ei mm em,
    l = (S754_finite false mi ei, S754_finite false mm em) /\
    Zpos mi < 2 ^ 53 /\ ei <= 0 /\ Zpos mm < 2 ^ 53 /\ em <= 0 /\
    Zpos mm <= 2 ^ (- em).
Proof.
  rewrite layers_eq. cbn [In].
  intros [<-|[<-|[<-|[<-|[]]]]]; do 4 eexists;
    (split; [reflexivity|]); repeat split; vm_compute; discriminate.
Qed.

Lemma bloom_layers_sized s :
  parameters_ok s -> 1 <= width s < 2 ^ 31 -> 1 <= height s < 2 ^ 31 ->
  let t := RinglightOriginal.capped_thickness (thickness s) (width s) (height s) in
  1 <= t <= Z.min (width s) (height s) /\
  forall l, In l RinglightOriginal.layers ->
  exists z a,
    RinglightOriginal.layer_size t (snd l) = Py.Done z /\ 1 <= z <= t /\
    RinglightOriginal.layer_alpha (brightness s) (fst l) = Py.Done a /\
    0 <= a <= 220.
Proof.
  intros (Ht & Hb & _) Hw Hh t.
  assert (Hcap : 1 <= t <= Z.min (width s) (height s)).
  { unfold t. rewrite capped_thickness_eq. lia. }
  split; [exact Hcap|]. intros l Hl.
  apply brightness_ok_literals in Hb. destruct Hb as (Hv & H0 & H2).
  destruct (layers_at_most_one l Hl)
    as (mi & ei & mm & em & -> & Hmi & Hei & Hmm & Hem & Hone).
  cbn [fst snd].
  assert (Ht52 : 1 <= t < 2 ^ 52).
  { change (2 ^ 31) with 2147483648 in *. change (2 ^ 52) with 4503599627370496. lia. }
  destruct (layer_size_le t mm em Ht52 Hmm Hem Hone) as (z & Hz & Hz1).
  destruct (layer_alpha_unit_range (brightness s) mi ei Hv H0 H2 Hmi Hei)
    as (n & _ & _ & Ha).
  exists z, (Z.max 0 (Z.min 220 n)). repeat split; try assumption; lia.
Qed.

Lemma edge_bands_inside w h z c tr :
  1 <= z <= Z.min w h ->
  Forall (inside_surface w h) (RinglightOriginal.edge_bands w h z c tr).
Proof.
  intros Hz. unfold RinglightOriginal.edge_bands.
  repeat constructor; cbn [Qt.rx Qt.ry Qt.rw Qt.rh]; lia.
Qed.

(** X1.  Layered bloom ([ringlight_original.py]): on a surface of positive
    size, for every state the setters maintain, [paintEvent] returns
    normally having painted sixteen gradient bands, and every band is a
    rectangle of positive width and height that lies inside the surface:
    no layer is thicker than the smaller dimension. *)
Theorem bloom_bands_inside_surface s :
  parameters_ok s -> 1 <= width s < 2 ^ 31 -> 1 <= height s < 2 ^ 31 ->
  fst (RinglightOriginal.paintEvent s) = Py.Done tt /\
  List.length (frame (snd (RinglightOriginal.paintEvent s))) = 16%nat /\
  Forall (inside_surface (width s) (height s))
         (frame (snd (RinglightOriginal.paintEvent s))).
Proof.
  intros Hok Hw Hh.
  destruct (bloom_layers_sized s Hok Hw Hh) as (Hcap & Hall).
  assert (Hall' : forall l, In l RinglightOriginal.layers ->
            exists z a,
              RinglightOriginal.layer_size
                (RinglightOriginal.capped_thickness (thickness s) (width s) (height s))
                (snd l) = Py.Done z /\
              RinglightOriginal.layer_alpha (brightness s) (fst l) = Py.Done a).
  { intros l Hl. destruct (Hall l Hl) as (z & a & Hz & _ & Ha & _). eauto. }
  rewrite (original_paintEvent_bands s Hall').
  unfold frame. cbn [fst snd painter Qt.fills].
  split; [reflexivity|].
  set (t := RinglightOriginal.capped_thickness (thickness s) (width s) (height s)) in *.
  assert (Hbands : forall ls, (forall l, In l ls -> In l RinglightOriginal.layers) ->
            List.length (flat_map (layer_bands (width s) (height s) t (brightness s)
                                     (color s)) ls)
            = (4 * List.length ls)%nat /\
            Forall (inside_surface (width s) (height s))
                   (flat_map (layer_bands (width s) (height s) t (brightness s)
                                (color s)) ls)).
  { induction ls as [|l ls IH]; intros Hin; [split; [reflexivity|constructor]|].
    destruct (Hall l (Hin l (or_introl eq_refl))) as (z & a & Hz & Hz1 & Ha & _).
    destruct IH as (IHlen & IHin); [intros l' Hl'; apply Hin; right; exact Hl'|].
    cbn [flat_map]. rewrite (layer_bands_done _ _ _ _ _ l z a Hz Ha).
    split.
    - rewrite length_app, IHlen. cbn [List.length RinglightOriginal.edge_bands]. lia.
    - apply Forall_app. split; [|exact IHin].
      apply edge_bands_inside. lia. }
  destruct (Hbands RinglightOriginal.layers (fun l H => H)) as (Hlen & Hin).
  split; [rewrite Hlen; reflexivity|exact Hin].
Qed.

Lemma bloom_bands_inside_surface_witness :
  let s := RinglightOriginal.init 1920 1080 in
  parameters_ok s /\ 1 <= width s < 2 ^ 31 /\ 1 <= height s < 2 ^ 31 /\
  Forall (inside_surface (width s) (height s))
         (frame (snd (RinglightOriginal.paintEvent s))).
Proof.
  cbv zeta.
  assert (Hok : parameters_ok (RinglightOriginal.init 1920 1080)) by apply original_init_ok.
  assert (Hw : 1 <= width (RinglightOriginal.init 1920 1080) < 2 ^ 31)
    by (vm_compute; split; [discriminate|reflexivity]).
  assert (Hh : 1 <= height (RinglightOriginal.init 1920 1080) < 2 ^ 31)
    by (vm_compute; split; [discriminate|reflexivity]).
  split; [exact Hok|]. split; [exact Hw|]. split; [exact Hh|].
  exact (proj2 (proj2 (bloom_bands_inside_surface _ Hok Hw Hh))).
Defined.

(** X2.  A NaN percentage is not rejected: NaN is numeric and compares false with
    every bound, so [set_brightness_percent(float('nan'))] logs the
    out-of-range warning and stores the maximum 2.0, which
    [min(2.0, nan)] returns; the frame is then painted at alpha 255.  The
    original setter stores 2.0 as well. *)
Theorem nan_percent_stores_full_brightness s :
  let v := PyFloat S754_nan in
  Ringlight.set_brightness_percent v s
  = (Py.Done tt,
     mkOverlay (thickness s) (Py.decimal 2 1) (color s) (width s) (height s)
               (logged s ++ [(WARNING, BrightnessOutOfRange); (DEBUG, BrightnessSet)])
               (S (updates s)) (painter s)) /\
  fst (RinglightOriginal.set_brightness_percent v s) = Py.Done tt /\
  brightness (snd (RinglightOriginal.set_brightness_percent v s)) = Py.decimal 2 1 /\
  (0 < width s -> 0 < height s ->
   frame_alpha (snd (Ringlight.paintEvent (snd (Ringlight.set_brightness_percent v s))))
   = Some 255).
Proof.
  cbv zeta.
  assert (Hq : truediv_float (PyFloat S754_nan) (Py.decimal 100 1) = Py.Done S754_nan)
    by reflexivity.
  assert (Heq : Ringlight.set_brightness_percent (PyFloat S754_nan) s
                = (Py.Done tt,
                   mkOverlay (thickness s) (Py.decimal 2 1) (color s) (width s) (height s)
                     (logged s ++ [(WARNING, BrightnessOutOfRange); (DEBUG, BrightnessSet)])
                     (S (updates s)) (painter s))).
  { rewrite (set_brightness_percent_done (PyFloat S754_nan) _ s eq_refl Hq). reflexivity. }
  rewrite Heq, (original_set_brightness_percent_done _ _ s Hq).
  cbn [fst snd brightness].
  split; [reflexivity|]. split; [reflexivity|]. split; [reflexivity|].
  intros Hw Hh.
  assert (Ha : Ringlight.fill_alpha (Py.decimal 2 1) = Py.Done 255)
    by (vm_compute; reflexivity).
  set (s' := mkOverlay (thickness s) (Py.decimal 2 1) (color s) (width s) (height s)
               (logged s ++ [(WARNING, BrightnessOutOfRange); (DEBUG, BrightnessSet)])
               (S (updates s)) (painter s)).
  rewrite (paintEvent_frame s' 255 Hw Hh Ha).
  unfold frame_alpha, frame. cbn [snd painter Qt.fills].
  rewrite setAlpha_alpha by lia. reflexivity.
Qed.

Lemma nan_percent_stores_full_brightness_witness :
  let s := snd (Ringlight.set_brightness_percent (PyFloat S754_nan)
                  (Ringlight.init 1920 1080)) in
  brightness s = Py.decimal 2 1 /\
  frame_alpha (snd (Ringlight.paintEvent s)) = Some 255.
Proof.
  cbv zeta.
  destruct (nan_percent_stores_full_brightness (Ringlight.init 1920 1080))
    as (Heq & _ & _ & Hpaint).
  split.
  - rewrite Heq. reflexivity.
  - apply Hpaint; cbn; lia.
Defined.

(** What [int(x)] gives for a binary64 number or a printable [int] can be
    formatted once it is stored. *)
Lemma py_int_stored v n :
  wf_pyobj v -> py_int v = Py.Done n -> printable v = true ->
  Py.str_digits_ok (Z.max 1 n) = true.
Proof.
  intros Hwf Hn Hp. apply str_digits_ok_max.
  destruct v as [|z|f|l|c]; try discriminate.
  - cbn [py_int] in Hn. injection Hn as <-. exact Hp.
  - cbn [py_int wf_pyobj] in *. eapply int_of_float_printable; eassumption.
Qed.

Ltac safe := repeat split; try discriminate; auto.

Lemma revised_set_thickness_safe x s :
  wf_pyobj x ->
  if overlong (SetThickness x)
  then stored_before_raising call_revised (SetThickness x) s
  else exception_safe call_revised (SetThickness x) s.
Proof.
  intros Hwf. unfold exception_safe, stored_before_raising.
  cbn [call_revised overlong]. cbv zeta.
  destruct (is_numeric x) eqn:Hn.
  - destruct (printable x) eqn:Hp.
    + assert (Ho : overlong (SetThickness x) = false).
      { destruct x; try reflexivity. cbn [overlong printable] in *.
        rewrite Hp. apply andb_false_r. }
      cbn [overlong] in Ho. rewrite Ho.
      destruct (py_int x) as [n|e'] eqn:Hi.
      * rewrite (set_thickness_done x n s Hn Hi Hp (py_int_stored x n Hwf Hi Hp)).
        cbn [fst snd updates width height painter]. safe.
      * rewrite (set_thickness_raise x e' s Hn Hi).
        cbn [fst snd updates width height painter thickness brightness color]. safe.
    + destruct x as [|z|f|l|c]; try discriminate. cbn [printable] in Hp.
      rewrite Hp. cbn [negb]. rewrite andb_true_r.
      destruct (Z.leb_spec 1 z) as [Hz|Hz].
      * exists z. split; [reflexivity|].
        apply set_thickness_unprintable_high; assumption.
      * rewrite (set_thickness_unprintable_low z s) by (assumption || lia).
        cbn [fst snd]. safe.
  - assert (Ho : overlong (SetThickness x) = false) by (destruct x; try reflexivity; discriminate).
    cbn [overlong] in Ho. rewrite Ho.
    rewrite (set_thickness_not_numeric x s Hn). cbn [fst snd]. safe.
Qed.

Lemma original_set_thickness_safe x s :
  wf_pyobj x -> is_numeric x = true ->
  if overlong (SetThickness x)
  then stored_before_raising call_original (SetThickness x) s
  else exception_safe call_original (SetThickness x) s.
Proof.
  intros Hwf Hn. unfold exception_safe, stored_before_raising.
  cbn [call_original overlong]. cbv zeta.
  destruct (py_int x) as [n|e'] eqn:Hi.
  - destruct (Py.str_digits_ok (Z.max 1 n)) eqn:Hd.
    + assert (Ho : overlong (SetThickness x) = false).
      { destruct x as [|z|f|l|c]; try reflexivity. cbn [py_int] in Hi.
        injection Hi as <-. cbn [overlong].
        destruct (Z.leb_spec 1 z) as [Hz|Hz]; [|reflexivity].
        replace (Z.max 1 z) with z in Hd by lia. rewrite Hd. reflexivity. }
      cbn [overlong] in Ho. rewrite Ho.
      rewrite (original_set_thickness_done x n s Hi Hd).
      cbn [fst snd updates width height painter]. safe.
    + destruct x as [|z|f|l|c]; try discriminate.
      * cbn [py_int] in Hi. injection Hi as <-.
        assert (Hz : 1 <= z).
        { destruct (Z_le_gt_dec 1 z); [assumption|].
          replace (Z.max 1 z) with 1 in Hd by lia.
          rewrite (str_digits_ok_small 1) in Hd by reflexivity. discriminate. }
        replace (Z.max 1 z) with z in Hd by lia. rewrite Hd. cbn [negb].
        destruct (Z.leb_spec 1 z); [|lia]. cbn [andb].
        exists z. split; [reflexivity|].
        rewrite (original_set_thickness_stored (PyInt z) z s eq_refl)
          by (replace (Z.max 1 z) with z by lia; exact Hd).
        replace (Z.max 1 z) with z by lia. reflexivity.
      * rewrite (py_int_stored (PyFloat f) n Hwf Hi eq_refl) in Hd. discriminate.
  - assert (Ho : overlong (SetThickness x) = false)
      by (destruct x; try reflexivity; discriminate).
    cbn [overlong] in Ho. rewrite Ho.
    rewrite (original_set_thickness_raise x e' s Hi). cbn [fst snd]. safe.
Qed.

(** X3.  A setter that raises has changed nothing, with one exception.
    For the setters of [ringlight.py], whatever the argument, and for
    those of [ringlight_original.py] on arguments of the documented
    types: a call that raises leaves thickness, brightness and colour as
    they were and requests no repaint, except [set_thickness] on an [int]
    of at least 1 with more than 4300 decimal digits, which stores the
    int and requests a repaint before its debug record fails to format
    and [ValueError] reaches the caller; a call that returns either
    requests exactly one repaint or (an ignored colour) changes no
    parameter and requests none.  No setter touches the size of the
    widget or its painter. *)
Theorem setters_are_exception_safe c s :
  wf_call c ->
  (if overlong c then stored_before_raising call_revised c s
   else exception_safe call_revised c s) /\
  (documented c ->
   if overlong c then stored_before_raising call_original c s
   else exception_safe call_original c s).
Proof.
  intros Hwf. destruct c as [x|x|x]; cbn [wf_call documented] in *.
  - split; [apply revised_set_thickness_safe; exact Hwf|].
    intros Hn. apply original_set_thickness_safe; assumption.
  - cbn [overlong]. unfold exception_safe. cbn [call_revised call_original]. cbv zeta.
    split.
    + destruct (is_numeric x) eqn:Hn.
      * destruct (truediv_float x (Py.decimal 100 1)) as [q|e'] eqn:Hq.
        -- rewrite (set_brightness_percent_done x q s Hn Hq).
           cbn [fst snd updates width height painter]. safe.
        -- destruct (printable x) eqn:Hp.
           ++ rewrite (set_brightness_percent_raise x e' s Hn Hq Hp).
              cbn [fst snd updates width height painter thickness brightness color].
              safe.
           ++ rewrite (set_brightness_percent_unprintable x s Hn Hp).
              cbn [fst snd]. safe.
      * rewrite (set_brightness_percent_not_numeric x s Hn). cbn [fst snd]. safe.
    + intros _.
      destruct (truediv_float x (Py.decimal 100 1)) as [q|e'] eqn:Hq.
      * rewrite (original_set_brightness_percent_done x q s Hq).
        cbn [fst snd updates width height painter]. safe.
      * rewrite (original_set_brightness_percent_raise x e' s Hq). cbn [fst snd]. safe.
  - cbn [overlong]. unfold exception_safe. cbn [call_revised call_original]. cbv zeta.
    split.
    + destruct x as [|z|f|l|col]; cbn [Ringlight.set_color];
        try (cbn; safe; fail).
      * unfold log, M.modify. cbn [fst snd updates width height painter].
        safe. right. repeat split.
      * destruct (Qt.isValid col); cbn [negb].
        -- run_monad. safe.
        -- run_monad. safe. right. repeat split.
    + intros [->|(col & ->)]; unfold RinglightOriginal.set_color;
        cbn [RinglightOriginal.truthy].
      * cbn. safe. right. repeat split.
      * destruct (Qt.isValid col).
        -- run_monad. safe.
        -- cbn. safe. right. repeat split.
Qed.

Lemma setters_are_exception_safe_witness :
  let c := SetThickness (PyInt Py.str_limit) in
  let s := Ringlight.init 1920 1080 in
  wf_call c /\ overlong c = true /\
  fst (call_revised c s) = Py.Raise Py.ValueError /\
  thickness (snd (call_revised c s)) = Py.str_limit /\
  updates (snd (call_revised c s)) = 1%nat.
Proof.
  cbv zeta.
  assert (Hwf : wf_call (SetThickness (PyInt Py.str_limit))) by exact I.
  assert (Ho : overlong (SetThickness (PyInt Py.str_limit)) = true)
    by (vm_compute; reflexivity).
  split; [exact Hwf|]. split; [exact Ho|].
  destruct (setters_are_exception_safe _ (Ringlight.init 1920 1080) Hwf) as (Hrev & _).
  rewrite Ho in Hrev. destruct Hrev as (z & Hz & ->). injection Hz as <-.
  repeat split.
Defined.

(** X4.  The rounded-frame [paintEvent] only paints.  For every state of
    the widget it leaves thickness, brightness, colour, size and the
    number of repaint requests as they were (so painting cannot trigger
    another paint), it ends its painter, which was set to the Screen
    composition mode with antialiasing, it fills at most one path, and
    painting again gives the same frame. *)
Theorem paintEvent_only_paints s :
  let s' := snd (Ringlight.paintEvent s) in
  same_parameters s s' /\ width s' = width s /\ height s' = height s /\
  updates s' = updates s /\
  Qt.active (painter s') = false /\ Qt.mode (painter s') = Qt.Screen /\
  Qt.antialiasing (painter s') = true /\
  (List.length (frame s') <= 1)%nat /\
  frame (snd (Ringlight.paintEvent s')) = frame s'.
Proof.
  cbv zeta. unfold same_parameters, frame.
  destruct (Z_le_gt_dec (width s) 0) as [Hw|Hw];
    [|destruct (Z_le_gt_dec (height s) 0) as [Hh|Hh]].
  - rewrite (paintEvent_degenerate s (or_introl Hw)). cbn [snd].
    rewrite paintEvent_degenerate by (left; exact Hw).
    cbn [snd thickness brightness color width height updates painter Qt.active
         Qt.mode Qt.antialiasing Qt.fills List.length].
    repeat split; lia.
  - rewrite (paintEvent_degenerate s (or_intror Hh)). cbn [snd].
    rewrite paintEvent_degenerate by (right; exact Hh).
    cbn [snd thickness brightness color width height updates painter Qt.active
         Qt.mode Qt.antialiasing Qt.fills List.length].
    repeat split; lia.
  - destruct (Ringlight.fill_alpha (brightness s)) as [a|e] eqn:Ha.
    + rewrite (paintEvent_frame s a ltac:(lia) ltac:(lia) Ha). cbn [snd].
      rewrite (paintEvent_frame _ a) by (cbn [width height brightness]; first [lia|exact Ha]).
      cbn [snd thickness brightness color width height updates painter Qt.active
           Qt.mode Qt.antialiasing Qt.fills List.length].
      repeat split; lia.
    + rewrite (paintEvent_error s e ltac:(lia) ltac:(lia) Ha). cbn [snd].
      rewrite (paintEvent_error _ e) by (cbn [width height brightness]; first [lia|exact Ha]).
      cbn [snd thickness brightness color width height updates painter Qt.active
           Qt.mode Qt.antialiasing Qt.fills List.length].
      repeat split; lia.
Qed.

(** X5.  On a number the revised setters store what the original ones
    store.  For every [float] and every [int] of at most 4300 decimal
    digits, NaN and the infinities included, [set_thickness] and
    [set_brightness_percent] of [ringlight.py] return or raise exactly as
    those of [ringlight_original.py] do, and leave the same thickness,
    brightness, colour and number of repaint requests; so do the two
    [set_color] on every [QColor].  On these arguments the revision
    differs only in the warnings it logs. *)
Theorem revised_setters_store_what_original_stores x s :
  wf_pyobj x -> is_numeric x = true -> printable x = true ->
  same_outcome (Ringlight.set_thickness x s) (RinglightOriginal.set_thickness x s) /\
  same_outcome (Ringlight.set_brightness_percent x s)
               (RinglightOriginal.set_brightness_percent x s) /\
  forall c, same_outcome (Ringlight.set_color (PyQColor c) s)
                         (RinglightOriginal.set_color (PyQColor c) s).
Proof.
  intros Hwf Hn Hp. unfold same_outcome, same_parameters. split; [|split].
  - destruct (py_int x) as [n|e] eqn:Hi.
    + pose proof (py_int_stored x n Hwf Hi Hp) as Hd.
      rewrite (set_thickness_done x n s Hn Hi Hp Hd),
        (original_set_thickness_done x n s Hi Hd).
      repeat split.
    + rewrite (set_thickness_raise x e s Hn Hi), (original_set_thickness_raise x e s Hi).
      repeat split.
  - destruct (truediv_float x (Py.decimal 100 1)) as [q|e] eqn:Hq.
    + rewrite (set_brightness_percent_done x q s Hn Hq),
        (original_set_brightness_percent_done x q s Hq).
      repeat split.
    + rewrite (set_brightness_percent_raise x e s Hn Hq Hp),
        (original_set_brightness_percent_raise x e s Hq).
      repeat split.
  - intros c. cbn [Ringlight.set_color RinglightOriginal.set_color RinglightOriginal.truthy].
    destruct (Qt.isValid c); cbn [negb]; run_monad; repeat split.
Qed.

Lemma revised_setters_store_what_original_stores_witness :
  let x := PyFloat (S754_infinity false) in
  wf_pyobj x /\ is_numeric x = true /\ printable x = true /\
  fst (Ringlight.set_thickness x (Ringlight.init 1920 1080))
  = Py.Raise Py.OverflowError /\
  fst (Ringlight.set_thickness x (Ringlight.init 1920 1080))
  = fst (RinglightOriginal.set_thickness x (Ringlight.init 1920 1080)).
Proof.
  cbv zeta.
  assert (Hwf : wf_pyobj (PyFloat (S754_infinity false))) by reflexivity.
  split; [exact Hwf|]. split; [reflexivity|]. split; [reflexivity|].
  split; [reflexivity|].
  exact (proj1 (proj1 (revised_setters_store_what_original_stores
                         (PyFloat (S754_infinity false)) (Ringlight.init 1920 1080)
                         Hwf eq_refl eq_refl))).
Defined.

(** X18.  For every finite [float] and every [int] of at most 4300
    decimal digits [px >= 1], [set_thickness(px)] returns normally and
    leaves the stored thickness equal to [int(px)], with no further
    change; for every such [px < 1] the stored thickness becomes exactly
    1.  Brightness and colour are not touched, and the setter of the
    original file stores the same thickness. *)
Theorem set_thickness_stores_int s px :
  wf_pyobj px -> finite_number px = true -> printable px = true ->
  exists n,
    py_int px = Py.Done n /\
    fst (Ringlight.set_thickness px s) = Py.Done tt /\
    (int_le_num 1 px = true ->
     thickness (snd (Ringlight.set_thickness px s)) = n) /\
    (num_lt_int px 1 = true ->
     thickness (snd (Ringlight.set_thickness px s)) = 1) /\
    brightness (snd (Ringlight.set_thickness px s)) = brightness s /\
    color (snd (Ringlight.set_thickness px s)) = color s /\
    thickness (snd (RinglightOriginal.set_thickness px s))
    = thickness (snd (Ringlight.set_thickness px s)).
Proof.
  intros Hwf Hfin Hp. destruct (py_int_finite px Hfin) as (n & Hn & Hge & Hlt).
  pose proof (py_int_stored px n Hwf Hn Hp) as Hd.
  exists n. rewrite (set_thickness_done px n s (finite_number_numeric px Hfin) Hn Hp Hd).
  rewrite (original_set_thickness_done px n s Hn Hd).
  cbn [fst snd thickness brightness color].
  split; [exact Hn|]. split; [reflexivity|].
  split; [intros H; specialize (Hge H); lia|].
  split; [intros H; specialize (Hlt H); lia|].
  repeat split; reflexivity.
Qed.

Lemma set_thickness_stores_int_witness :
  let px := PyFloat (Py.decimal 3007 10) in
  wf_pyobj px /\ finite_number px = true /\ printable px = true /\
  int_le_num 1 px = true /\
  thickness (snd (Ringlight.set_thickness px (Ringlight.init 1920 1080))) = 300.
Proof.
  cbv zeta.
  assert (Hwf : wf_pyobj (PyFloat (Py.decimal 3007 10))) by (vm_compute; reflexivity).
  assert (Hf : finite_number (PyFloat (Py.decimal 3007 10)) = true)
    by (vm_compute; reflexivity).
  assert (Hp : printable (PyFloat (Py.decimal 3007 10)) = true) by reflexivity.
  assert (Hge : int_le_num 1 (PyFloat (Py.decimal 3007 10)) = true)
    by (vm_compute; reflexivity).
  split; [exact Hwf|]. split; [exact Hf|]. split; [exact Hp|]. split; [exact Hge|].
  destruct (set_thickness_stores_int (Ringlight.init 1920 1080) _ Hwf Hf Hp)
    as (n & Hn & _ & Hstore & _).
  rewrite (Hstore Hge).
  assert (Hn' : py_int (PyFloat (Py.decimal 3007 10)) = Py.Done 300)
    by (vm_compute; reflexivity).
  rewrite Hn' in Hn. injection Hn as <-. reflexivity.
Defined.

(** X19.  For every [float] that is not a NaN and every [int] that
    rounds to a float, which those below [2 ** 1024 - 2 ** 970] in
    absolute value do, [set_brightness_percent(v)] returns normally.  If [0 <= v <= 200] the stored brightness is the binary64
    quotient [v / 100.0] itself (a negative zero being stored as [0.0])
    and no warning is logged; otherwise a warning is logged and the stored
    brightness is the clamp of the quotient: [0.0] below 0 and [2.0] above
    200.  Thickness and colour are not touched, and the setter of the
    original file stores the same brightness. *)
Theorem set_brightness_percent_clamps s v :
  wf_pyobj v -> is_numeric v = true -> float_convertible v -> not_nan v = true ->
  exists q,
    truediv_float v (Py.decimal 100 1) = Py.Done q /\
    fst (Ringlight.set_brightness_percent v s) = Py.Done tt /\
    thickness (snd (Ringlight.set_brightness_percent v s)) = thickness s /\
    color (snd (Ringlight.set_brightness_percent v s)) = color s /\
    (percent_in_range v = true ->
       (brightness (snd (Ringlight.set_brightness_percent v s)) = q \/
        (v = PyFloat (S754_zero true) /\
         brightness (snd (Ringlight.set_brightness_percent v s)) = S754_zero false)) /\
       Py.feq (brightness (snd (Ringlight.set_brightness_percent v s))) q = true /\
       logged (snd (Ringlight.set_brightness_percent v s))
       = logged s ++ [(DEBUG, BrightnessSet)]) /\
    (percent_in_range v = false ->
       (int_le_num 0 v = false ->
        brightness (snd (Ringlight.set_brightness_percent v s)) = S754_zero false) /\
       (num_le_int v 200 = false ->
        brightness (snd (Ringlight.set_brightness_percent v s)) = Py.decimal 2 1) /\
       logged (snd (Ringlight.set_brightness_percent v s))
       = logged s ++ [(WARNING, BrightnessOutOfRange); (DEBUG, BrightnessSet)]) /\
    brightness (snd (RinglightOriginal.set_brightness_percent v s))
    = brightness (snd (Ringlight.set_brightness_percent v s)).
Proof.
  intros Hwf Hn Hconv Hnan.
  destruct (truediv_convertible v Hn Hconv) as (q & Hq).
  exists q. rewrite (set_brightness_percent_done v q s Hn Hq).
  rewrite (original_set_brightness_percent_done v q s Hq).
  cbn [fst snd thickness brightness color logged].
  split; [exact Hq|]. split; [reflexivity|]. split; [reflexivity|].
  split; [reflexivity|]. split; [|split; [|reflexivity]].
  - intros Hr. rewrite Hr. cbn [app].
    destruct (percent_in_range_quotient v Hwf Hn Hr) as (q' & Hq' & Hclamp & Hneg).
    rewrite Hq in Hq'. injection Hq' as <-. rewrite Hclamp.
    split; [|split; [|reflexivity]].
    + destruct q as [sq|sq| |sq mq eq]; auto.
      destruct sq; [right|left; reflexivity].
      split; [apply (Hneg true); reflexivity|reflexivity].
    + destruct q as [sq|sq| |sq mq eq]; try reflexivity.
      * destruct sq; reflexivity.
      * exfalso. revert Hclamp. unfold Py.fmax, Py.fmin. cbn. discriminate.
      * apply feq_refl_finite.
  - intros Hr. rewrite Hr. rewrite literal_two. cbn [app].
    split; [|split; [|reflexivity]].
    + intros H0. apply (percent_below_quotient v q Hnan H0 Hn Hq).
    + intros H200. apply (percent_above_quotient v q Hwf Hnan H200 Hn Hq).
Qed.

Lemma set_brightness_percent_clamps_witness :
  let v := PyInt 120 in
  wf_pyobj v /\ is_numeric v = true /\ float_convertible v /\ not_nan v = true /\
  percent_in_range v = true /\
  brightness (snd (Ringlight.set_brightness_percent v (Ringlight.init 1920 1080)))
  = Py.decimal 120 100.
Proof.
  cbv zeta.
  assert (Hwf : wf_pyobj (PyInt 120)) by exact I.
  assert (Hn : is_numeric (PyInt 120) = true) by reflexivity.
  assert (Hc : float_convertible (PyInt 120)).
  { cbn [float_convertible]. change (Z.abs 120) with 120.
    assert (0 < 2 ^ 971) by (apply Z.pow_pos_nonneg; lia).
    assert (2 ^ 1024 = 2 ^ 53 * 2 ^ 971) by (rewrite <- Z.pow_add_r by lia; reflexivity).
    change (2 ^ 53) with 9007199254740992 in *. lia. }
  assert (Hnan : not_nan (PyInt 120) = true) by reflexivity.
  assert (Hr : percent_in_range (PyInt 120) = true) by reflexivity.
  split; [exact Hwf|]. split; [exact Hn|]. split; [exact Hc|]. split; [exact Hnan|].
  split; [exact Hr|].
  destruct (set_brightness_percent_clamps (Ringlight.init 1920 1080) _ Hwf Hn Hc Hnan)
    as (q & Hq & _ & _ & _ & Hin & _).
  destruct (Hin Hr) as ([Heq|[Habs _]] & _); [|discriminate].
  rewrite Heq.
  assert (Hq' : truediv_float (PyInt 120) (Py.decimal 100 1) = Py.Done (Py.decimal 120 100))
    by (vm_compute; reflexivity).
  rewrite Hq' in Hq. injection Hq as <-. reflexivity.
Defined.

(** * The application: window, control panel and event loop *)

Module GuiFacts.
Import Stdlib.Strings.String.
Import Gui.
Local Open Scope string_scope.
Local Open Scope list_scope.
Local Open Scope Z_scope.

(** *** The setters on slider positions *)

Lemma truediv_int_done z q :
  truediv_float (PyInt z) (Py.decimal 100 1) = Py.Done q -> q = percent_brightness z.
Proof.
  unfold truediv_float, Py.float_of_int, percent_brightness.
  destruct (Py.round_int z); intros [= <-]; reflexivity.
Qed.

(** A position of the brightness slider is stored as its quotient by
    [100.0], without a warning. *)
Lemma set_brightness_percent_position v s :
  0 <= v <= 200 ->
  Ringlight.set_brightness_percent (PyInt v) s
  = (Py.Done tt,
     mkOverlay (thickness s) (percent_brightness v) (color s) (width s) (height s)
               (logged s ++ [(DEBUG, BrightnessSet)]) (S (updates s)) (painter s)) /\
  Py.float_valid (percent_brightness v) = true /\
  Py.fle (S754_zero false) (percent_brightness v) = true /\
  Py.fle (percent_brightness v) (Py.decimal 2 1) = true.
Proof.
  intros Hv.
  assert (Hr : percent_in_range (PyInt v) = true).
  { unfold percent_in_range. cbn [int_le_num num_le_int].
    apply andb_true_iff. split; apply Z.leb_le; lia. }
  destruct (percent_in_range_quotient (PyInt v) I eq_refl Hr) as (q & Hq & Hclamp & Hneg).
  pose proof (truediv_int_done v q Hq) as Heq.
  assert (Hc : Py.fmax zero (Py.fmin two q) = q).
  { rewrite Hclamp. destruct q as [sq|sq| |sq mq eq]; try reflexivity.
    destruct sq; [|reflexivity].
    specialize (Hneg true eq_refl eq_refl). discriminate. }
  pose proof (truediv_valid (PyInt v) q I Hq) as Hvalid.
  destruct (brightness_ok_clamp q Hvalid) as (H1 & H2 & H3).
  rewrite Hc in H1, H2, H3. subst q.
  rewrite (set_brightness_percent_done (PyInt v) _ s eq_refl Hq), Hc, Hr.
  repeat split; assumption.
Qed.

(** A position of the thickness slider is stored as it is, without a
    warning. *)
Lemma set_thickness_position v s :
  1 <= v < 2 ^ 53 ->
  Ringlight.set_thickness (PyInt v) s
  = (Py.Done tt,
     mkOverlay v (brightness s) (color s) (width s) (height s)
               (logged s ++ [(DEBUG, ThicknessSet)]) (S (updates s)) (painter s)).
Proof.
  intros Hv.
  assert (Hp : Py.str_digits_ok v = true) by (apply str_digits_ok_small; lia).
  rewrite (set_thickness_done (PyInt v) v s eq_refl eq_refl Hp (str_digits_ok_max v Hp)).
  cbn [num_lt_int]. destruct (Z.ltb_spec v 1); [lia|].
  replace (Z.max 1 v) with v by lia. reflexivity.
Qed.

Lemma set_color_valid c s :
  Qt.isValid c = true ->
  Ringlight.set_color (PyQColor c) s
  = (Py.Done tt,
     mkOverlay (thickness s) (brightness s) c (width s) (height s)
               (logged s ++ [(DEBUG, ColorSet)]) (S (updates s)) (painter s)).
Proof.
  intros Hc. cbn [Ringlight.set_color]. rewrite Hc. cbn [negb]. run_monad.
  reflexivity.
Qed.


(** *** The sliders *)

Ltac run_gui :=
  cbv beta iota zeta delta
    [bind ret get modify raise pending lift when try_except
     with_window with_panel with_instance logger on_overlay overlay_attr with_self
     ControlPanel.setValue ControlPanel.setRange ControlPanel.connect
     ControlPanel.brightness_slider_setValue ControlPanel.thickness_slider_setValue
     ControlPanel.set_brightness_slider ControlPanel.set_thickness_slider
     ControlPanel.set_brightness_value ControlPanel.set_thickness_value
     ControlPanel.set_color_preview ControlPanel.set_toggle_btn
     ControlPanel.setText ControlPanel.setStyleSheet ControlPanel.setWindowIcon
     ControlPanel.set_panel_shown ControlPanel.set_is_closing ControlPanel.show
     ControlPanel.close
     ControlPanel._on_brightness_changed ControlPanel._on_thickness_changed
     ControlPanel._update_color_preview ControlPanel._apply_preset
     ControlPanel._pick_color ControlPanel._toggle_overlay ControlPanel._panic_off
     ControlPanel._close_all ControlPanel.closeEvent ControlPanel.quit
     RingLightOverlay.setGeometry RingLightOverlay.setVisible
     RingLightOverlay.show RingLightOverlay.hide RingLightOverlay.close
     RingLightOverlay._apply_screen_geometry
     bound];
  cbn [overlay_window control_panel instance journal
       self origin isVisible windowFlags attributes _poll_timer
       brightness_slider brightness_value thickness_slider thickness_value
       color_preview toggle_btn windowIcon panel_shown is_closing
       minimum maximum value connected
       applicationName organizationName quit_called
       fst snd negb].

Lemma brightness_slider_setValue_spec v bv w ts bval tval cp tb wi ps ic inst jr :
  fits_int v = true ->
  let v' := Z.max 0 (Z.min 200 v) in
  let p := mkPanel (mkSlider 0 200 bv true) bval ts tval cp tb wi ps ic in
  ControlPanel.brightness_slider_setValue v (mkGui w p inst jr)
  = (Done tt,
     if bv =? v' then mkGui w p inst jr
     else
       mkGui (with_self
                (mkOverlay (thickness (self w)) (percent_brightness v') (color (self w))
                           (width (self w)) (height (self w))
                           (logged (self w) ++ [(DEBUG, BrightnessSet)])
                           (S (updates (self w))) (painter (self w)))
                w)
             (mkPanel (mkSlider 0 200 v' true)
                      (concat "" [str v'; "%"])
                      ts tval cp tb wi ps ic)
             inst jr).
Proof.
  intros Hf. cbv zeta. run_gui. rewrite Hf. run_gui.
  set (v' := Z.max 0 (Z.min 200 v)).
  destruct (bv =? v'); [reflexivity|]. run_gui.
  assert (Hv' : 0 <= v' <= 200) by (unfold v'; lia).
  destruct (set_brightness_percent_position v' (self w) Hv') as (-> & _).
  reflexivity.
Qed.


Lemma thickness_slider_setValue_spec v tv w bs bval tval cp tb wi ps ic inst jr :
  fits_int v = true ->
  let v' := Z.max 1 (Z.min 900 v) in
  let p := mkPanel bs bval (mkSlider 1 900 tv true) tval cp tb wi ps ic in
  ControlPanel.thickness_slider_setValue v (mkGui w p inst jr)
  = (Done tt,
     if tv =? v' then mkGui w p inst jr
     else
       mkGui (with_self
                (mkOverlay v' (brightness (self w)) (color (self w))
                           (width (self w)) (height (self w))
                           (logged (self w) ++ [(DEBUG, ThicknessSet)])
                           (S (updates (self w))) (painter (self w)))
                w)
             (mkPanel bs bval (mkSlider 1 900 v' true) (concat "" [str v'; "px"])
                      cp tb wi ps ic)
             inst jr).
Proof.
  intros Hf. cbv zeta. run_gui. rewrite Hf. run_gui.
  set (v' := Z.max 1 (Z.min 900 v)).
  destruct (tv =? v'); [reflexivity|]. run_gui.
  rewrite (set_thickness_position v' (self w)) by (unfold v'; lia).
  reflexivity.
Qed.

(** The brightness of a slider position is one the frame can be painted
    with. *)
Lemma percent_brightness_paints v :
  0 <= v <= 200 ->
  exists a, Ringlight.fill_alpha (percent_brightness v) = Py.Done a /\ 0 <= a <= 255.
Proof.
  intros Hv.
  destruct (set_brightness_percent_position v (Ringlight.init 0 0) Hv)
    as (_ & Hvalid & H0 & H2).
  rewrite literal_two in H2.
  destruct (fill_alpha_unit_range _ Hvalid H0 H2) as (n & _ & _ & Ha & _).
  exists (Z.max 0 (Z.min 255 n)). split; [exact Ha|lia].
Qed.


(** *** What every event keeps *)

Lemma forallb_snoc {A} (f : A -> bool) l x :
  forallb f (l ++ [x]) = forallb f l && f x.
Proof. rewrite forallb_app. cbn. rewrite andb_true_r. reflexivity. Qed.

Ltac split_running :=
  unfold running, parameters_shown, click_through, toggle_shown, quitting;
  cbn [overlay_window control_panel instance journal
       self origin isVisible windowFlags attributes _poll_timer
       brightness_slider brightness_value thickness_slider thickness_value
       color_preview toggle_btn windowIcon panel_shown is_closing
       minimum maximum value connected quit_called
       thickness brightness color width height logged updates painter
       with_self fst snd].

Lemma dispatch_running e g :
  wf_event e -> running g -> is_closing (control_panel g) = false ->
  running (snd (dispatch e g)) /\
  fst (dispatch e g) = Done tt /\
  quitting (snd (dispatch e g)) = (closes e || quitting g) /\
  is_closing (control_panel (snd (dispatch e g))) = false.
Proof.
  intros Hwf Hrun Hic.
  destruct g as [[o org vis fl at_ tm] [bs bval ts tval cp tb wi ps ic] inst jr].
  cbn [control_panel is_closing] in Hic. subst ic.
  revert Hrun. split_running.
  intros ((Hbs & Hbv & Hb & Hbval & Hts & Htv & Ht & Htval & Hvalid & Hcol & Hcp)
          & (Hfl & Hat & Htm) & Hq & Hinst & Htog).
  destruct bs as [bmin bmax bv bc]. destruct ts as [tmin tmax tv tc].
  cbn [value] in *. injection Hbs as -> -> ->. injection Hts as -> -> ->.
  pose proof Hcol as (Hc1 & Hc2 & Hc3 & Hc4).
  destruct e as [v|v|button|c| | | | |screen| |];
    cbn [dispatch wf_event closes orb] in *.
  - (* the brightness slider *)
    rewrite (brightness_slider_setValue_spec v bv _ _ _ _ _ _ _ _ _ _ _ Hwf). cbv zeta.
    destruct (Z.eqb_spec bv (Z.max 0 (Z.min 200 v))) as [Heq|Hne]; split_running.
    + repeat split; auto; lia.
    + rewrite forallb_snoc, Hq. repeat split; auto; lia.
  - (* the thickness slider *)
    rewrite (thickness_slider_setValue_spec v tv _ _ _ _ _ _ _ _ _ _ _ Hwf). cbv zeta.
    destruct (Z.eqb_spec tv (Z.max 1 (Z.min 900 v))) as [Heq|Hne]; split_running.
    + repeat split; auto; lia.
    + rewrite forallb_snoc, Hq. repeat split; auto; lia.
  - (* a preset *)
    assert (Hpre : exists b t col,
              ControlPanel._create_presets button = ControlPanel._apply_preset b t col /\
              fits_int b = true /\ fits_int t = true /\
              Qt.isValid col = true /\ Qt.wf_color col).
    { destruct button; do 3 eexists; (split; [reflexivity|]);
        repeat split; reflexivity. }
    destruct Hpre as (b & t & col & -> & Hfb & Hft & Hcv & Hcw).
    pose proof Hcw as (Hw1 & Hw2 & Hw3 & Hw4).
    unfold ControlPanel._apply_preset, bind.
    rewrite (brightness_slider_setValue_spec b bv _ _ _ _ _ _ _ _ _ _ _ Hfb). cbv zeta.
    destruct (Z.eqb_spec bv (Z.max 0 (Z.min 200 b))) as [Heqb|Hneb];
      cbv beta iota;
      rewrite (thickness_slider_setValue_spec t tv _ _ _ _ _ _ _ _ _ _ _ Hft); cbv zeta;
      destruct (Z.eqb_spec tv (Z.max 1 (Z.min 900 t))) as [Heqt|Hnet];
      run_gui; cbn [with_self self]; rewrite (set_color_valid col _ Hcv); run_gui;
      split_running; rewrite ?forallb_snoc, Hq; repeat split; auto; lia.
  - (* the colour dialog *)
    pose proof Hwf as (Hw1 & Hw2 & Hw3 & Hw4).
    unfold ControlPanel._pick_color. destruct (Qt.isValid c) eqn:Hcv.
    + run_gui. rewrite (set_color_valid c _ Hcv). run_gui.
      split_running. rewrite forallb_snoc, Hq. repeat split; auto; lia.
    + run_gui. split_running. repeat split; auto; lia.
  - (* toggle *)
    run_gui. destruct vis; run_gui; split_running; repeat split; auto; lia.
  - (* panic *)
    run_gui. split_running. repeat split; auto; lia.
  - (* close button *)
    destruct inst as [app|]; [|contradiction]. destruct ps; run_gui;
      split_running; repeat split; auto; try lia; discriminate.
  - (* the panel is closed *)
    destruct inst as [app|]; [|contradiction]. destruct ps; run_gui;
      split_running; repeat split; auto; try lia; discriminate.
  - (* the poll timer *)
    run_gui. rewrite Htm. destruct screen as [geom|]; run_gui.
    + destruct (rect_eqb _ geom); run_gui; unfold update, M.modify;
        cbn [fst snd]; run_gui; split_running; repeat split; auto; lia.
    + split_running. repeat split; auto; lia.
  - (* a paint event *)
    run_gui. destruct vis; run_gui; [|split_running; repeat split; auto; lia].
    destruct (percent_brightness_paints bv Hbv) as (a & Ha & _).
    rewrite <- Hb in Ha.
    destruct (Z_le_gt_dec (width o) 0) as [Hw|Hw];
      [|destruct (Z_le_gt_dec (height o) 0) as [Hh|Hh]].
    + rewrite (paintEvent_degenerate o (or_introl Hw)). run_gui. split_running.
      rewrite forallb_snoc, Hq. repeat split; auto; lia.
    + rewrite (paintEvent_degenerate o (or_intror Hh)). run_gui. split_running.
      rewrite forallb_snoc, Hq. repeat split; auto; lia.
    + rewrite (paintEvent_frame o a ltac:(lia) ltac:(lia) Ha). run_gui. split_running.
      repeat split; auto; lia.
  - (* an interrupt *)
    run_gui. split_running. repeat split; auto; lia.
Qed.


(** *** The event loop *)

Lemma running_journal g jr :
  running g ->
  running (mkGui (overlay_window g) (control_panel g) (instance g) jr).
Proof. destruct g. exact (fun H => H). Qed.

Lemma loop_outcome_cases events :
  loop_outcome events = Done 0 \/ loop_outcome events = Pending.
Proof.
  induction events as [|e events IH]; cbn [loop_outcome]; auto.
  destruct (closes e); auto.
Qed.

Lemma exec_running events :
  forall g, Forall wf_event events -> running g -> quitting g = false ->
  is_closing (control_panel g) = false ->
  running (snd (exec events g)) /\
  fst (exec events g) = loop_outcome events /\
  quitting (snd (exec events g))
  = match loop_outcome events with Done _ => true | _ => false end /\
  is_closing (control_panel (snd (exec events g))) = false.
Proof.
  induction events as [|e events IH]; intros g Hwf Hrun Hq Hic.
  - cbn. auto.
  - inversion Hwf as [|e' l' He Hl]; subst.
    destruct (dispatch_running e g He Hrun Hic) as (Hrun' & Hres & Hquit & Hic').
    cbn [exec loop_outcome]. unfold bind, get.
    destruct (dispatch e g) as [r g'] eqn:Hd. cbn [fst snd] in *. subst r.
    rewrite Hquit, Hq, orb_false_r.
    destruct (closes e).
    + unfold ret. cbn [fst snd orb] in *. rewrite Hquit. auto.
    + apply IH; try assumption. rewrite Hquit, Hq. reflexivity.
Qed.


(** *** Start-up *)

Lemma rect_eqb_eq a b : rect_eqb a b = true -> a = b.
Proof.
  unfold rect_eqb. rewrite !andb_true_iff, !Z.eqb_eq.
  destruct a, b. cbn. intros [[[-> ->] ->] ->]. reflexivity.
Qed.

Lemma overlay_init_spec env g :
  exists o jr,
    RingLightOverlay.__init__ env g
    = (Done tt,
       mkGui (mkWindow o (Qt.rx (covered env), Qt.ry (covered env)) true
                [FramelessWindowHint; WindowStaysOnTopHint; Tool;
                 WindowTransparentForInput]
                [WA_TranslucentBackground; WA_TransparentForMouseEvents]
                (Some RingLightOverlay.GEOMETRY_POLL_INTERVAL_MS))
             (control_panel g) (instance g) jr) /\
    thickness o = Ringlight.DEFAULT_THICKNESS /\
    brightness o = Ringlight.DEFAULT_BRIGHTNESS /\
    color o = Ringlight.DEFAULT_COLOR /\
    width o = Qt.rw (covered env) /\ height o = Qt.rh (covered env) /\
    logged o = [] /\ painter o = Qt.mkPainter false Qt.SourceOver false [].
Proof.
  unfold RingLightOverlay.__init__, covered.
  destruct (primaryScreen env) as [geom|].
  - run_gui. unfold geometry, Ringlight.init.
    cbn [self origin fst snd width height].
    destruct (rect_eqb _ geom) eqn:Heq; run_gui.
    + apply rect_eqb_eq in Heq. rewrite <- Heq. cbn [Qt.rx Qt.ry Qt.rw Qt.rh].
      do 2 eexists. split; [reflexivity|]. repeat split.
    + unfold update, M.modify. cbn [fst snd]. run_gui.
      cbn [thickness brightness color width height logged updates painter app].
      do 2 eexists. split; [reflexivity|]. repeat split.
  - run_gui. unfold Ringlight.init. cbn [app].
    do 2 eexists. split; [reflexivity|]. repeat split.
Qed.

Lemma setup_ui_spec o org vis fl at_ tm inst jr :
  thickness o = Ringlight.DEFAULT_THICKNESS ->
  brightness o = Ringlight.DEFAULT_BRIGHTNESS ->
  color o = Ringlight.DEFAULT_COLOR ->
  ControlPanel._setup_ui
    (mkGui (mkWindow o org vis fl at_ tm) new_panel inst jr)
  = (Done tt,
     mkGui (mkWindow o org vis fl at_ tm)
           (mkPanel (mkSlider 0 200 100 true) "100%"
                    (mkSlider 1 900 220 true) "220px"
                    (ControlPanel.preview_style Ringlight.DEFAULT_COLOR,
                     ControlPanel.preview_tip Ringlight.DEFAULT_COLOR)
                    (ControlPanel.TURN_OFF_TEXT, ControlPanel.GREEN_STYLE)
                    false false false)
           inst jr).
Proof.
  intros Ht Hb Hc. destruct o as [t b c w h lg up pt]. cbn in Ht, Hb, Hc. subst t b c.
  vm_compute. reflexivity.
Qed.


Lemma panel_init_spec env o org vis fl at_ tm p inst jr :
  thickness o = Ringlight.DEFAULT_THICKNESS ->
  brightness o = Ringlight.DEFAULT_BRIGHTNESS ->
  color o = Ringlight.DEFAULT_COLOR ->
  exists icon jr',
    ControlPanel.__init__ ControlPanel.PassOverlay env
      (mkGui (mkWindow o org vis fl at_ tm) p inst jr)
    = (if qtsvg_importable env then Done tt else Raise ImportError,
       mkGui (mkWindow o org vis fl at_ tm)
             (mkPanel (mkSlider 0 200 100 true) "100%"
                      (mkSlider 1 900 220 true) "220px"
                      (ControlPanel.preview_style Ringlight.DEFAULT_COLOR,
                       ControlPanel.preview_tip Ringlight.DEFAULT_COLOR)
                      (ControlPanel.TURN_OFF_TEXT, ControlPanel.GREEN_STYLE)
                      icon false false)
             inst jr').
Proof.
  intros Ht Hb Hc. unfold ControlPanel.__init__, bind.
  unfold with_panel at 1, modify at 1. cbn [overlay_window control_panel instance journal].
  rewrite (setup_ui_spec o org vis fl at_ tm inst jr Ht Hb Hc).
  unfold ControlPanel._set_window_icon, bind, when.
  destruct (qtsvg_importable env); cbn [negb]; [|do 2 eexists; reflexivity].
  destruct (icon_rendering env) as [e|]; run_gui; do 2 eexists; reflexivity.
Qed.

(** [main], once the version check has passed: the state the event loop
    starts in, and what [main] returns. *)
Lemma main_spec env events :
  version_lt (version_info env) 3 10 = false -> Forall wf_event events ->
  running (snd (main env events unallocated)) /\
  fst (main env events unallocated)
  = (if qtsvg_importable env then
       match loop_outcome events with
       | Pending => Pending
       | _ => Done 0
       end
     else Done 1) /\
  quitting (snd (main env events unallocated))
  = (qtsvg_importable env &&
     match loop_outcome events with Done _ => true | _ => false end).
Proof.
  intros Hver Hwf. unfold main. rewrite Hver. run_gui.
  cbn [unallocated option_map overlay_window control_panel instance journal
       applicationName organizationName quit_called app].
  match goal with
  | |- context [RingLightOverlay.__init__ env ?g] =>
      destruct (overlay_init_spec env g)
        as (o & jr & -> & Ht & Hb & Hc & Hw & Hh & Hl & Hp)
  end.
  cbn [control_panel instance].
  match goal with
  | |- context [ControlPanel.__init__ _ env (mkGui (mkWindow o ?org ?vis ?fl ?at_ ?tm) ?p ?inst jr)] =>
      destruct (panel_init_spec env o org vis fl at_ tm p inst jr Ht Hb Hc)
        as (icon & jr' & ->)
  end.
  set (g0 := mkGui _ _ _ jr').
  assert (Hrun : forall ps jr'',
            running (mkGui (overlay_window g0)
                       (let p := control_panel g0 in
                        mkPanel (brightness_slider p) (brightness_value p)
                                (thickness_slider p) (thickness_value p)
                                (color_preview p) (toggle_btn p) (windowIcon p) ps false)
                       (instance g0) jr'')).
  { intros ps jr''. unfold g0. split_running.
    rewrite Ht, Hb, Hc, Hl.
    repeat split; try reflexivity; try discriminate; try lia. }
  destruct (qtsvg_importable env).
  - (* the panel is built and shown *)
    run_gui.
    match goal with
    | |- context [exec events ?g] =>
        destruct (exec_running events g Hwf (Hrun true jr') eq_refl eq_refl)
          as (Hrun' & Hres & Hquit & _);
        destruct (exec events g) as [r g1] eqn:Hex
    end.
    cbn [fst snd] in Hrun', Hres, Hquit. subst r.
    rewrite andb_true_l.
    destruct (loop_outcome_cases events) as [Ho|Ho]; rewrite Ho in *;
      cbn [is_Exception fst snd]; unfold quitting in *;
      cbn [instance]; (split; [|split; [reflexivity|assumption]]);
      try assumption; apply running_journal; assumption.
  - (* the import fails *)
    cbn [is_Exception]. run_gui. cbn [andb].
    split; [apply (Hrun false)|]. split; reflexivity.
Qed.


End GuiFacts.

Import Stdlib.Strings.String.
Import Gui GuiFacts.
Local Open Scope string_scope.
Local Open Scope list_scope.
Local Open Scope Z_scope.

(** ** The overlay follows the screen *)

(** X6.  [_apply_screen_geometry] makes the overlay cover the primary
    screen and does nothing more.  Whatever the state, the call returns
    normally; with a primary screen the overlay's geometry is the
    screen's afterwards, thickness, brightness, colour, visibility and the
    panel are untouched, and a repaint is requested when, and only when,
    the geometry had to change; a second call with the same screen changes
    nothing at all, so polling an unchanged screen costs no repaint.
    Without a primary screen only a warning is logged. *)
Theorem apply_screen_geometry_covers_screen geom g :
  let r := RingLightOverlay._apply_screen_geometry (Some geom) g in
  let w := overlay_window g in
  let w' := overlay_window (snd r) in
  fst r = Done tt /\
  geometry w' = geom /\
  same_parameters (self w) (self w') /\
  isVisible w' = isVisible w /\ control_panel (snd r) = control_panel g /\
  updates (self w')
  = (if rect_eqb (geometry w) geom then updates (self w) else S (updates (self w))) /\
  RingLightOverlay._apply_screen_geometry (Some geom) (snd r) = (Done tt, snd r) /\
  RingLightOverlay._apply_screen_geometry None g
  = (Done tt,
     mkGui (overlay_window g) (control_panel g) (instance g)
           (journal g ++ [(WARNING, NoPrimaryScreen)])).
Proof.
  cbv zeta. unfold same_parameters.
  destruct g as [[o org vis fl at_ tm] p inst jr].
  assert (Hrefl : forall r, rect_eqb r r = true).
  { intros [x y w h]. unfold rect_eqb. cbn. rewrite !Z.eqb_refl. reflexivity. }
  run_gui. unfold geometry. cbn [self origin].
  destruct (rect_eqb (Qt.mkQRect (fst org) (snd org) (width o) (height o)) geom) eqn:Heq;
    run_gui.
  - apply rect_eqb_eq in Heq. unfold geometry. cbn [self origin].
    rewrite Heq, Hrefl. repeat split.
  - unfold update, M.modify. cbn [fst snd]. run_gui.
    unfold geometry.
    cbn [self origin fst snd thickness brightness color width height updates].
    destruct geom as [x y w h]. cbn [Qt.rx Qt.ry Qt.rw Qt.rh].
    rewrite Hrefl. repeat split.
Qed.

(** X7.  The frame adapts to the screen.  While the application runs and
    the overlay is shown, once the poll timer has seen a primary screen
    of at least 22 by 22 pixels the next paint event fills one rounded
    frame whose outer rectangle is the screen inset by the 10-pixel margin
    and whose ring is [min(thickness, min(width, height) // 2 - 10)]
    thick on every side, the inner rectangle being not inverted. *)
Theorem frame_follows_screen geom g :
  running g -> isVisible (overlay_window g) = true ->
  22 <= Qt.rw geom -> 22 <= Qt.rh geom ->
  let g1 := snd (dispatch (PollTimeout (Some geom)) g) in
  let g2 := snd (dispatch PaintRequested g1) in
  let t := Z.min (thickness (self (overlay_window g)))
                 (Z.min (Qt.rw geom) (Qt.rh geom) / 2 - 10) in
  geometry (overlay_window g2) = geom /\
  1 <= t /\ 0 <= Qt.rw geom - 2 * (10 + t) /\ 0 <= Qt.rh geom - 2 * (10 + t) /\
  exists a,
    0 <= a <= 255 /\
    frame (self (overlay_window g2))
    = [Qt.FillFrame
         (Qt.mkQRect 10 10 (Qt.rw geom - 2 * 10) (Qt.rh geom - 2 * 10)) 20
         (Qt.mkQRect (10 + t) (10 + t)
                     (Qt.rw geom - 2 * (10 + t)) (Qt.rh geom - 2 * (10 + t)))
         (Z.max 0 (20 - t))
         (Qt.setAlpha (color (self (overlay_window g))) a)].
Proof.
  intros Hrun Hvis Hw Hh. cbv zeta.
  destruct g as [[o org vis fl at_ tm] [bs bval ts tval cp tb wi ps ic] inst jr].
  cbn [overlay_window isVisible self] in *. subst vis.
  pose proof Hrun as ((_ & Hbv & Hb & _ & _ & Htv & Ht & _) & (_ & _ & Htm) & _).
  cbn [overlay_window control_panel self _poll_timer] in Hbv, Hb, Htv, Ht, Htm.
  subst tm.
  destruct (percent_brightness_paints _ Hbv) as (a & Ha & Ha255). rewrite <- Hb in Ha.
  assert (Hdiv : 11 <= Z.min (Qt.rw geom) (Qt.rh geom) / 2)
    by (apply Z.div_le_lower_bound; lia).
  assert (Hhalf : 2 * (Z.min (Qt.rw geom) (Qt.rh geom) / 2)
                  <= Z.min (Qt.rw geom) (Qt.rh geom))
    by (apply Z.mul_div_le; lia).
  assert (Heff : Ringlight.effective_thickness (thickness o) (Qt.rw geom) (Qt.rh geom)
                 = Z.min (thickness o) (Z.min (Qt.rw geom) (Qt.rh geom) / 2 - 10)).
  { unfold Ringlight.effective_thickness, Ringlight.max_thickness,
      Ringlight.MIN_THICKNESS, Ringlight.SCREEN_MARGIN.
    rewrite !imin_eq, imax_eq. lia. }
  cbn [dispatch]. run_gui. unfold geometry. cbn [self origin].
  destruct (rect_eqb (Qt.mkQRect (fst org) (snd org) (width o) (height o)) geom) eqn:Heq;
    run_gui.
  - apply rect_eqb_eq in Heq.
    assert (Hwo : width o = Qt.rw geom) by (rewrite <- Heq; reflexivity).
    assert (Hho : height o = Qt.rh geom) by (rewrite <- Heq; reflexivity).
    rewrite (paintEvent_frame o a ltac:(lia) ltac:(lia) Ha). run_gui.
    unfold geometry, frame. cbn [self origin width height painter Qt.fills].
    split; [exact Heq|]. split; [lia|]. split; [lia|]. split; [lia|].
    exists a. split; [exact Ha255|].
    unfold Ringlight.outer_rect, Ringlight.inner_rect, Ringlight.inner_radius,
      Ringlight.OUTER_CORNER_RADIUS, Ringlight.SCREEN_MARGIN.
    rewrite imax_eq, Hwo, Hho, Heff. reflexivity.
  - unfold update, M.modify. cbn [fst snd]. run_gui.
    cbn [thickness brightness color width height logged updates painter].
    match goal with
    | |- context [Ringlight.paintEvent ?s] =>
        rewrite (paintEvent_frame s a ltac:(cbn [width]; lia) ltac:(cbn [height]; lia) Ha)
    end.
    run_gui. unfold geometry, frame.
    cbn [self origin fst snd thickness brightness color width height painter Qt.fills].
    split; [destruct geom; reflexivity|]. split; [lia|]. split; [lia|]. split; [lia|].
    exists a. split; [exact Ha255|].
    unfold Ringlight.outer_rect, Ringlight.inner_rect, Ringlight.inner_radius,
      Ringlight.OUTER_CORNER_RADIUS, Ringlight.SCREEN_MARGIN.
    rewrite imax_eq, Heff. reflexivity.
Qed.

(** ** The control panel *)

Lemma startup_running :
  let env := mkEnvironment (3, 12) (Qt.mkQRect 0 0 640 480)
                           (Some (Qt.mkQRect 0 0 1920 1080)) true None in
  let g := snd (main env [] unallocated) in
  running g /\ isVisible (overlay_window g) = true /\ quitting g = false.
Proof.
  cbv zeta. split; [|split; vm_compute; reflexivity].
  vm_compute. repeat split; try reflexivity; try discriminate.
Qed.

Lemma frame_follows_screen_witness :
  let env := mkEnvironment (3, 12) (Qt.mkQRect 0 0 640 480)
                           (Some (Qt.mkQRect 0 0 1920 1080)) true None in
  let g := snd (main env [] unallocated) in
  let geom := Qt.mkQRect 0 0 1280 720 in
  running g /\ isVisible (overlay_window g) = true /\
  22 <= Qt.rw geom /\ 22 <= Qt.rh geom /\
  geometry (overlay_window
              (snd (dispatch PaintRequested
                      (snd (dispatch (PollTimeout (Some geom)) g)))))
  = geom.
Proof.
  cbv zeta.
  destruct startup_running as (Hrun & Hvis & _).
  assert (Hw : 22 <= Qt.rw (Qt.mkQRect 0 0 1280 720)) by (cbn; lia).
  assert (Hh : 22 <= Qt.rh (Qt.mkQRect 0 0 1280 720)) by (cbn; lia).
  split; [exact Hrun|]. split; [exact Hvis|]. split; [exact Hw|]. split; [exact Hh|].
  exact (proj1 (frame_follows_screen _ _ Hrun Hvis Hw Hh)).
Defined.

(** X8.  Through the control panel the parameters stay within the slider
    ranges, and the panel shows them.  Once the version check has passed,
    whatever the environment and whatever events arrive (slider moves to
    any position, presets, colour choices, toggles, polls, paint events,
    closing), the overlay's thickness is the position of the thickness
    slider, between 1 and 900 (the setter itself has no upper bound); its
    brightness is exactly the position of the brightness slider, between 0
    and 200, divided by [100.0]; the two value labels print the positions;
    and the preview shows the overlay's colour, which is valid. *)
Theorem panel_keeps_parameters_in_slider_ranges env events :
  version_lt (version_info env) 3 10 = false -> Forall wf_event events ->
  let g := snd (main env events unallocated) in
  let o := self (overlay_window g) in
  let p := control_panel g in
  thickness o = value (thickness_slider p) /\
  1 <= thickness o <= Ringlight.MAX_THICKNESS /\
  thickness_value p = concat "" [str (thickness o); "px"] /\
  0 <= value (brightness_slider p) <= 200 /\
  brightness o = Py.fdiv (Py.round_int (value (brightness_slider p))) (Py.decimal 100 1) /\
  brightness_ok o /\
  brightness_value p = concat "" [str (value (brightness_slider p)); "%"] /\
  Qt.isValid (color o) = true /\
  color_preview p = (ControlPanel.preview_style (color o),
                     ControlPanel.preview_tip (color o)).
Proof.
  intros Hver Hwf. cbv zeta.
  destruct (main_spec env events Hver Hwf) as ((Hshown & _) & _).
  destruct Hshown as (_ & Hbv & Hb & Hbval & _ & Htv & Ht & Htval & Hvalid & _ & Hcp).
  destruct (set_brightness_percent_position _ (Ringlight.init 0 0) Hbv)
    as (_ & Hv & H0 & H2).
  rewrite Ht. unfold Ringlight.MAX_THICKNESS, brightness_ok. rewrite Hb.
  unfold percent_brightness in *.
  repeat split; try assumption; lia.
Qed.

Lemma panel_keeps_parameters_in_slider_ranges_witness :
  let env := mkEnvironment (3, 12) (Qt.mkQRect 0 0 640 480)
                           (Some (Qt.mkQRect 0 0 1920 1080)) true None in
  let events := [ThicknessSliderMoved 5000; BrightnessSliderMoved (-7);
                 PresetClicked ControlPanel.Soft; ThicknessSliderMoved 1000] in
  version_lt (version_info env) 3 10 = false /\ Forall wf_event events /\
  thickness (self (overlay_window (snd (main env events unallocated)))) = 900 /\
  1 <= thickness (self (overlay_window (snd (main env events unallocated))))
    <= Ringlight.MAX_THICKNESS.
Proof.
  cbv zeta.
  set (env := mkEnvironment (3, 12) (Qt.mkQRect 0 0 640 480)
                            (Some (Qt.mkQRect 0 0 1920 1080)) true None).
  set (events := [ThicknessSliderMoved 5000; BrightnessSliderMoved (-7);
                  PresetClicked ControlPanel.Soft; ThicknessSliderMoved 1000]).
  assert (Hver : version_lt (version_info env) 3 10 = false) by reflexivity.
  assert (Hwf : Forall wf_event events) by (repeat constructor).
  split; [exact Hver|]. split; [exact Hwf|]. split; [vm_compute; reflexivity|].
  exact (proj1 (proj2 (panel_keeps_parameters_in_slider_ranges env events Hver Hwf))).
Defined.

Lemma no_close_no_exit events :
  existsb closes events = false ->
  match loop_outcome events with Done _ => true | _ => false end = false.
Proof.
  induction events as [|e events IH]; [reflexivity|].
  cbn [existsb loop_outcome]. intros H. apply orb_false_iff in H. destruct H as [He H].
  rewrite He. exact (IH H).
Qed.

(** X9.  The overlay stays a click-through window and the toggle button
    tells its state.  Once the version check has passed, after any events
    none of which closes the application, the toggle button offers to
    turn the light off (on a green button) exactly when the overlay is
    shown and to turn it on (on a blue one) exactly when it is hidden,
    whether it was hidden by the toggle or by the panic button; the
    overlay is still frameless, always on top and transparent for input,
    and its poll timer still runs at 1000 ms. *)
Theorem toggle_button_tells_visibility env events :
  version_lt (version_info env) 3 10 = false -> Forall wf_event events ->
  existsb closes events = false ->
  let g := snd (main env events unallocated) in
  toggle_btn (control_panel g)
  = (if isVisible (overlay_window g)
     then (ControlPanel.TURN_OFF_TEXT, ControlPanel.GREEN_STYLE)
     else (ControlPanel.TURN_ON_TEXT, ControlPanel.BLUE_STYLE)) /\
  windowFlags (overlay_window g)
  = [FramelessWindowHint; WindowStaysOnTopHint; Tool; WindowTransparentForInput] /\
  attributes (overlay_window g)
  = [WA_TranslucentBackground; WA_TransparentForMouseEvents] /\
  _poll_timer (overlay_window g) = Some 1000.
Proof.
  intros Hver Hwf Hclose. cbv zeta.
  destruct (main_spec env events Hver Hwf)
    as ((_ & (Hfl & Hat & Htm) & _ & _ & Htog) & _ & Hquit).
  rewrite (no_close_no_exit events Hclose), andb_false_r in Hquit.
  split; [exact (Htog Hquit)|]. split; [exact Hfl|]. split; [exact Hat|exact Htm].
Qed.

Lemma toggle_button_tells_visibility_witness :
  let env := mkEnvironment (3, 12) (Qt.mkQRect 0 0 640 480)
                           (Some (Qt.mkQRect 0 0 1920 1080)) true None in
  let events := [ToggleClicked; ToggleClicked; PanicClicked; PanicClicked] in
  version_lt (version_info env) 3 10 = false /\ Forall wf_event events /\
  existsb closes events = false /\
  isVisible (overlay_window (snd (main env events unallocated))) = false /\
  toggle_btn (control_panel (snd (main env events unallocated)))
  = (ControlPanel.TURN_ON_TEXT, ControlPanel.BLUE_STYLE).
Proof.
  cbv zeta.
  set (env := mkEnvironment (3, 12) (Qt.mkQRect 0 0 640 480)
                            (Some (Qt.mkQRect 0 0 1920 1080)) true None).
  set (events := [ToggleClicked; ToggleClicked; PanicClicked; PanicClicked]).
  assert (Hver : version_lt (version_info env) 3 10 = false) by reflexivity.
  assert (Hwf : Forall wf_event events) by (repeat constructor).
  assert (Hcl : existsb closes events = false) by reflexivity.
  assert (Hvis : isVisible (overlay_window (snd (main env events unallocated))) = false)
    by (vm_compute; reflexivity).
  split; [exact Hver|]. split; [exact Hwf|]. split; [exact Hcl|]. split; [exact Hvis|].
  pose proof (proj1 (toggle_button_tells_visibility env events Hver Hwf Hcl)) as H.
  rewrite Hvis in H. exact H.
Defined.

(** X10.  The panel never makes the overlay warn.  Once the version check
    has passed, whatever events arrive, every record the overlay's
    setters and [paintEvent] have logged is a debug record or the warning
    of a paint event on an empty surface: no brightness or thickness was
    clamped, no colour was ignored and no paint event failed. *)
Theorem panel_never_makes_overlay_warn env events :
  version_lt (version_info env) 3 10 = false -> Forall wf_event events ->
  Forall (fun r => fst r = DEBUG \/ r = (WARNING, InvalidDimensions))
         (logged (self (overlay_window (snd (main env events unallocated))))).
Proof.
  intros Hver Hwf.
  destruct (main_spec env events Hver Hwf) as ((_ & _ & Hq & _) & _).
  rewrite forallb_forall in Hq. apply Forall_forall. intros r Hr.
  specialize (Hq r Hr). destruct r as [[| | |] ev]; cbn in Hq; try discriminate; auto.
  destruct ev; try discriminate. auto.
Qed.

Lemma panel_never_makes_overlay_warn_witness :
  let env := mkEnvironment (3, 12) (Qt.mkQRect 0 0 640 480)
                           (Some (Qt.mkQRect 0 0 1920 1080)) true None in
  let events := [BrightnessSliderMoved 1000; ThicknessSliderMoved (-3);
                 ColorClicked Qt.invalid_color; PollTimeout (Some (Qt.mkQRect 0 0 0 0));
                 PaintRequested] in
  version_lt (version_info env) 3 10 = false /\ Forall wf_event events /\
  logged (self (overlay_window (snd (main env events unallocated))))
  = [(DEBUG, BrightnessSet); (DEBUG, ThicknessSet); (WARNING, InvalidDimensions)] /\
  Forall (fun r => fst r = DEBUG \/ r = (WARNING, InvalidDimensions))
         (logged (self (overlay_window (snd (main env events unallocated))))).
Proof.
  cbv zeta.
  set (env := mkEnvironment (3, 12) (Qt.mkQRect 0 0 640 480)
                            (Some (Qt.mkQRect 0 0 1920 1080)) true None).
  set (events := [BrightnessSliderMoved 1000; ThicknessSliderMoved (-3);
                  ColorClicked Qt.invalid_color; PollTimeout (Some (Qt.mkQRect 0 0 0 0));
                  PaintRequested]).
  assert (Hver : version_lt (version_info env) 3 10 = false) by reflexivity.
  assert (Hwf : Forall wf_event events).
  { repeat constructor; vm_compute; reflexivity. }
  split; [exact Hver|]. split; [exact Hwf|]. split; [vm_compute; reflexivity|].
  exact (panel_never_makes_overlay_warn env events Hver Hwf).
Defined.






(** X12.  A preset sets all three parameters, whatever was set before.
    In a state where the panel shows the overlay's parameters, clicking a
    preset button returns normally and leaves the overlay with exactly
    the preset's thickness, its brightness percentage divided by
    [100.0], and its colour (Warm 100% 250px, Cool 120% 280px, Soft 80%
    300px, Intense 150% 200px), with sliders, labels and preview showing
    them; the visibility of the overlay is not changed. *)
Theorem preset_sets_all_parameters button g :
  parameters_shown g ->
  let r := dispatch (PresetClicked button) g in
  let o := self (overlay_window (snd r)) in
  fst r = Done tt /\
  thickness o
  = match button with
    | ControlPanel.Warm => 250
    | ControlPanel.Cool => 280
    | ControlPanel.Soft => 300
    | ControlPanel.Intense => 200
    end /\
  brightness o
  = percent_brightness match button with
                       | ControlPanel.Warm => 100
                       | ControlPanel.Cool => 120
                       | ControlPanel.Soft => 80
                       | ControlPanel.Intense => 150
                       end /\
  color o
  = match button with
    | ControlPanel.Warm => Qt.rgb 255 240 220
    | ControlPanel.Cool => Qt.rgb 255 255 255
    | ControlPanel.Soft => Qt.rgb 255 250 240
    | ControlPanel.Intense => Qt.rgb 255 255 255
    end /\
  parameters_shown (snd r) /\
  isVisible (overlay_window (snd r)) = isVisible (overlay_window g).
Proof.
  intros Hshown. cbv zeta.
  destruct g as [[o org vis fl at_ tm] [bs bval ts tval cp tb wi ps ic] inst jr].
  revert Hshown. split_running.
  intros (Hbs & Hbv & Hb & Hbval & Hts & Htv & Ht & Htval & Hvalid & Hcol & Hcp).
  destruct bs as [bmin bmax bv bc]. destruct ts as [tmin tmax tv tc].
  cbn [value] in *. injection Hbs as -> -> ->. injection Hts as -> -> ->.
  cbn [dispatch].
  assert (Hpre : exists b t col,
            ControlPanel._create_presets button = ControlPanel._apply_preset b t col /\
            fits_int b = true /\ fits_int t = true /\
            Qt.isValid col = true /\ Qt.wf_color col /\
            0 <= b <= 200 /\ 1 <= t <= 900 /\
            t = match button with
                | ControlPanel.Warm => 250
                | ControlPanel.Cool => 280
                | ControlPanel.Soft => 300
                | ControlPanel.Intense => 200
                end /\
            b = match button with
                | ControlPanel.Warm => 100
                | ControlPanel.Cool => 120
                | ControlPanel.Soft => 80
                | ControlPanel.Intense => 150
                end /\
            col = match button with
                  | ControlPanel.Warm => Qt.rgb 255 240 220
                  | ControlPanel.Cool => Qt.rgb 255 255 255
                  | ControlPanel.Soft => Qt.rgb 255 250 240
                  | ControlPanel.Intense => Qt.rgb 255 255 255
                  end).
  { destruct button; do 3 eexists; (split; [reflexivity|]);
      repeat split; try reflexivity; try lia; try discriminate. }
  destruct Hpre as (b & t & col & -> & Hfb & Hft & Hcv & Hcw & Hb200 & Ht900
                    & <- & <- & <-).
  pose proof Hcw as (Hw1 & Hw2 & Hw3 & Hw4).
  unfold ControlPanel._apply_preset, bind.
  rewrite (brightness_slider_setValue_spec b bv _ _ _ _ _ _ _ _ _ _ _ Hfb). cbv zeta.
  replace (Z.max 0 (Z.min 200 b)) with b by lia.
  destruct (Z.eqb_spec bv b) as [Heqb|Hneb];
    cbv beta iota;
    rewrite (thickness_slider_setValue_spec t tv _ _ _ _ _ _ _ _ _ _ _ Hft); cbv zeta;
    replace (Z.max 1 (Z.min 900 t)) with t by lia;
    destruct (Z.eqb_spec tv t) as [Heqt|Hnet];
    run_gui; cbn [with_self self]; rewrite (set_color_valid col _ Hcv); run_gui;
    split_running; subst; repeat split; auto; try lia; congruence.
Qed.

Lemma preset_sets_all_parameters_witness :
  let env := mkEnvironment (3, 12) (Qt.mkQRect 0 0 640 480)
                           (Some (Qt.mkQRect 0 0 1920 1080)) true None in
  let g := snd (main env [BrightnessSliderMoved 29; PresetClicked ControlPanel.Cool]
                     unallocated) in
  parameters_shown g /\
  thickness (self (overlay_window (snd (dispatch (PresetClicked ControlPanel.Warm) g))))
  = 250.
Proof.
  cbv zeta.
  set (g := snd (main _ _ unallocated)).
  assert (Hs : parameters_shown g).
  { vm_compute. repeat split; try reflexivity; discriminate. }
  split; [exact Hs|].
  exact (proj1 (proj2 (preset_sets_all_parameters ControlPanel.Warm g Hs))).
Defined.

(** X13.  Cancelling the colour dialog changes nothing; choosing a colour
    changes only the colour.  For every state, [_pick_color] on the
    invalid colour a cancelled dialog returns leaves the whole state as it
    was, without a warning; on a valid colour it returns normally, the
    overlay has that colour and one more repaint request, the preview
    shows it, and thickness, brightness and visibility are untouched. *)
Theorem pick_color_sets_only_the_color c g :
  let r := ControlPanel._pick_color c g in
  let o := self (overlay_window g) in
  let o' := self (overlay_window (snd r)) in
  fst r = Done tt /\
  (Qt.isValid c = false -> snd r = g) /\
  (Qt.isValid c = true ->
   color o' = c /\ thickness o' = thickness o /\ brightness o' = brightness o /\
   updates o' = S (updates o) /\
   isVisible (overlay_window (snd r)) = isVisible (overlay_window g) /\
   color_preview (control_panel (snd r))
   = (ControlPanel.preview_style c, ControlPanel.preview_tip c)).
Proof.
  cbv zeta. destruct g as [[o org vis fl at_ tm] p inst jr].
  unfold ControlPanel._pick_color. destruct (Qt.isValid c) eqn:Hc.
  - run_gui. rewrite (set_color_valid c _ Hc). run_gui.
    cbn [color thickness brightness updates].
    split; [reflexivity|]. split; [discriminate|]. intros _. repeat split.
  - run_gui. split; [reflexivity|]. split; [reflexivity|discriminate].
Qed.

Lemma toggle_overlay_spec o org vis fl at_ tm bs bval ts tval cp tb wi ps ic inst jr :
  ControlPanel._toggle_overlay
    (mkGui (mkWindow o org vis fl at_ tm)
           (mkPanel bs bval ts tval cp tb wi ps ic) inst jr)
  = (Done tt,
     mkGui (mkWindow o org (negb vis) fl at_ tm)
           (mkPanel bs bval ts tval cp
                    (if vis then (ControlPanel.TURN_ON_TEXT, ControlPanel.BLUE_STYLE)
                     else (ControlPanel.TURN_OFF_TEXT, ControlPanel.GREEN_STYLE))
                    wi ps ic)
           inst
           (jr ++ [(INFO, if vis then ScreenLightOff else ScreenLightOn)])).
Proof. destruct vis; run_gui; reflexivity. Qed.

Lemma panic_off_spec o org vis fl at_ tm bs bval ts tval cp tb wi ps ic inst jr :
  ControlPanel._panic_off
    (mkGui (mkWindow o org vis fl at_ tm)
           (mkPanel bs bval ts tval cp tb wi ps ic) inst jr)
  = (Done tt,
     mkGui (mkWindow o org false fl at_ tm)
           (mkPanel bs bval ts tval cp
                    (ControlPanel.TURN_ON_TEXT, ControlPanel.BLUE_STYLE) wi ps ic)
           inst (jr ++ [(WARNING, PanicPressed)])).
Proof. run_gui. reflexivity. Qed.

(** X14.  Toggling twice is the identity on what is shown, and panic can be
    undone by the toggle.  For every state, [_toggle_overlay] inverts the
    visibility of the overlay and sets the button to the text and style
    of the new state, so two toggles restore the visibility and a third
    click sees the button as after the first; [_panic_off] hides the
    overlay whatever its state, leaving the button as a toggle that hid
    it would, is idempotent on window and panel, and the toggle after it
    shows the overlay again.  None of them touches the overlay's
    parameters. *)
Theorem toggle_twice_restores_visibility g :
  let shown (g : gui) := isVisible (overlay_window g) in
  let button (visible : bool) :=
    if visible then (ControlPanel.TURN_OFF_TEXT, ControlPanel.GREEN_STYLE)
    else (ControlPanel.TURN_ON_TEXT, ControlPanel.BLUE_STYLE) in
  let g1 := snd (ControlPanel._toggle_overlay g) in
  let g2 := snd (ControlPanel._toggle_overlay g1) in
  let gp := snd (ControlPanel._panic_off g) in
  let gpp := snd (ControlPanel._panic_off gp) in
  let gpt := snd (ControlPanel._toggle_overlay gp) in
  shown g1 = negb (shown g) /\ toggle_btn (control_panel g1) = button (shown g1) /\
  shown g2 = shown g /\ toggle_btn (control_panel g2) = button (shown g) /\
  shown gp = false /\ toggle_btn (control_panel gp) = button false /\
  overlay_window gpp = overlay_window gp /\ control_panel gpp = control_panel gp /\
  shown gpt = true /\ toggle_btn (control_panel gpt) = button true /\
  self (overlay_window g2) = self (overlay_window g) /\
  self (overlay_window gpt) = self (overlay_window g).
Proof.
  cbv zeta. destruct g as [[o org vis fl at_ tm] [bs bval ts tval cp tb wi ps ic] inst jr].
  rewrite !toggle_overlay_spec, !panic_off_spec. cbn [fst snd].
  rewrite !toggle_overlay_spec, !panic_off_spec.
  cbn [fst snd overlay_window control_panel isVisible toggle_btn self negb].
  destruct vis; repeat split.
Qed.

(** X15.  Closing ends the event loop at once, with every window
    closed.  Wherever the application instance exists and the panel is
    not already being closed, the close button and the closing of the
    panel both leave the overlay hidden, the panel hidden and [quit()]
    called, the sliders, labels and buttons of the panel and the
    overlay's parameters being untouched; [app.exec()] then returns 0
    without running any of the events that follow, so nothing can show
    the overlay again.  As [quit()] closes the windows that are still
    shown, the close button on a shown panel runs [closeEvent], and with
    it [_close_all], a second time, which logs the closing twice; the
    closing of the panel logs it once.  The nesting ends there: allowing
    more nested calls changes nothing. *)
Theorem closing_ends_the_event_loop e rest g :
  closes e = true -> instance g <> None -> is_closing (control_panel g) = false ->
  let g' := snd (dispatch e g) in
  let w := overlay_window g in
  let p := control_panel g in
  exec (e :: rest) g = (Done 0, g') /\
  g' = mkGui (mkWindow (self w) (origin w) false (windowFlags w) (attributes w)
                       (_poll_timer w))
             (mkPanel (brightness_slider p) (brightness_value p) (thickness_slider p)
                      (thickness_value p) (color_preview p) (toggle_btn p)
                      (windowIcon p) false false)
             (option_map (fun app =>
                mkApplication (applicationName app) (organizationName app) true)
                (instance g))
             (journal g ++
              match e with
              | CloseClicked =>
                  if panel_shown p
                  then [(INFO, ClosingApplication); (INFO, ClosingApplication)]
                  else [(INFO, ClosingApplication)]
              | _ => [(INFO, ClosingApplication)]
              end) /\
  quitting g' = true /\
  forall depth,
    ControlPanel._close_all (S depth) g = ControlPanel._close_all 1 g /\
    ControlPanel.close (ControlPanel._close_all (S depth)) g
    = ControlPanel.close ControlPanel.closeEvent g.
Proof.
  intros He Hinst Hic. destruct g as [[o org vis fl at_ tm] p inst jr].
  destruct p as [bs bval ts tval cp tb wi ps ic].
  cbn [instance] in Hinst. destruct inst as [app|]; [|contradiction].
  cbn [control_panel is_closing] in Hic. subst ic. cbv zeta.
  destruct e; try discriminate; destruct ps; cbn [exec dispatch];
    (split; [run_gui; unfold quitting; run_gui; reflexivity|]);
    (split; [run_gui; rewrite <- ?app_assoc; reflexivity|]);
    (split; [run_gui; unfold quitting; run_gui; reflexivity|]);
    intros [|depth]; split; try reflexivity; run_gui; reflexivity.
Qed.

Lemma closing_ends_the_event_loop_witness :
  let env := mkEnvironment (3, 12) (Qt.mkQRect 0 0 640 480)
                           (Some (Qt.mkQRect 0 0 1920 1080)) true None in
  let g := snd (main env [] unallocated) in
  closes CloseClicked = true /\ instance g <> None /\
  is_closing (control_panel g) = false /\
  fst (exec [CloseClicked; ToggleClicked] g) = Done 0 /\
  isVisible (overlay_window (snd (exec [CloseClicked; ToggleClicked] g))) = false /\
  panel_shown (control_panel (snd (exec [CloseClicked; ToggleClicked] g))) = false /\
  journal (snd (exec [CloseClicked; ToggleClicked] g))
  = journal g ++ [(INFO, ClosingApplication); (INFO, ClosingApplication)].
Proof.
  cbv zeta.
  set (g := snd (main _ [] unallocated)).
  assert (Hc : closes CloseClicked = true) by reflexivity.
  assert (Hi : instance g <> None) by (vm_compute; discriminate).
  assert (Hn : is_closing (control_panel g) = false) by (vm_compute; reflexivity).
  split; [exact Hc|]. split; [exact Hi|]. split; [exact Hn|].
  destruct (closing_ends_the_event_loop CloseClicked [ToggleClicked] g Hc Hi Hn)
    as (Hex & Hst & _).
  rewrite Hex, Hst. cbn [fst snd overlay_window control_panel isVisible panel_shown journal].
  repeat split; vm_compute; reflexivity.
Defined.

(** Conditions that evaluate to a boolean are decided. *)
Ltac step_if :=
  match goal with
  | |- context [if ?c then _ else _] =>
      let c' := eval vm_compute in c in
      lazymatch c' with
      | true => change c with true
      | false => change c with false
      end
  end;
  cbv beta iota.

Lemma create_brightness_control_spec o org vis fl at_ tm bs bval ts tval cp tb wi ps ic
    inst jr x n :
  float_mul_int (brightness o) 100 = Py.Done x ->
  Py.int_of_float x = Py.Done n ->
  fits_int n = true ->
  ControlPanel._create_brightness_control
    (mkGui (mkWindow o org vis fl at_ tm) (mkPanel bs bval ts tval cp tb wi ps ic) inst jr)
  = (Done tt,
     mkGui (mkWindow o org vis fl at_ tm)
           (mkPanel (mkSlider 0 200 (Z.max 0 (Z.min 200 n)) true) "100%"
                    ts tval cp tb wi ps ic)
           inst jr).
Proof.
  intros Hx Hn Hf. unfold ControlPanel._create_brightness_control.
  run_gui. repeat (step_if; run_gui).
  rewrite Hx. run_gui. rewrite Hn. run_gui. rewrite Hf. run_gui.
  cbn [new_slider minimum maximum value connected].
  change (Z.max Ringlight.MIN_BRIGHTNESS_PERCENT Ringlight.MAX_BRIGHTNESS_PERCENT)
    with 200.
  change Ringlight.MIN_BRIGHTNESS_PERCENT with 0.
  destruct (Z.eqb_spec 0 (Z.max 0 (Z.min 200 n))) as [<-|Hne]; run_gui; reflexivity.
Qed.

(** [int(b * 100)] for the brightness [b] of each slider position. *)
Lemma slider_positions v :
  0 <= v <= 200 ->
  exists x,
    float_mul_int (percent_brightness v) 100 = Py.Done x /\
    Py.int_of_float x
    = Py.Done (if existsb (Z.eqb v) [29; 57; 58; 113; 114; 115; 116]
               then v - 1 else v).
Proof.
  intros Hv.
  assert (Hall : forallb
            (fun v =>
               match float_mul_int (percent_brightness v) 100 with
               | Py.Done x =>
                   match Py.int_of_float x with
                   | Py.Done n =>
                       n =? (if existsb (Z.eqb v) [29; 57; 58; 113; 114; 115; 116]
                             then v - 1 else v)
                   | Py.Raise _ => false
                   end
               | Py.Raise _ => false
               end)
            (map Z.of_nat (seq 0 201)) = true) by (vm_compute; reflexivity).
  rewrite forallb_forall in Hall.
  specialize (Hall v).
  assert (Hin : In v (map Z.of_nat (seq 0 201))).
  { apply in_map_iff. exists (Z.to_nat v). split; [lia|]. apply in_seq. lia. }
  specialize (Hall Hin).
  destruct (float_mul_int (percent_brightness v) 100) as [x|]; [|discriminate].
  exists x. split; [reflexivity|].
  destruct (Py.int_of_float x) as [n|]; [|discriminate].
  apply Z.eqb_eq in Hall. rewrite Hall. reflexivity.
Qed.

(** X16.  The brightness slider does not always start where the brightness
    was set.  When the panel is built on an overlay whose brightness was
    set from the percentage [v] between 0 and 200,
    [_create_brightness_control] returns normally with the slider at
    [int(brightness * 100)], which is [v] except for the percentages 29,
    57, 58, 113, 114, 115 and 116, where the product falls just below the
    integer and the slider starts at [v - 1]; and the value label reads
    100% whatever the brightness. *)
Theorem brightness_slider_start_position v g :
  0 <= v <= 200 ->
  brightness (self (overlay_window g)) = percent_brightness v ->
  let r := ControlPanel._create_brightness_control g in
  let p := control_panel (snd r) in
  fst r = Done tt /\
  brightness_slider p
  = mkSlider 0 200
             (if existsb (Z.eqb v) [29; 57; 58; 113; 114; 115; 116] then v - 1 else v)
             true /\
  brightness_value p = "100%" /\
  overlay_window (snd r) = overlay_window g.
Proof.
  intros Hv Hb. cbv zeta.
  destruct g as [[o org vis fl at_ tm] [bs bval ts tval cp tb wi ps ic] inst jr].
  cbn [overlay_window self] in Hb.
  destruct (slider_positions v Hv) as (x & Hx & Hn). rewrite <- Hb in Hx.
  set (n := if existsb (Z.eqb v) [29; 57; 58; 113; 114; 115; 116] then v - 1 else v) in *.
  assert (Hn0 : 0 <= n <= 200).
  { unfold n. destruct (existsb (Z.eqb v) [29; 57; 58; 113; 114; 115; 116]) eqn:He; [|lia].
    cbn [existsb] in He. rewrite !orb_true_iff, !Z.eqb_eq in He. lia. }
  assert (Hf : fits_int n = true).
  { unfold fits_int. apply andb_true_iff. split; [apply Z.leb_le|apply Z.ltb_lt]; lia. }
  rewrite (create_brightness_control_spec _ _ _ _ _ _ _ _ _ _ _ _ _ _ _ _ _ x n Hx Hn Hf).
  cbn [fst snd control_panel overlay_window brightness_slider brightness_value].
  replace (Z.max 0 (Z.min 200 n)) with n by lia.
  repeat split.
Qed.

Lemma brightness_slider_start_position_witness :
  let g := snd (on_overlay (Ringlight.set_brightness_percent (PyInt 29)) unallocated) in
  0 <= 29 <= 200 /\
  brightness (self (overlay_window g)) = percent_brightness 29 /\
  value (brightness_slider (control_panel (snd (ControlPanel._create_brightness_control g))))
  = 28.
Proof.
  cbv zeta.
  set (g := snd (on_overlay (Ringlight.set_brightness_percent (PyInt 29)) unallocated)).
  assert (Hv : 0 <= 29 <= 200) by lia.
  assert (Hb : brightness (self (overlay_window g)) = percent_brightness 29)
    by (vm_compute; reflexivity).
  split; [exact Hv|]. split; [exact Hb|].
  rewrite (proj1 (proj2 (brightness_slider_start_position 29 g Hv Hb))). reflexivity.
Defined.

(** [int(b * 100)] for a brightness between [0.0] and [2.0]: a small
    non-negative integer. *)
Lemma slider_position_unit_range b :
  Py.float_valid b = true -> Py.fle zero b = true -> Py.fle b two = true ->
  exists x n,
    float_mul_int b 100 = Py.Done x /\ Py.int_of_float x = Py.Done n /\
    0 <= n < 1024.
Proof.
  intros Hv H0 H2.
  assert (Hh : Py.float_of_int 100 = Py.Done hundred) by reflexivity.
  unfold float_mul_int. rewrite Hh.
  destruct (unit_range_shape b H0 H2) as [[s ->]|(m & e & -> & He)].
  { exists (Py.fmul (S754_zero s) hundred), 0. split; [reflexivity|].
    split; [reflexivity|lia]. }
  pose proof (valid_mantissa _ _ _ Hv) as Hm.
  unfold hundred.
  destruct (fmul_no_overflow false m e false 7036874417766400 (-46)
              Hm ltac:(cbn; lia) ltac:(lia)) as [Hz|(m' & e' & Hfin & Hm' & He')].
  - rewrite Hz. exists (S754_zero (xorb false false)), 0.
    split; [reflexivity|]. split; [reflexivity|lia].
  - rewrite Hfin. cbn [xorb].
    eexists _, _. split; [reflexivity|]. rewrite int_of_float_finite. cbv zeta.
    split; [reflexivity|].
    assert (He43 : e' <= -43) by lia.
    destruct (Z.ltb_spec e' 0); [|lia].
    pose proof (pow2_pos (- e') ltac:(lia)) as Hp.
    split; [apply Z.div_pos; lia|].
    apply Z.div_lt_upper_bound; [lia|].
    assert (2 ^ 43 <= 2 ^ (- e')) by (apply Z.pow_le_mono_r; lia).
    change (2 ^ 53) with (1024 * 2 ^ 43) in Hm'. nia.
Qed.

Lemma thickness_setRange_new w bs bval tval cp tb wi ps ic inst jr :
  ControlPanel.setRange thickness_slider ControlPanel.set_thickness_slider
    ControlPanel._on_thickness_changed Ringlight.MIN_THICKNESS Ringlight.MAX_THICKNESS
    (mkGui w (mkPanel bs bval new_slider tval cp tb wi ps ic) inst jr)
  = (Done tt, mkGui w (mkPanel bs bval (mkSlider 1 900 1 false) tval cp tb wi ps ic) inst jr).
Proof. vm_compute. reflexivity. Qed.

Lemma thickness_setValue_unconnected v lo hi val w bs bval tval cp tb wi ps ic inst jr :
  fits_int v = true ->
  ControlPanel.thickness_slider_setValue v
    (mkGui w (mkPanel bs bval (mkSlider lo hi val false) tval cp tb wi ps ic) inst jr)
  = (Done tt,
     mkGui w (mkPanel bs bval (mkSlider lo hi (Z.max lo (Z.min hi v)) false) tval
                      cp tb wi ps ic) inst jr).
Proof.
  intros Hf. run_gui. rewrite Hf. run_gui.
  destruct (Z.eqb_spec val (Z.max lo (Z.min hi v))) as [->|Hne]; run_gui; reflexivity.
Qed.

Lemma create_thickness_control_spec o org vis fl at_ tm bs bval ts tval cp tb wi ps ic
    inst jr :
  fits_int (thickness o) = true ->
  ControlPanel._create_thickness_control
    (mkGui (mkWindow o org vis fl at_ tm) (mkPanel bs bval ts tval cp tb wi ps ic) inst jr)
  = (Done tt,
     mkGui (mkWindow o org vis fl at_ tm)
           (mkPanel bs bval
                    (mkSlider 1 900 (Z.max 1 (Z.min 900 (thickness o))) true) "220px"
                    cp tb wi ps ic)
           inst jr).
Proof.
  intros Hf. unfold ControlPanel._create_thickness_control.
  cbv beta iota delta [bind].
  unfold ControlPanel.set_thickness_value at 1, ControlPanel.set_thickness_slider at 1,
    with_panel, modify.
  cbn [overlay_window control_panel instance journal brightness_slider brightness_value
       thickness_slider thickness_value color_preview toggle_btn windowIcon panel_shown is_closing].
  rewrite thickness_setRange_new.
  unfold overlay_attr, get. cbn [overlay_window self].
  rewrite (thickness_setValue_unconnected _ _ _ _ _ _ _ _ _ _ _ _ _ _ _ Hf).
  unfold ControlPanel.connect, bind, get, ControlPanel.set_thickness_slider,
    with_panel, modify.
  cbn [overlay_window control_panel instance journal brightness_slider brightness_value
       thickness_slider thickness_value color_preview toggle_btn windowIcon panel_shown is_closing
       minimum maximum value connected].
  reflexivity.
Qed.

Ltac proj_gui :=
  cbn [overlay_window control_panel instance journal
       self origin isVisible windowFlags attributes _poll_timer
       brightness_slider brightness_value thickness_slider thickness_value
       color_preview toggle_btn windowIcon panel_shown is_closing
       minimum maximum value connected
       applicationName organizationName quit_called
       fst snd negb].

Lemma panel_init_on_overlay env o org vis fl at_ tm p inst jr x n :
  float_mul_int (brightness o) 100 = Py.Done x ->
  Py.int_of_float x = Py.Done n ->
  fits_int n = true ->
  fits_int (thickness o) = true ->
  qtsvg_importable env = true ->
  exists icon jr',
    ControlPanel.__init__ ControlPanel.PassOverlay env
      (mkGui (mkWindow o org vis fl at_ tm) p inst jr)
    = (Done tt,
       mkGui (mkWindow o org vis fl at_ tm)
             (mkPanel (mkSlider 0 200 (Z.max 0 (Z.min 200 n)) true) "100%"
                      (mkSlider 1 900 (Z.max 1 (Z.min 900 (thickness o))) true) "220px"
                      (ControlPanel.preview_style (color o),
                       ControlPanel.preview_tip (color o))
                      (ControlPanel.TURN_OFF_TEXT, ControlPanel.GREEN_STYLE)
                      icon false false)
             inst jr').
Proof.
  intros Hx Hn Hfn Hf Himp.
  unfold ControlPanel.__init__. cbv beta iota delta [bind].
  unfold with_panel at 1, modify at 1.
  cbn [overlay_window control_panel instance journal]. unfold new_panel.
  unfold ControlPanel._setup_ui. cbv beta iota delta [bind].
  rewrite (create_brightness_control_spec _ _ _ _ _ _ _ _ _ _ _ _ _ _ _ _ _ x n Hx Hn Hfn).
  cbv beta iota.
  rewrite (create_thickness_control_spec _ _ _ _ _ _ _ _ _ _ _ _ _ _ _ _ _ Hf).
  cbv beta iota.
  unfold ControlPanel._create_color_control, ControlPanel._create_action_buttons,
    ControlPanel._set_window_icon.
  rewrite Himp. cbn [negb].
  cbv beta iota.
  cbv beta iota delta [bind ret when try_except ControlPanel.set_color_preview
                       with_panel modify].
  proj_gui.
  cbv beta iota delta [ControlPanel._update_color_preview bind get overlay_attr
                       ControlPanel.setStyleSheet ControlPanel.set_color_preview
                       with_panel modify ret].
  proj_gui.
  cbv beta iota delta [ControlPanel.set_toggle_btn ControlPanel.setStyleSheet
                       with_panel modify bind ret].
  proj_gui.
  destruct (icon_rendering env) as [e|].
  - cbv beta iota delta [raise]. cbn [is_Exception].
    cbv beta iota delta [logger modify bind ret]. proj_gui.
    do 2 eexists; reflexivity.
  - cbv beta iota delta [ControlPanel.setWindowIcon with_panel modify bind ret].
    proj_gui.
    cbv beta iota delta [logger modify bind ret]. proj_gui.
    do 2 eexists; reflexivity.
Qed.

(** X17.  A panel can be built on any overlay the setters leave behind, and
    starts from fixed labels.  For every overlay state the setters
    maintain whose thickness fits a C [int], with [PySide6.QtSvg]
    importable, [ControlPanel(overlay)] returns normally and does not
    touch the overlay; the thickness slider starts at
    [min(thickness, 900)], so a thickness above 900 stays in the overlay
    while the slider shows 900; the brightness slider starts within 0 and
    200; but the value labels read 100% and 220px and the toggle button
    offers to turn the light off whatever the overlay's brightness,
    thickness and visibility are.  [None] or another object instead of
    the overlay raises [ValueError] before anything is built. *)
Theorem panel_starts_from_fixed_labels env g :
  parameters_ok (self (overlay_window g)) ->
  fits_int (thickness (self (overlay_window g))) = true ->
  qtsvg_importable env = true ->
  let r := ControlPanel.__init__ ControlPanel.PassOverlay env g in
  let o := self (overlay_window g) in
  let p := control_panel (snd r) in
  fst r = Done tt /\ overlay_window (snd r) = overlay_window g /\
  thickness_slider p = mkSlider 1 900 (Z.min 900 (thickness o)) true /\
  thickness_value p = "220px" /\
  (exists n, brightness_slider p = mkSlider 0 200 n true /\ 0 <= n <= 200) /\
  brightness_value p = "100%" /\
  color_preview p = (ControlPanel.preview_style (color o),
                     ControlPanel.preview_tip (color o)) /\
  toggle_btn p = (ControlPanel.TURN_OFF_TEXT, ControlPanel.GREEN_STYLE) /\
  ControlPanel.__init__ ControlPanel.PassNone env g = (Raise (Exception Py.ValueError), g) /\
  (forall x, ControlPanel.__init__ (ControlPanel.PassObject x) env g
             = (Raise (Exception Py.ValueError), g)).
Proof.
  intros (Ht & Hb & _) Hf Himp. cbv zeta.
  destruct g as [[o org vis fl at_ tm] p inst jr].
  cbn [overlay_window self] in *.
  apply brightness_ok_literals in Hb. destruct Hb as (Hv & H0 & H2).
  destruct (slider_position_unit_range _ Hv H0 H2) as (x & n & Hx & Hn & Hn0).
  assert (Hfn : fits_int n = true).
  { unfold fits_int. apply andb_true_iff. split; [apply Z.leb_le|apply Z.ltb_lt]; lia. }
  destruct (panel_init_on_overlay env o org vis fl at_ tm p inst jr x n Hx Hn Hfn Hf Himp)
    as (icon & jr' & ->).
  cbn [fst snd overlay_window control_panel brightness_slider brightness_value
       thickness_slider thickness_value color_preview toggle_btn].
  split; [reflexivity|]. split; [reflexivity|].
  split; [f_equal; lia|]. split; [reflexivity|].
  split; [exists (Z.max 0 (Z.min 200 n)); split; [reflexivity|lia]|].
  repeat split.
Qed.

Lemma panel_starts_from_fixed_labels_witness :
  let env := mkEnvironment (3, 12) (Qt.mkQRect 0 0 640 480)
                           (Some (Qt.mkQRect 0 0 1920 1080)) true None in
  let g := snd (on_overlay (Ringlight.set_thickness (PyInt 1000))
                  (snd (RingLightOverlay.__init__ env unallocated))) in
  parameters_ok (self (overlay_window g)) /\
  fits_int (thickness (self (overlay_window g))) = true /\
  qtsvg_importable env = true /\
  thickness (self (overlay_window g)) = 1000 /\
  thickness_slider (control_panel
                      (snd (ControlPanel.__init__ ControlPanel.PassOverlay env g)))
  = mkSlider 1 900 900 true /\
  thickness_value (control_panel
                     (snd (ControlPanel.__init__ ControlPanel.PassOverlay env g)))
  = "220px".
Proof.
  cbv zeta.
  set (env := mkEnvironment (3, 12) (Qt.mkQRect 0 0 640 480)
                            (Some (Qt.mkQRect 0 0 1920 1080)) true None).
  set (g := snd (on_overlay (Ringlight.set_thickness (PyInt 1000))
                   (snd (RingLightOverlay.__init__ env unallocated)))).
  assert (Hok : parameters_ok (self (overlay_window g))).
  { vm_compute. repeat split; try reflexivity; discriminate. }
  assert (Hf : fits_int (thickness (self (overlay_window g))) = true)
    by (vm_compute; reflexivity).
  assert (Hi : qtsvg_importable env = true) by reflexivity.
  assert (Ht : thickness (self (overlay_window g)) = 1000) by (vm_compute; reflexivity).
  split; [exact Hok|]. split; [exact Hf|]. split; [exact Hi|]. split; [exact Ht|].
  destruct (panel_starts_from_fixed_labels env g Hok Hf Hi)
    as (_ & _ & Hts & Htv & _).
  cbv zeta in Hts, Htv. rewrite Ht in Hts. split; [exact Hts|exact Htv].
Defined.
